(** * R&D report builder: table-text inference, persistence and the two renderers

    A shallow embedding of [RGGP7.py].  Python strings are lists of Unicode
    code points; a call that can raise returns a [result]; dialogs, file
    writes and library calls are recorded as events of a trace.

    The standard-library pieces the program calls ([str] methods, [re.split]
    with the pattern [\s{2,}], [csv.Sniffer], [csv.reader]) are modelled in
    the modules [Py] and [Csv] after CPython 3.11. *)

From Stdlib Require Import List NArith ZArith Bool Lia.
From Stdlib Require Import String Ascii DecimalString.
From Stdlib Require Import Floats Uint63.
Import ListNotations.

Set Implicit Arguments.

(* ------------------------------------------------------------------ *)
(** * Results of calls that may raise *)

Inductive exn : Type :=
| CsvError (msg : string)      (* csv.Error *)
| TypeError (msg : string)     (* a missing keyword argument; a call of None *)
| OSError (msg : string)       (* file system failures *)
| IndexError (msg : string).   (* an index out of range *)

Inductive result (A : Type) : Type :=
| Ok (a : A)
| Raise (e : exn).

Arguments Ok {A} a.
Arguments Raise {A} e.

Definition bind {A B : Type} (m : result A) (k : A -> result B) : result B :=
  match m with
  | Ok a => k a
  | Raise e => Raise e
  end.

Notation "x <- m ;; k" := (bind m (fun x => k))
  (at level 61, m at next level, right associativity).

Fixpoint mapM {A B : Type} (f : A -> result B) (l : list A) : result (list B) :=
  match l with
  | [] => Ok []
  | a :: l' => b <- f a ;; bs <- mapM f l' ;; Ok (b :: bs)
  end.

(* ------------------------------------------------------------------ *)
(** * Python strings *)

Module Py.

Definition char := N.
Definition str := list char.

(** Literals of the program text, written as Rocq strings. *)
Definition lit (s : string) : str := map N_of_ascii (list_ascii_of_string s).

Definition TAB : char := 9%N.
Definition LF : char := 10%N.
Definition CR : char := 13%N.
Definition SPACE : char := 32%N.
Definition DQUOTE : char := 34%N.
Definition SQUOTE : char := 39%N.
Definition COMMA : char := 44%N.
Definition COLON : char := 58%N.
Definition SEMICOLON : char := 59%N.

Definition mem (c : char) (s : str) : bool := existsb (N.eqb c) s.

Fixpoint str_eqb (a b : str) : bool :=
  match a, b with
  | [], [] => true
  | x :: a', y :: b' => N.eqb x y && str_eqb a' b'
  | _, _ => false
  end.

(** Truth value of a string: non-empty. *)
Definition truthy (s : str) : bool :=
  match s with [] => false | _ :: _ => true end.

(** [str.isspace] of one character, which is also the class [\s] of [re]
    on [str] patterns. *)
Definition isspace (c : char) : bool :=
  ((9 <=? c) && (c <=? 13) || (28 <=? c) && (c <=? 32)
   || (c =? 133) || (c =? 160) || (c =? 5760)
   || (8192 <=? c) && (c <=? 8202)
   || (c =? 8232) || (c =? 8233) || (c =? 8239) || (c =? 8287)
   || (c =? 12288))%N.

(** The line boundaries of [str.splitlines]. *)
Definition is_linebreak (c : char) : bool :=
  ((10 <=? c) && (c <=? 13) || (28 <=? c) && (c <=? 30)
   || (c =? 133) || (c =? 8232) || (c =? 8233))%N.

Fixpoint dropwhile (p : char -> bool) (s : str) : str :=
  match s with
  | [] => []
  | c :: s' => if p c then dropwhile p s' else s
  end.

Definition lstrip_by (p : char -> bool) (s : str) : str := dropwhile p s.
Definition rstrip_by (p : char -> bool) (s : str) : str :=
  rev (dropwhile p (rev s)).
Definition strip_by (p : char -> bool) (s : str) : str :=
  rstrip_by p (lstrip_by p s).

(** [s.strip()] *)
Definition strip (s : str) : str := strip_by isspace s.

(** [s.strip(chars)] *)
Definition strip_chars (chars : str) (s : str) : str :=
  strip_by (fun c => mem c chars) s.

(** [s.splitlines()]: [cur] holds the current line, reversed.  A carriage
    return followed by a line feed is one boundary; a final boundary opens
    no further line. *)
Fixpoint splitlines_from (cur : str) (s : str) : list str :=
  match s with
  | [] => match cur with [] => [] | _ :: _ => [rev cur] end
  | c :: rest =>
      if is_linebreak c then
        rev cur ::
        match rest with
        | c2 :: rest' =>
            if (c =? CR)%N && (c2 =? LF)%N
            then splitlines_from [] rest'
            else splitlines_from [] rest
        | [] => splitlines_from [] rest
        end
      else splitlines_from (c :: cur) rest
  end.

Definition splitlines (s : str) : list str := splitlines_from [] s.

(** Puts a character in front of the first piece. *)
Definition cons_head (c : char) (ps : list str) : list str :=
  match ps with
  | [] => [[c]]
  | p :: ps' => (c :: p) :: ps'
  end.

(** [s.split(sep)] for a one-character separator. *)
Fixpoint split_on (sep : char) (s : str) : list str :=
  match s with
  | [] => [[]]
  | c :: rest =>
      if (c =? sep)%N then [] :: split_on sep rest
      else cons_head c (split_on sep rest)
  end.

(** [re.split(r"\s{2,}", s)]: a maximal run of two or more white-space
    characters separates two pieces; a single one stays in its piece.
    [in_sep] says that the previous character belonged to a separator. *)
Fixpoint re_split_ws2_from (in_sep : bool) (s : str) : list str :=
  match s with
  | [] => [[]]
  | c :: rest =>
      if isspace c then
        if in_sep then re_split_ws2_from true rest
        else
          match rest with
          | c2 :: _ =>
              if isspace c2 then [] :: re_split_ws2_from true rest
              else cons_head c (re_split_ws2_from false rest)
          | [] => cons_head c (re_split_ws2_from false rest)
          end
      else cons_head c (re_split_ws2_from false rest)
  end.

Definition re_split_ws2 (s : str) : list str := re_split_ws2_from false s.

(** [s.count(c)] for one character. *)
Definition count (c : char) (s : str) : nat :=
  List.length (filter (N.eqb c) s).

Fixpoint startswith (p s : str) : bool :=
  match p, s with
  | [], _ => true
  | x :: p', y :: s' => N.eqb x y && startswith p' s'
  | _ :: _, [] => false
  end.

(** [s.count(sub)] for a non-empty [sub]: occurrences that do not overlap,
    found from the left; [skip] characters of the last one remain. *)
Fixpoint count_sub_from (sub : str) (skip : nat) (s : str) : nat :=
  match s with
  | [] => 0
  | _ :: rest =>
      match skip with
      | S k => count_sub_from sub k rest
      | O =>
          if startswith sub s
          then S (count_sub_from sub (List.length sub - 1) rest)
          else count_sub_from sub 0 rest
      end
  end.

Definition count_sub (sub : str) (s : str) : nat := count_sub_from sub 0 s.

(** [s.replace(c, by)] for a one-character [c]. *)
Definition replace (c : char) (by_ : str) (s : str) : str :=
  flat_map (fun x => if (x =? c)%N then by_ else [x]) s.

(** [str(n)] for a natural number. *)
Definition of_nat (n : nat) : str :=
  lit (NilEmpty.string_of_uint (Nat.to_uint n)).

End Py.

Import Py.

(* ------------------------------------------------------------------ *)
(** * The csv module: [Sniffer.sniff] and [reader] *)

Module Csv.

(** The attributes of the sniffed dialect that the reader looks at.  The
    others are fixed: QUOTE_MINIMAL, no escape character, not strict. *)
Record dialect : Type := {
  delimiter : char;
  quotechar : char;
  doublequote : bool;
  skipinitialspace : bool
}.

(** What [_guess_quote_and_delimiter] returns.  [None] stands for the
    empty string (and for the None delimiter): both are false. *)
Record quote_guess : Type := {
  qg_quotechar : option char;
  qg_doublequote : bool;
  qg_delimiter : option char;
  qg_skipinitialspace : bool
}.

Definition no_match : quote_guess :=
  {| qg_quotechar := None; qg_doublequote := false;
     qg_delimiter := None; qg_skipinitialspace := false |}.

Definition has_quote (data : str) : bool :=
  mem DQUOTE data || mem SQUOTE data.

(** [_guess_quote_and_delimiter]: each of its four patterns contains a
    quote character, so a sample without one has no match.  On the other
    samples the regular-expression search is left to [regex_guess]. *)
Definition guess_quote_and_delimiter
    (regex_guess : str -> str -> quote_guess) (data delimiters : str)
  : quote_guess :=
  if has_quote data then regex_guess data delimiters else no_match.

(** ** [_guess_delimiter] *)

(** [metaFrequency]: how many lines show a character [freq] times, the
    keys in the order of their first insertion. *)
Definition meta := list (nat * nat).

Fixpoint bump (freq : nat) (m : meta) : meta :=
  match m with
  | [] => [(freq, 1)]
  | (f, n) :: m' =>
      if Nat.eqb f freq then (f, S n) :: m' else (f, n) :: bump freq m'
  end.

(** [ascii = [chr(c) for c in range(127)]] *)
Definition ascii : list char := map N.of_nat (seq 0 127).

(** [charFrequency], one table per character of [ascii], in that order. *)
Definition frequencies := list meta.

Definition no_frequencies : frequencies := repeat [] 127.

Definition count_line (line : str) (t : frequencies) : frequencies :=
  map (fun cm => bump (count (fst cm) line) (snd cm)) (combine ascii t).

(** [max(items, key=lambda x: x[1])]: the first item of greatest count. *)
Fixpoint first_max (best : nat * nat) (items : meta) : nat * nat :=
  match items with
  | [] => best
  | it :: items' =>
      if Nat.ltb (snd best) (snd it) then first_max it items'
      else first_max best items'
  end.

Fixpoint remove_first (x : nat * nat) (items : meta) : meta :=
  match items with
  | [] => []
  | it :: items' =>
      if Nat.eqb (fst it) (fst x) && Nat.eqb (snd it) (snd x) then items'
      else it :: remove_first x items'
  end.

(** The entry of [modes] for one character, [None] where the loop
    continues without setting it. *)
Definition mode_of (items : meta) : option (nat * Z) :=
  match items with
  | [] => None
  | [(O, _)] => None
  | [it] => Some (fst it, Z.of_nat (snd it))
  | it :: _ :: _ =>
      let m := first_max it items in
      let others := remove_first m items in
      Some (fst m,
            (Z.of_nat (snd m) - Z.of_nat (list_sum (map snd others)))%Z)
  end.

(** [modes], indexed like [frequencies]; an entry that is not set in this
    pass keeps its value. *)
Definition modes := list (option (nat * Z)).

Definition no_modes : modes := repeat None 127.

Definition update_modes (old : modes) (t : frequencies) : modes :=
  map (fun om => match mode_of (snd om) with
                 | Some v => Some v
                 | None => fst om
                 end) (combine old t).

(** [delims]: the candidate delimiters with their modes. *)
Definition delims := list (char * (nat * Z)).

(** [float(n)] of a count; exact for the counts below 2^53. *)
Definition float_of_Z (z : Z) : float := PrimFloat.of_uint63 (Uint63.of_Z z).

(** One pass of [for k, v in modeList] at a given consistency. *)
Definition select (ms : modes) (total consistency : float) (delimiters : str)
  : delims :=
  flat_map
    (fun km =>
       match snd km with
       | Some (v0, v1) =>
           if Nat.ltb 0 v0 && (0 <? v1)%Z
              && PrimFloat.leb consistency
                   (PrimFloat.div (float_of_Z v1) total)
              && mem (fst km) delimiters
           then [(fst km, (v0, v1))]
           else []
       | None => []
       end)
    (combine ascii ms).

Definition threshold : float := 0x1.ccccccccccccdp-1%float.   (* 0.9 *)
Definition step : float := 0x1.47ae147ae147bp-7%float.        (* 0.01 *)

(** [while len(delims) == 0 and consistency >= threshold].  The
    consistency falls below the threshold after ten passes, see
    [consistency_passes]. *)
Fixpoint consistency_loop (fuel : nat) (consistency : float)
    (ms : modes) (total : float) (delimiters : str) : delims :=
  match fuel with
  | O => []
  | S fuel' =>
      if PrimFloat.leb threshold consistency then
        match select ms total consistency delimiters with
        | [] => consistency_loop fuel' (PrimFloat.sub consistency step)
                  ms total delimiters
        | d => d
        end
      else []
  end.

(** [data[0].count(delim) == data[0].count("%c " % delim)] *)
Definition skip_space (delim : char) (data : list str) : bool :=
  let first := hd [] data in
  Nat.eqb (count delim first) (count_sub [delim; SPACE] first).

Definition preferred : list char := [COMMA; TAB; SEMICOLON; SPACE; COLON].

(** The order of the tuples [(v, k)] that [items.sort()] uses. *)
Definition tuple_ltb (a b : char * (nat * Z)) : bool :=
  let '(ka, (fa, ca)) := a in
  let '(kb, (fb, cb)) := b in
  Nat.ltb fa fb
  || Nat.eqb fa fb && ((ca <? cb)%Z || (ca =? cb)%Z && (ka <? kb)%N).

Fixpoint greatest (best : char * (nat * Z)) (ds : delims) : char * (nat * Z) :=
  match ds with
  | [] => best
  | d :: ds' => if tuple_ltb best d then greatest d ds' else greatest best ds'
  end.

(** The code after the chunk loop. *)
Definition after_chunks (data : list str) (ds : delims) : option char * bool :=
  match ds with
  | [] => (None, false)
  | d0 :: ds' =>
      let by_preference :=
        match ds' with
        | [] => None
        | _ :: _ => find (fun d => existsb (fun kv => N.eqb d (fst kv)) ds)
                      preferred
        end in
      match by_preference with
      | Some d => (Some d, skip_space d data)
      | None =>
          let d := fst (greatest d0 ds') in
          (Some d, skip_space d data)
      end
  end.

(** [data[start:end]] for the successive values of [start]. *)
Fixpoint chunks_of (fuel n : nat) (l : list str) : list (list str) :=
  match fuel, l with
  | S fuel', _ :: _ => firstn n l :: chunks_of fuel' n (skipn n l)
  | _, _ => []
  end.

(** The chunk loop [while start < len(data)]. *)
Fixpoint chunk_loop (data : list str) (chunkLength : nat) (delimiters : str)
    (chunks : list (list str)) (iteration : nat)
    (t : frequencies) (ms : modes) (ds : delims) : option char * bool :=
  match chunks with
  | [] => after_chunks data ds
  | chunk :: chunks' =>
      let iteration := S iteration in
      let t := fold_left (fun t line => count_line line t) chunk t in
      let ms := update_modes ms t in
      let total :=
        float_of_Z (Z.of_nat (Nat.min (chunkLength * iteration)
                                      (List.length data))) in
      let ds :=
        match ds with
        | [] => consistency_loop 11 1%float ms total delimiters
        | _ :: _ => ds
        end in
      match ds with
      | [(d, _)] => (Some d, skip_space d data)
      | _ => chunk_loop data chunkLength delimiters chunks' iteration t ms ds
      end
  end.

Definition guess_delimiter (data delimiters : str) : option char * bool :=
  let data := filter truthy (split_on LF data) in
  let chunkLength := Nat.min 10 (List.length data) in
  chunk_loop data chunkLength delimiters
    (chunks_of (List.length data) chunkLength data) 0
    no_frequencies no_modes [].

(** ** [sniff] *)

Definition sniff (regex_guess : str -> str -> quote_guess)
    (sample delimiters : str) : result dialect :=
  let g := guess_quote_and_delimiter regex_guess sample delimiters in
  let '(delim, skip) :=
    match qg_delimiter g with
    | Some d => (Some d, qg_skipinitialspace g)
    | None => guess_delimiter sample delimiters
    end in
  match delim with
  | None => Raise (CsvError "Could not determine delimiter")
  | Some d =>
      Ok {| delimiter := d;
            quotechar := match qg_quotechar g with
                         | Some q => q
                         | None => DQUOTE
                         end;
            doublequote := qg_doublequote g;
            skipinitialspace := skip |}
  end.

(** ** [reader]

    The parser of [_csv] for a dialect without escape character, not
    strict, with the field size limit at its default. *)

Inductive parser_state : Type :=
| START_RECORD | START_FIELD | IN_FIELD
| IN_QUOTED_FIELD | QUOTE_IN_QUOTED_FIELD | EAT_CRNL.

(** The reader between two characters; [field] is kept reversed. *)
Record reader_state : Type := {
  state : parser_state;
  fields : list str;
  field : str
}.

Definition parse_reset : reader_state :=
  {| state := START_RECORD; fields := []; field := [] |}.

Definition set_state (s : parser_state) (r : reader_state) : reader_state :=
  {| state := s; fields := fields r; field := field r |}.

Definition parse_save_field (r : reader_state) : reader_state :=
  {| state := state r; fields := fields r ++ [rev (field r)]; field := [] |}.

Definition field_limit : N := 131072.

Definition parse_add_char (c : char) (r : reader_state) : result reader_state :=
  if (field_limit <=? N.of_nat (List.length (field r)))%N
  then Raise (CsvError "field larger than field limit (131072)")
  else Ok {| state := state r; fields := fields r; field := c :: field r |}.

Definition is_newline (c : char) : bool := (c =? LF)%N || (c =? CR)%N.

Definition after_line (c : option char) : parser_state :=
  match c with None => START_RECORD | Some _ => EAT_CRNL end.

Definition start_field (d : dialect) (c : option char) (r : reader_state)
  : result reader_state :=
  match c with
  | None => Ok (set_state START_RECORD (parse_save_field r))
  | Some x =>
      if is_newline x then Ok (set_state EAT_CRNL (parse_save_field r))
      else if (x =? quotechar d)%N then Ok (set_state IN_QUOTED_FIELD r)
      else if (x =? SPACE)%N && skipinitialspace d then Ok r
      else if (x =? delimiter d)%N then Ok (parse_save_field r)
      else r' <- parse_add_char x r ;; Ok (set_state IN_FIELD r')
  end.

(** [parse_process_char]; [None] is the end of a line (EOL). *)
Definition parse_process_char (d : dialect) (c : option char)
    (r : reader_state) : result reader_state :=
  match state r with
  | START_RECORD =>
      match c with
      | None => Ok r
      | Some x =>
          if is_newline x then Ok (set_state EAT_CRNL r)
          else start_field d c (set_state START_FIELD r)
      end
  | START_FIELD => start_field d c r
  | IN_FIELD =>
      match c with
      | None => Ok (set_state START_RECORD (parse_save_field r))
      | Some x =>
          if is_newline x then Ok (set_state EAT_CRNL (parse_save_field r))
          else if (x =? delimiter d)%N
               then Ok (set_state START_FIELD (parse_save_field r))
          else parse_add_char x r
      end
  | IN_QUOTED_FIELD =>
      match c with
      | None => Ok r
      | Some x =>
          if (x =? quotechar d)%N then
            if doublequote d then Ok (set_state QUOTE_IN_QUOTED_FIELD r)
            else Ok (set_state IN_FIELD r)
          else parse_add_char x r
      end
  | QUOTE_IN_QUOTED_FIELD =>
      match c with
      | None => Ok (set_state START_RECORD (parse_save_field r))
      | Some x =>
          if (x =? quotechar d)%N
          then r' <- parse_add_char x r ;; Ok (set_state IN_QUOTED_FIELD r')
          else if (x =? delimiter d)%N
               then Ok (set_state START_FIELD (parse_save_field r))
          else if is_newline x
               then Ok (set_state EAT_CRNL (parse_save_field r))
          else r' <- parse_add_char x r ;; Ok (set_state IN_FIELD r')
      end
  | EAT_CRNL =>
      match c with
      | None => Ok (set_state START_RECORD r)
      | Some x =>
          if is_newline x then Ok r
          else Raise (CsvError "new-line character seen in unquoted field")
      end
  end.

(** The characters of one line, then EOL. *)
Fixpoint feed_line (d : dialect) (line : str) (r : reader_state)
  : result reader_state :=
  match line with
  | [] => parse_process_char d None r
  | c :: line' =>
      r' <- parse_process_char d (Some c) r ;; feed_line d line' r'
  end.

(** [list(csv.reader(lines, dialect))]: a record ends with the line that
    brings the parser back to START_RECORD; input that ends inside a record
    closes it. *)
Fixpoint records (d : dialect) (r : reader_state) (lines : list str)
  : result (list (list str)) :=
  match lines with
  | [] =>
      match field r, state r with
      | [], IN_QUOTED_FIELD | _ :: _, _ => Ok [fields (parse_save_field r)]
      | [], _ => Ok []
      end
  | line :: lines' =>
      r' <- feed_line d line r ;;
      match state r' with
      | START_RECORD =>
          rest <- records d parse_reset lines' ;; Ok (fields r' :: rest)
      | _ => records d r' lines'
      end
  end.

Definition reader (lines : list str) (d : dialect) : result (list (list str)) :=
  records d parse_reset lines.

End Csv.

(* ------------------------------------------------------------------ *)
(** * Helpers of the program *)

(** Truth value of a list: non-empty. *)
Definition nonempty {A : Type} (l : list A) : bool :=
  match l with [] => false | _ :: _ => true end.

(** [safe_split_lines] *)
Definition safe_split_lines (text : str) : list str :=
  map strip (filter (fun ln => truthy (strip ln)) (splitlines text)).

(** Two adjacent white-space characters somewhere in [s]: a match of
    [\s{2,}]. *)
Fixpoint has_ws_run (s : str) : bool :=
  match s with
  | c1 :: (c2 :: _) as rest => isspace c1 && isspace c2 || has_ws_run rest
  | _ => false
  end.

Section Inference.

(** The regular-expression phase of the sniffer on samples that contain a
    quote character. *)
Variable regex_guess : str -> str -> Csv.quote_guess.

(** The body of the [try] block of [parse_table_text]: [Ok (Some rows)]
    when it returns [rows], [Ok None] when it falls out of the block. *)
Definition sniffed_rows (txt : str) : result (option (list (list str))) :=
  sniff <- Csv.sniff regex_guess txt [TAB; COMMA; SEMICOLON] ;;
  rows <- Csv.reader (splitlines txt) sniff ;;
  if nonempty rows && existsb (fun r => Nat.ltb 1 (List.length r)) rows
  then Ok (Some (map (map strip) rows))
  else Ok None.

(** The rows of the second strategy: every line split on tabs. *)
Definition tab_rows (txt : str) : list (list str) :=
  map (fun ln => map strip (split_on TAB ln)) (splitlines txt).

(** One row of the third strategy. *)
Definition whitespace_row (ln : str) : list str :=
  let parts := filter truthy (re_split_ws2 (strip ln)) in
  if nonempty parts then parts else [strip ln].

Definition whitespace_rows (txt : str) : list (list str) :=
  map whitespace_row (splitlines txt).

(** [parse_table_text].  The handler [except Exception: pass] takes every
    exception of the block; after it, and after a block that ends without
    returning, the two splitting strategies follow. *)
Definition parse_table_text (text : str) : result (list (list str)) :=
  let txt := strip_chars [LF] text in
  if negb (truthy txt) then Ok []
  else
    match sniffed_rows txt with
    | Ok (Some rows) => Ok rows
    | Ok None | Raise _ =>
        if mem TAB txt then Ok (tab_rows txt)
        else Ok (whitespace_rows txt)
    end.

End Inference.

(* ------------------------------------------------------------------ *)
(** * Data models *)

Definition DOCX_TABLE_STYLES : list str :=
  map lit ["Table Grid"; "Light List"; "Light List Accent 1"; "Light Grid";
           "Light Grid Accent 1"; "Medium Grid 1"; "Medium Grid 1 Accent 1";
           "Medium Shading 1"; "Medium Shading 1 Accent 1"]%string.

Definition TRIAL_LAYOUTS : list str :=
  map lit ["Even columns"; "Reasons wide"; "Compact"]%string.

Record TrialRow : Type := {
  number : str;
  issue : str;
  reasons : str
}.

Record ResultItem : Type := {
  title : str;
  kind : str;                      (* 'text' | 'table' | 'image' *)
  content : str;
  image_path : option str;
  images : list str;
  caption : str;
  table_data : list (list str);
  table_style : str
}.

Record EmailEntry : Type := {
  date : str;
  customer : str;
  correspondence : str
}.

(** A Python [dict] from strings to strings, in insertion order. *)
Definition str_dict := list (str * str).

Fixpoint dict_get (d : str_dict) (key : str) (default : str) : str :=
  match d with
  | [] => default
  | (k, v) :: d' => if str_eqb k key then v else dict_get d' key default
  end.

Definition empty_smart_goals : str_dict :=
  map (fun k => (lit k, [])) ["S"; "M"; "A"; "R"; "T"]%string.

Record ReportModel : Type := {
  (* 1. General *)
  project_title : str;
  start_date : str;
  report_date : str;
  assigned_by : str;
  bin_no : str;
  researcher_name : str;
  total_hours : str;
  (* 2. Technical *)
  plain_summary : str;
  objectives : list str;
  methods_raw_materials : list str;
  methods_instruments : list str;
  methods_procedure : list str;
  trial_history : list TrialRow;
  trial_layout : str;
  trial_docx_style : str;
  results : list ResultItem;
  conclusion : list str;
  miscellaneous : str;
  references : list str;
  (* 3. Regulatory *)
  regulations : str;
  label_req : str;
  certification_req : str;
  (* 4. Scale Up *)
  manuf_order_steps : list str;
  formulation_risk_text : str;
  hazards_text : str;
  equipment_text : str;
  capex_text : str;
  safety_assess_text : str;
  (* 5. Quality *)
  raw_material_sourcing : str;
  lims_setup : str;
  stability_testing : str;
  packaging_compatibility : str;
  (* 6. Commercial *)
  c_obj_problem : str;
  smart_goals : str_dict;
  c_specs : str;
  c_expected_volume : str;
  c_packaging_req : str;
  c_raw_material_prefs : str;
  c_sample_needed : str;
  c_opportunity_timeline : str;
  target_application : str;
  customer_feedback : str;
  tds_development : str;
  email_correspondence : list EmailEntry
}.

(** [ReportModel()]: every field at its default. *)
Definition empty_ReportModel : ReportModel := {|
  project_title := []; start_date := []; report_date := [];
  assigned_by := []; bin_no := []; researcher_name := []; total_hours := [];
  plain_summary := []; objectives := []; methods_raw_materials := [];
  methods_instruments := []; methods_procedure := []; trial_history := [];
  trial_layout := hd [] TRIAL_LAYOUTS;
  trial_docx_style := hd [] DOCX_TABLE_STYLES;
  results := []; conclusion := []; miscellaneous := []; references := [];
  regulations := []; label_req := []; certification_req := [];
  manuf_order_steps := []; formulation_risk_text := []; hazards_text := [];
  equipment_text := []; capex_text := []; safety_assess_text := [];
  raw_material_sourcing := []; lims_setup := []; stability_testing := [];
  packaging_compatibility := [];
  c_obj_problem := []; smart_goals := empty_smart_goals; c_specs := [];
  c_expected_volume := []; c_packaging_req := [];
  c_raw_material_prefs := []; c_sample_needed := [];
  c_opportunity_timeline := []; target_application := [];
  customer_feedback := []; tds_development := [];
  email_correspondence := []
|}.

(** The keys of the include-set ([_include_state_keys]); every one has its
    variable in [self.include]. *)
Inductive include_key : Type :=
| sec_general | t_plain | t_objectives | t_methods | t_rm | t_ins | t_proc
| t_trial | t_results | t_conc | t_misc | t_refs
| sec_reg | sec_scale | sec_quality | sec_commercial.

Definition include_set := include_key -> bool.

(* ------------------------------------------------------------------ *)
(** * The persisted structure

    A persisted dictionary is a record of optional entries: [None] is an
    absent key, [Some v] a key with the value the writer gives it. *)

Record TrialRowDict : Type := {
  th_number : option str;
  th_issue : option str;
  th_reasons : option str
}.

Record ResultItemDict : Type := {
  ri_title : option str;
  ri_kind : option str;
  ri_content : option str;
  ri_image_path : option (option str);      (* the value may be null *)
  ri_images : option (list str);
  ri_caption : option str;
  ri_table_data : option (list (list str));
  ri_table_style : option str
}.

Record EmailEntryDict : Type := {
  em_date : option str;
  em_customer : option str;
  em_correspondence : option str
}.

Record ReportModelDict : Type := {
  k_project_title : option str;
  k_start_date : option str;
  k_report_date : option str;
  k_assigned_by : option str;
  k_bin_no : option str;
  k_researcher_name : option str;
  k_total_hours : option str;
  k_plain_summary : option str;
  k_objectives : option (list str);
  k_methods_raw_materials : option (list str);
  k_methods_instruments : option (list str);
  k_methods_procedure : option (list str);
  k_trial_history : option (list TrialRowDict);
  k_trial_layout : option str;
  k_trial_docx_style : option str;
  k_results : option (list ResultItemDict);
  k_conclusion : option (list str);
  k_miscellaneous : option str;
  k_references : option (list str);
  k_regulations : option str;
  k_label_req : option str;
  k_certification_req : option str;
  k_manuf_order_steps : option (list str);
  k_manuf_order_text : option str;          (* the key of older files *)
  k_formulation_risk_text : option str;
  k_hazards_text : option str;
  k_equipment_text : option str;
  k_capex_text : option str;
  k_safety_assess_text : option str;
  k_raw_material_sourcing : option str;
  k_lims_setup : option str;
  k_stability_testing : option str;
  k_packaging_compatibility : option str;
  k_c_obj_problem : option str;
  k_smart_goals : option str_dict;
  k_c_specs : option str;
  k_c_expected_volume : option str;
  k_c_packaging_req : option str;
  k_c_raw_material_prefs : option str;
  k_c_sample_needed : option str;
  k_c_opportunity_timeline : option str;
  k_target_application : option str;
  k_customer_feedback : option str;
  k_tds_development : option str;
  k_email_correspondence : option (list EmailEntryDict)
}.

(** [d.get(key, default)] *)
Definition get {A : Type} (entry : option A) (default : A) : A :=
  match entry with Some v => v | None => default end.

(** ** [asdict] *)

Definition asdict_TrialRow (tr : TrialRow) : TrialRowDict :=
  {| th_number := Some (number tr); th_issue := Some (issue tr);
     th_reasons := Some (reasons tr) |}.

Definition asdict_ResultItem (res : ResultItem) : ResultItemDict :=
  {| ri_title := Some (title res); ri_kind := Some (kind res);
     ri_content := Some (content res);
     ri_image_path := Some (image_path res);
     ri_images := Some (images res); ri_caption := Some (caption res);
     ri_table_data := Some (table_data res);
     ri_table_style := Some (table_style res) |}.

Definition asdict_EmailEntry (e : EmailEntry) : EmailEntryDict :=
  {| em_date := Some (date e); em_customer := Some (customer e);
     em_correspondence := Some (correspondence e) |}.

(** The value of the key ["report_model"] in [_to_dict]: [asdict(r)], with
    the three lists of records written again from their items. *)
Definition report_model_dict (r : ReportModel) : ReportModelDict := {|
  k_project_title := Some (project_title r);
  k_start_date := Some (start_date r);
  k_report_date := Some (report_date r);
  k_assigned_by := Some (assigned_by r);
  k_bin_no := Some (bin_no r);
  k_researcher_name := Some (researcher_name r);
  k_total_hours := Some (total_hours r);
  k_plain_summary := Some (plain_summary r);
  k_objectives := Some (objectives r);
  k_methods_raw_materials := Some (methods_raw_materials r);
  k_methods_instruments := Some (methods_instruments r);
  k_methods_procedure := Some (methods_procedure r);
  k_trial_history := Some (map asdict_TrialRow (trial_history r));
  k_trial_layout := Some (trial_layout r);
  k_trial_docx_style := Some (trial_docx_style r);
  k_results := Some (map asdict_ResultItem (results r));
  k_conclusion := Some (conclusion r);
  k_miscellaneous := Some (miscellaneous r);
  k_references := Some (references r);
  k_regulations := Some (regulations r);
  k_label_req := Some (label_req r);
  k_certification_req := Some (certification_req r);
  k_manuf_order_steps := Some (manuf_order_steps r);
  k_manuf_order_text := None;
  k_formulation_risk_text := Some (formulation_risk_text r);
  k_hazards_text := Some (hazards_text r);
  k_equipment_text := Some (equipment_text r);
  k_capex_text := Some (capex_text r);
  k_safety_assess_text := Some (safety_assess_text r);
  k_raw_material_sourcing := Some (raw_material_sourcing r);
  k_lims_setup := Some (lims_setup r);
  k_stability_testing := Some (stability_testing r);
  k_packaging_compatibility := Some (packaging_compatibility r);
  k_c_obj_problem := Some (c_obj_problem r);
  k_smart_goals := Some (smart_goals r);
  k_c_specs := Some (c_specs r);
  k_c_expected_volume := Some (c_expected_volume r);
  k_c_packaging_req := Some (c_packaging_req r);
  k_c_raw_material_prefs := Some (c_raw_material_prefs r);
  k_c_sample_needed := Some (c_sample_needed r);
  k_c_opportunity_timeline := Some (c_opportunity_timeline r);
  k_target_application := Some (target_application r);
  k_customer_feedback := Some (customer_feedback r);
  k_tds_development := Some (tds_development r);
  k_email_correspondence := Some (map asdict_EmailEntry (email_correspondence r))
|}.

(** ** The application state next to the form *)

Record App : Type := {
  include : include_set;
  header_path_var : str;
  footer_path_var : str;
  logo_path_var : str;
  out_dir_var : str;
  export_fmt : str                (* 'docx' | 'pdf' | 'both' *)
}.

Record BrandingDict : Type := {
  b_header_path : option str;
  b_footer_path : option str;
  b_logo_path : option str
}.

Record ExportDict : Type := {
  e_out_dir : option str;
  e_format : option str
}.

Record ProjectDict : Type := {
  d_report_model : option ReportModelDict;
  d_branding : option BrandingDict;
  d_export : option ExportDict;
  d_include : option (include_key -> option bool)
}.

Definition empty_ReportModelDict : ReportModelDict := {|
  k_project_title := None; k_start_date := None; k_report_date := None;
  k_assigned_by := None; k_bin_no := None; k_researcher_name := None;
  k_total_hours := None; k_plain_summary := None; k_objectives := None;
  k_methods_raw_materials := None; k_methods_instruments := None;
  k_methods_procedure := None; k_trial_history := None;
  k_trial_layout := None; k_trial_docx_style := None; k_results := None;
  k_conclusion := None; k_miscellaneous := None; k_references := None;
  k_regulations := None; k_label_req := None; k_certification_req := None;
  k_manuf_order_steps := None; k_manuf_order_text := None;
  k_formulation_risk_text := None; k_hazards_text := None;
  k_equipment_text := None; k_capex_text := None;
  k_safety_assess_text := None; k_raw_material_sourcing := None;
  k_lims_setup := None; k_stability_testing := None;
  k_packaging_compatibility := None; k_c_obj_problem := None;
  k_smart_goals := None; k_c_specs := None; k_c_expected_volume := None;
  k_c_packaging_req := None; k_c_raw_material_prefs := None;
  k_c_sample_needed := None; k_c_opportunity_timeline := None;
  k_target_application := None; k_customer_feedback := None;
  k_tds_development := None; k_email_correspondence := None
|}.

Definition empty_BrandingDict : BrandingDict :=
  {| b_header_path := None; b_footer_path := None; b_logo_path := None |}.

Definition empty_ExportDict : ExportDict :=
  {| e_out_dir := None; e_format := None |}.

(** [_to_dict], on the model [r] that [_collect] returns. *)
Definition _to_dict (r : ReportModel) (app : App) : ProjectDict := {|
  d_report_model := Some (report_model_dict r);
  d_branding := Some {| b_header_path := Some (header_path_var app);
                        b_footer_path := Some (footer_path_var app);
                        b_logo_path := Some (logo_path_var app) |};
  d_export := Some {| e_out_dir := Some (out_dir_var app);
                      e_format := Some (export_fmt app) |};
  d_include := Some (fun k => Some (include app k))
|}.

(** ** Construction of the records from keyword arguments *)

Definition missing (cls : string) : exn :=
  TypeError (cls ++ ".__init__() missing required argument").

(** [TrialRow] called with the entries of [th] as keyword arguments. *)
Definition TrialRow_of_dict (th : TrialRowDict) : result TrialRow :=
  match th_number th, th_issue th, th_reasons th with
  | Some n, Some i, Some r => Ok {| number := n; issue := i; reasons := r |}
  | _, _, _ => Raise (missing "TrialRow")
  end.

(** [ResultItem] called with the entries of [ri] as keyword arguments:
    [title] and [kind] have no default. *)
Definition ResultItem_of_dict (ri : ResultItemDict) : result ResultItem :=
  match ri_title ri, ri_kind ri with
  | Some t, Some k =>
      Ok {| title := t; kind := k;
            content := get (ri_content ri) [];
            image_path := get (ri_image_path ri) None;
            images := get (ri_images ri) [];
            caption := get (ri_caption ri) [];
            table_data := get (ri_table_data ri) [];
            table_style := get (ri_table_style ri) (lit "Table Grid") |}
  | _, _ => Raise (missing "ResultItem")
  end.

(** [EmailEntry] called with the entries of [e] as keyword arguments. *)
Definition EmailEntry_of_dict (e : EmailEntryDict) : result EmailEntry :=
  match em_date e, em_customer e, em_correspondence e with
  | Some d, Some c, Some t =>
      Ok {| date := d; customer := c; correspondence := t |}
  | _, _, _ => Raise (missing "EmailEntry")
  end.

(** ** [_load_from_dict] *)

(** The body of the loop over [rm.get("results", [])]: a dictionary
    without the key ["images"] receives it. *)
Definition with_images (ri : ResultItemDict) : ResultItemDict :=
  match ri_images ri with
  | Some _ => ri
  | None =>
      {| ri_title := ri_title ri; ri_kind := ri_kind ri;
         ri_content := ri_content ri; ri_image_path := ri_image_path ri;
         ri_images :=
           Some match get (ri_image_path ri) None with
                | Some p => if truthy p then [p] else []
                | None => []
                end;
         ri_caption := ri_caption ri; ri_table_data := ri_table_data ri;
         ri_table_style := ri_table_style ri |}
  end.

(** The manufacturing-order steps, with the split of the older text. *)
Definition load_mo_steps (rm : ReportModelDict) : list str :=
  let mo_steps := get (k_manuf_order_steps rm) [] in
  if negb (nonempty mo_steps) && truthy (get (k_manuf_order_text rm) [])
  then safe_split_lines (get (k_manuf_order_text rm) [])
  else mo_steps.

(** The model [r] that [_load_from_dict] builds and hands to
    [_populate_from_model]. *)
Definition load_report_model (rm : ReportModelDict) : result ReportModel :=
  let results_in := map with_images (get (k_results rm) []) in
  let emails_in := get (k_email_correspondence rm) [] in
  let mo_steps := load_mo_steps rm in
  trial_history_ <- mapM TrialRow_of_dict (get (k_trial_history rm) []) ;;
  results_ <- mapM ResultItem_of_dict results_in ;;
  email_correspondence_ <- mapM EmailEntry_of_dict emails_in ;;
  Ok {|
    project_title := get (k_project_title rm) [];
    start_date := get (k_start_date rm) [];
    report_date := get (k_report_date rm) [];
    assigned_by := get (k_assigned_by rm) [];
    bin_no := get (k_bin_no rm) [];
    researcher_name := get (k_researcher_name rm) [];
    total_hours := get (k_total_hours rm) [];
    plain_summary := get (k_plain_summary rm) [];
    objectives := get (k_objectives rm) [];
    methods_raw_materials := get (k_methods_raw_materials rm) [];
    methods_instruments := get (k_methods_instruments rm) [];
    methods_procedure := get (k_methods_procedure rm) [];
    trial_history := trial_history_;
    trial_layout := get (k_trial_layout rm) (hd [] TRIAL_LAYOUTS);
    trial_docx_style := get (k_trial_docx_style rm) (hd [] DOCX_TABLE_STYLES);
    results := results_;
    conclusion := get (k_conclusion rm) [];
    miscellaneous := get (k_miscellaneous rm) [];
    references := get (k_references rm) [];
    regulations := get (k_regulations rm) [];
    label_req := get (k_label_req rm) [];
    certification_req := get (k_certification_req rm) [];
    manuf_order_steps := mo_steps;
    formulation_risk_text := get (k_formulation_risk_text rm) [];
    hazards_text := get (k_hazards_text rm) [];
    equipment_text := get (k_equipment_text rm) [];
    capex_text := get (k_capex_text rm) [];
    safety_assess_text := get (k_safety_assess_text rm) [];
    raw_material_sourcing := get (k_raw_material_sourcing rm) [];
    lims_setup := get (k_lims_setup rm) [];
    stability_testing := get (k_stability_testing rm) [];
    packaging_compatibility := get (k_packaging_compatibility rm) [];
    c_obj_problem := get (k_c_obj_problem rm) [];
    smart_goals := get (k_smart_goals rm) empty_smart_goals;
    c_specs := get (k_c_specs rm) [];
    c_expected_volume := get (k_c_expected_volume rm) [];
    c_packaging_req := get (k_c_packaging_req rm) [];
    c_raw_material_prefs := get (k_c_raw_material_prefs rm) [];
    c_sample_needed := get (k_c_sample_needed rm) [];
    c_opportunity_timeline := get (k_c_opportunity_timeline rm) [];
    target_application := get (k_target_application rm) [];
    customer_feedback := get (k_customer_feedback rm) [];
    tds_development := get (k_tds_development rm) [];
    email_correspondence := email_correspondence_
  |}.

(** What a load leaves behind: the model put into the form together with
    the new settings, or the dialog "Load Failed" and nothing changed. *)
Inductive load_outcome : Type :=
| Loaded (r : ReportModel) (app : App)
| LoadFailed (e : exn).

Definition _load_from_dict (data : ProjectDict) (app : App) : load_outcome :=
  match load_report_model (get (d_report_model data) empty_ReportModelDict) with
  | Raise e => LoadFailed e
  | Ok r =>
      let b := get (d_branding data) empty_BrandingDict in
      let e := get (d_export data) empty_ExportDict in
      let inc := get (d_include data) (fun _ => None) in
      Loaded r
        {| include := fun k => get (inc k) (include app k);
           header_path_var := get (b_header_path b) (header_path_var app);
           footer_path_var := get (b_footer_path b) (footer_path_var app);
           logo_path_var := get (b_logo_path b) (logo_path_var app);
           out_dir_var := get (e_out_dir e) (out_dir_var app);
           export_fmt := get (e_format e) (export_fmt app) |}
  end.

(* ------------------------------------------------------------------ *)
(** * The result dialog *)

(** What the dialog holds when Save is pressed. *)
Record DialogInput : Type := {
  v_title : str;
  v_kind : str;
  txt_text : str;                 (* txt_text.get("1.0", "end") *)
  txt_table : str;                (* txt_table.get("1.0", "end") *)
  v_tbl_style : str;
  mgr_files : list str;           (* mgr.get_files() *)
  mgr_saved : list str;           (* mgr.save_edited_to_temp() *)
  v_caption : str
}.

(** [ResultItem(title=..., kind=...)] with the defaults of the class. *)
Definition new_ResultItem (t k : str) : ResultItem :=
  {| title := t; kind := k; content := []; image_path := None;
     images := []; caption := []; table_data := [];
     table_style := lit "Table Grid" |}.

Definition set_content (c : str) (it : ResultItem) : ResultItem :=
  {| title := title it; kind := kind it; content := c;
     image_path := image_path it; images := images it;
     caption := caption it; table_data := table_data it;
     table_style := table_style it |}.

Definition set_table (data : list (list str)) (style : str) (it : ResultItem)
  : ResultItem :=
  {| title := title it; kind := kind it; content := content it;
     image_path := image_path it; images := images it;
     caption := caption it; table_data := data; table_style := style |}.

Definition set_images (imgs : list str) (cap : str) (it : ResultItem)
  : ResultItem :=
  {| title := title it; kind := kind it; content := content it;
     image_path := image_path it; images := imgs; caption := cap;
     table_data := table_data it; table_style := table_style it |}.

Section ResultDialog.

Variable regex_guess : str -> str -> Csv.quote_guess.

(** The item that [save] of [_result_dialog] builds. *)
Definition dialog_item (d : DialogInput) : result ResultItem :=
  let title := if truthy (strip (v_title d)) then strip (v_title d)
               else lit "Untitled" in
  if str_eqb (v_kind d) (lit "text") then
    Ok (set_content (strip (txt_text d)) (new_ResultItem title (lit "text")))
  else if str_eqb (v_kind d) (lit "table") then
    let raw := strip (txt_table d) in
    data <- parse_table_text regex_guess raw ;;
    Ok (set_table data (v_tbl_style d)
          (set_content raw (new_ResultItem title (lit "table"))))
  else
    let imgs := if nonempty (mgr_files d) then mgr_saved d else [] in
    Ok (set_images imgs (strip (v_caption d))
          (new_ResultItem title (lit "image"))).

(** [save]: the item is appended, or put in the place of the edited one;
    the assignment to a place that the list does not have raises. *)
Fixpoint replace_nth {A : Type} (n : nat) (x : A) (l : list A) : list A :=
  match l, n with
  | [], _ => []
  | _ :: l', O => x :: l'
  | y :: l', S n' => y :: replace_nth n' x l'
  end.

Definition save (d : DialogInput) (edit_index : option nat)
    (_results : list ResultItem) : result (list ResultItem) :=
  item <- dialog_item d ;;
  match edit_index with
  | None => Ok (_results ++ [item])
  | Some i =>
      if Nat.ltb i (List.length _results)
      then Ok (replace_nth i item _results)
      else Raise (IndexError "list assignment index out of range")
  end.

End ResultDialog.

(* ------------------------------------------------------------------ *)
(** * The world around a run *)

(** What the program asks of the libraries and of the file system. *)
Record World : Type := {
  Document_available : bool;           (* python-docx could be imported *)
  SimpleDocTemplate_available : bool;  (* reportlab could be imported *)
  docx2pdf_available : bool;
  today : str;                         (* datetime.date.today().isoformat() *)
  sep : char;                          (* os.sep *)
  path_join : str -> str -> str;       (* os.path.join *)
  dirname : str -> str;                (* os.path.dirname *)
  isfile : str -> bool;                (* os.path.isfile *)
  makedirs_ok : str -> bool;           (* os.makedirs returns *)
  write_ok : str -> bool;              (* the file can be written *)
  convert_ok : str -> str -> bool;     (* docx2pdf_convert returns *)
  picture_ok : str -> bool;            (* the image can be read and placed *)
  style_ok : str -> bool               (* the document has this table style *)
}.

(* ------------------------------------------------------------------ *)
(** * The flow document (python-docx)

    Lengths are in hundredths of an inch, font sizes in points. *)

Inductive alignment : Type := CENTER | RIGHT.

Inductive paragraph_style : Type := Normal | ListNumber | ListBullet.

Record docx_paragraph : Type := {
  p_text : str;
  p_bold : bool;
  p_size : option N;
  p_style : paragraph_style;
  p_left_indent : option N;
  p_alignment : option alignment
}.

Inductive docx_block : Type :=
| DocxParagraph (p : docx_paragraph)
| DocxTable (style : option str) (cells : list (list str))
| DocxPicture (path : str) (width : N).

Record docx_document : Type := {
  header_picture : option str;
  footer_picture : option str;
  body : list docx_block
}.

Definition heading (text : str) (size indent : N) : docx_block :=
  DocxParagraph {| p_text := text; p_bold := true; p_size := Some size;
                   p_style := Normal; p_left_indent := Some indent;
                   p_alignment := None |}.

Definition _H1 (text : str) : docx_block := heading text 12 0.
Definition _H2 (text : str) : docx_block := heading text 11 25.
Definition _H3 (text : str) : docx_block := heading text 10 50.

Definition level_indent (level : nat) : N :=
  if Nat.eqb level 2 then 25%N else 50%N.

Definition _body_para (text : str) (level : nat) : docx_block :=
  DocxParagraph {| p_text := text; p_bold := false; p_size := None;
                   p_style := Normal;
                   p_left_indent := Some (level_indent level);
                   p_alignment := None |}.

Definition _list_para (text : str) (numbered : bool) (level : nat) : docx_block :=
  DocxParagraph {| p_text := text; p_bold := false; p_size := None;
                   p_style := if numbered then ListNumber else ListBullet;
                   p_left_indent := Some (level_indent level);
                   p_alignment := None |}.

Definition title_paragraph (text : str) : docx_block :=
  DocxParagraph {| p_text := text; p_bold := true; p_size := Some 14%N;
                   p_style := Normal; p_left_indent := None;
                   p_alignment := Some CENTER |}.

Definition caption_paragraph (text : str) : docx_block :=
  DocxParagraph {| p_text := text; p_bold := false; p_size := None;
                   p_style := Normal; p_left_indent := Some 50%N;
                   p_alignment := Some CENTER |}.

(** [enumerate(l, start)] *)
Fixpoint enumerate {A : Type} (start : nat) (l : list A) : list (nat * A) :=
  match l with
  | [] => []
  | a :: l' => (start, a) :: enumerate (S start) l'
  end.

(** [max(len(rw) for rw in data)] *)
Definition max_len (data : list (list str)) : nat :=
  fold_right (fun rw m => Nat.max (List.length rw) m) 0 data.

(** [row[c_i] if c_i < len(row) else ""] for [c_i] in [range(cols)] *)
Definition grid_row (cols : nat) (row : list str) : list str :=
  map (fun c_i => nth c_i row []) (seq 0 cols).

(** [imgs] of an image item. *)
Definition item_images (it : ResultItem) : list str :=
  if nonempty (images it) then images it
  else match image_path it with
       | Some p => if truthy p then [p] else []
       | None => []
       end.

(** A band picture: the path is given, is a file, and can be placed. *)
Definition band_picture (w : World) (img : option str) : option str :=
  match img with
  | Some p => if truthy p && isfile w p && picture_ok w p then Some p else None
  | None => None
  end.

Definition labels_SMART : list (str * str) :=
  map (fun kl => (lit (fst kl), lit (snd kl)))
    [("S", "Specific"); ("M", "Measurable"); ("A", "Achievable");
     ("R", "Relevant"); ("T", "Time-bound")]%string.

Section Renderers.

Variable regex_guess : str -> str -> Csv.quote_guess.
Variable w : World.

(** [it.table_data if it.table_data else parse_table_text(it.content)] *)
Definition item_table (it : ResultItem) : result (list (list str)) :=
  if nonempty (table_data it) then Ok (table_data it)
  else parse_table_text regex_guess (content it).

Definition styled (s : str) : option str :=
  Some (if style_ok w s then s else lit "Table Grid").

(** One turn of the loop over the results in [_export_docx]. *)
Definition docx_result (idx : nat) (it : ResultItem) : result (list docx_block) :=
  if str_eqb (kind it) (lit "text") then
    Ok (_H3 (lit "2.4." ++ of_nat idx ++ lit ". " ++ title it)
        :: map (fun line => _body_para line 3) (safe_split_lines (content it)))
  else if str_eqb (kind it) (lit "table") then
    data <- item_table it ;;
    Ok (_H3 (title it)
        :: if nonempty data
           then [DocxTable (styled (table_style it))
                   (map (grid_row (max_len data)) data)]
           else [])
  else if str_eqb (kind it) (lit "image") then
    let imgs := item_images it in
    if nonempty imgs then
      Ok ((if truthy (title it) then [_H3 (title it)] else [])
          ++ flat_map
               (fun pth =>
                  if truthy pth && isfile w pth then
                    if picture_ok w pth then
                      DocxPicture pth 580
                      :: (if truthy (caption it)
                          then [caption_paragraph (caption it)] else [])
                    else []
                  else [])
               imgs)
    else Ok []
  else Ok [].

Definition docx_results (rs : list ResultItem) : result (list docx_block) :=
  blocks <- mapM (fun p => docx_result (fst p) (snd p)) (enumerate 1 rs) ;;
  Ok (List.concat blocks).

(** Three columns with a header row. *)
Definition docx_table3 (style : option str) (h0 h1 h2 : string)
    (rows : list (list str)) : docx_block :=
  DocxTable style ([lit h0; lit h1; lit h2] :: rows).

(** The parts of the body, one for each block of [_export_docx], in the
    order of the source. *)

Definition docx_title (r : ReportModel) : list docx_block :=
  [title_paragraph (project_title r)].

Definition docx_general (r : ReportModel) (include : include_set)
  : list docx_block :=
  if include sec_general then
    [_H1 (LF :: lit "1. General Information");
     DocxTable None
       [[lit "Start Date"; start_date r];
        [lit "Report Date"; report_date r];
        [lit "Assigned By"; assigned_by r];
        [lit "Bin No"; bin_no r];
        [lit "Researcher Name"; researcher_name r];
        [lit "Total Hours"; total_hours r]]]
  else [].

Definition docx_technical : list docx_block :=
  [_H1 (LF :: lit "2. Technical Information")].

Definition docx_plain (r : ReportModel) (include : include_set)
  : list docx_block :=
  if include t_plain then
    [_H2 (lit "2.1. Plain Language Summary"); _body_para (plain_summary r) 2]
  else [].

Definition docx_objectives (r : ReportModel) (include : include_set)
  : list docx_block :=
  if include t_objectives then
    _H2 (lit "2.2. Objectives")
    :: map (fun it => _list_para it true 2) (objectives r)
  else [].

Definition docx_methods (r : ReportModel) (include : include_set)
  : list docx_block :=
  if include t_methods then
    [_H2 (lit "2.3. Methods")]
    ++ (if include t_rm then
          _H3 (lit "2.3.1. Raw Materials")
          :: map (fun x => _list_para x false 3) (methods_raw_materials r)
        else [])
    ++ (if include t_ins then
          _H3 (lit "2.3.2. Instrument")
          :: map (fun x => _list_para x false 3) (methods_instruments r)
        else [])
    ++ (if include t_proc then
          _H3 (lit "2.3.3. Experimental Procedure")
          :: map (fun x => _list_para x false 3) (methods_procedure r)
        else [])
    ++ (if include t_trial then
          _H3 (lit "2.3.4. Trial History")
          :: (if nonempty (trial_history r) then
                [docx_table3 (styled (trial_docx_style r))
                   "Trial#" "Issue" "Possible Reasons"
                   (map (fun tr => [number tr; issue tr; reasons tr])
                      (trial_history r))]
              else [])
        else [])
  else [].

Definition docx_results_part (r : ReportModel) (include : include_set)
  : result (list docx_block) :=
  if include t_results then
    blocks <- docx_results (results r) ;;
    Ok (_H2 (lit "2.4. Results") :: blocks)
  else Ok [].

Definition docx_conclusion (r : ReportModel) (include : include_set)
  : list docx_block :=
  if include t_conc then
    _H2 (lit "2.5. Conclusion")
    :: map (fun x => _list_para x false 2) (conclusion r)
  else [].

Definition docx_misc (r : ReportModel) (include : include_set)
  : list docx_block :=
  if include t_misc then
    [_H2 (lit "2.6. Miscellaneous"); _body_para (miscellaneous r) 2]
  else [].

Definition docx_references (r : ReportModel) (include : include_set)
  : list docx_block :=
  if include t_refs then
    _H2 (lit "2.7. References")
    :: map (fun x => _list_para x false 2) (references r)
  else [].

Definition docx_regulatory (r : ReportModel) (include : include_set)
  : list docx_block :=
  if include sec_reg then
    [_H1 (LF :: lit "3. Regulatory");
     _H2 (lit "3.1. Application regulations");
     _body_para (regulations r) 2;
     _H2 (lit "3.2. Label Requirements");
     _body_para (label_req r) 2;
     _H2 (lit "3.3. Certification Requirements");
     _body_para (certification_req r) 2]
  else [].

Definition docx_scale_up (r : ReportModel) (include : include_set)
  : list docx_block :=
  if include sec_scale then
    [_H1 (LF :: lit "4. Scale Up");
     _H2 (lit "4.1. Manufacturing Order")]
    ++ map (fun step => _list_para step false 2) (manuf_order_steps r)
    ++ [_H2 (lit "4.2. Formulation Risk");
        _body_para (formulation_risk_text r) 2;
        _H2 (lit "4.3. Hazards");
        _body_para (hazards_text r) 2;
        _H2 (lit "4.4. Equipment");
        _body_para (equipment_text r) 2;
        _H2 (lit "4.5. CAPEX Requirements");
        _body_para (capex_text r) 2;
        _H2 (lit "4.6. Safety Assessment");
        _body_para (safety_assess_text r) 2]
  else [].

Definition docx_quality (r : ReportModel) (include : include_set)
  : list docx_block :=
  if include sec_quality then
    [_H1 (LF :: lit "5. Quality");
     _H2 (lit "5.1. Raw Material Sourcing");
     _body_para (raw_material_sourcing r) 2;
     _H2 (lit "5.2. LIMS Setup");
     _body_para (lims_setup r) 2;
     _H2 (lit "5.3. Stability Testing");
     _body_para (stability_testing r) 2;
     _H2 (lit "5.4. Packaging Compatibility");
     _body_para (packaging_compatibility r) 2]
  else [].

(** The lines of 6.2: the value is tested stripped and written as it is. *)
Definition docx_smart (r : ReportModel) : list docx_block :=
  flat_map
    (fun kl =>
       if truthy (strip (dict_get (smart_goals r) (fst kl) []))
       then [_body_para
               (snd kl ++ lit ": " ++ dict_get (smart_goals r) (fst kl) []) 3]
       else [])
    labels_SMART.

Definition docx_commercial (r : ReportModel) (include : include_set)
  : list docx_block :=
  if include sec_commercial then
    [_H1 (LF :: lit "6. Commercial");
     _H2 (lit "6.1. Customer Objectives / Problem Statement");
     _body_para (c_obj_problem r) 2;
     _H2 (lit "6.2. SMART Success Criteria")]
    ++ docx_smart r
    ++ [_H2 (lit "6.3. Customer Specifications");
        _body_para (c_specs r) 2;
        _H2 (lit "6.4. Expected Business Volume");
        _body_para (c_expected_volume r) 2;
        _H2 (lit "6.5. Packaging Requirement");
        _body_para (c_packaging_req r) 2;
        _H2 (lit "6.6. Raw Material Restrictions / Preferences");
        _body_para (c_raw_material_prefs r) 2;
        _H2 (lit "6.7. Sample Needed");
        _body_para (c_sample_needed r) 2;
        _H2 (lit "6.8. Opportunity Timeline");
        _body_para (c_opportunity_timeline r) 2;
        _H2 (lit "6.9. Target Application");
        _body_para (target_application r) 2;
        _H2 (lit "6.10. Customer Feedback");
        _body_para (customer_feedback r) 2;
        _H2 (lit "6.11. TDS Development");
        _body_para (tds_development r) 2;
        _H2 (lit "6.12. Email Correspondence")]
    ++ (if nonempty (email_correspondence r) then
          [docx_table3
             (if style_ok w (lit "Table Grid")
              then Some (lit "Table Grid") else None)
             "Date" "Customer Name" "Correspondence"
             (map (fun e => [date e; customer e; correspondence e])
                (email_correspondence r))]
        else [])
  else [].

(** The document that [_export_docx] has built when it calls [doc.save]. *)
Definition docx_document_of (r : ReportModel) (include : include_set)
    (header_img footer_img : option str) : result docx_document :=
  results_part <- docx_results_part r include ;;
  Ok {|
    header_picture := band_picture w header_img;
    footer_picture := band_picture w footer_img;
    body :=
      docx_title r
      ++ docx_general r include
      ++ docx_technical
      ++ docx_plain r include
      ++ docx_objectives r include
      ++ docx_methods r include
      ++ results_part
      ++ docx_conclusion r include
      ++ docx_misc r include
      ++ docx_references r include
      ++ docx_regulatory r include
      ++ docx_scale_up r include
      ++ docx_quality r include
      ++ docx_commercial r include
  |}.

(* ------------------------------------------------------------------ *)
(** * The fixed-layout document (reportlab)

    Heights are in hundredths of a point; a column width is a number of
    hundredths of an inch divided by a number of parts. *)

Inductive pdf_style : Type :=
| Title14 | H1_12 | H2_11 | H3_10 | Body10_H2 | Body10_H3.

Inductive bullet_type : Type :=
| bullet_1          (* bulletType="1" *)
| bullet_bullet.    (* bulletType="bullet" *)

Inductive table_look : Type :=
| GridOnly          (* GRID *)
| GridHeaderTop.    (* GRID, BACKGROUND of the first row, VALIGN TOP *)

Record list_entry : Type := {
  le_text : str;
  le_style : pdf_style;
  le_ListItem : bool   (* the paragraph is wrapped in a ListItem *)
}.

Inductive flowable : Type :=
| Paragraph (text : str) (style : pdf_style)
| Spacer (height : N)
| Table (data : list (list str)) (colWidths : list (N * nat)) (look : table_look)
| ListFlowable (items : list list_entry) (bulletType : bullet_type)
| RLImage (path : str).

Record pdf_document : Type := {
  page_header : option str;    (* drawn by on_page on every page *)
  page_footer : option str;
  story : list flowable
}.

(** [(x or "").replace("\n", "<br/>")] *)
Definition br (x : str) : str := replace LF (lit "<br/>") x.

Definition bullets (style : pdf_style) (l : list str) : flowable :=
  ListFlowable
    (map (fun x => {| le_text := x; le_style := style; le_ListItem := false |}) l)
    bullet_bullet.

(** A heading of the second level followed by its paragraph. *)
Definition h2_para (head : string) (text : str) : list flowable :=
  [Paragraph (lit head) H2_11; Paragraph (br text) Body10_H2].

(** One turn of the loop over the results in [_export_pdf_basic]. *)
Definition pdf_result (i : nat) (it : ResultItem) : result (list flowable) :=
  if str_eqb (kind it) (lit "text") then
    Ok [Paragraph (lit "2.4." ++ of_nat i ++ lit ". " ++ title it) H3_10;
        Paragraph (br (content it)) Body10_H3]
  else if str_eqb (kind it) (lit "table") then
    data <- item_table it ;;
    Ok (Paragraph (title it) H3_10
        :: if nonempty data
           then let ncols := max_len data in
                [Table data (repeat (700%N, Nat.max 1 ncols) ncols)
                   GridHeaderTop]
           else [Paragraph (br (content it)) Body10_H3])
  else if str_eqb (kind it) (lit "image") then
    let imgs := item_images it in
    if nonempty imgs then
      Ok ((if truthy (title it) then [Paragraph (title it) H3_10] else [])
          ++ flat_map
               (fun pth =>
                  if truthy pth && isfile w pth then
                    RLImage pth
                    :: (if truthy (caption it)
                        then [Paragraph (caption it) Body10_H3] else [])
                  else [])
               imgs)
    else Ok []
  else Ok [].

Definition pdf_results (rs : list ResultItem) : result (list flowable) :=
  blocks <- mapM (fun p => pdf_result (fst p) (snd p)) (enumerate 1 rs) ;;
  Ok (List.concat blocks).

(** The parts of the story, one for each block of [_export_pdf_basic]. *)

Definition pdf_title (r : ReportModel) : list flowable :=
  [Paragraph (project_title r) Title14; Spacer 864].

Definition pdf_general (r : ReportModel) (include : include_set)
  : list flowable :=
  if include sec_general then
    [Paragraph (lit "1. General Information") H1_12;
     Table [[lit "Start Date"; start_date r];
            [lit "Report Date"; report_date r];
            [lit "Assigned By"; assigned_by r];
            [lit "Bin No"; bin_no r];
            [lit "Researcher Name"; researcher_name r];
            [lit "Total Hours"; total_hours r]]
       [(220%N, 1); (480%N, 1)] GridOnly;
     Spacer 864]
  else [].

Definition pdf_technical : list flowable :=
  [Paragraph (lit "2. Technical Information") H1_12].

Definition pdf_plain (r : ReportModel) (include : include_set)
  : list flowable :=
  if include t_plain then
    h2_para "2.1. Plain Language Summary" (plain_summary r)
  else [].

Definition pdf_objectives (r : ReportModel) (include : include_set)
  : list flowable :=
  if include t_objectives then
    Paragraph (lit "2.2. Objectives") H2_11
    :: (if nonempty (objectives r) then
          [ListFlowable
             (map (fun o => {| le_text := o; le_style := Body10_H2;
                               le_ListItem := true |}) (objectives r))
             bullet_1]
        else [])
  else [].

Definition pdf_methods (r : ReportModel) (include : include_set)
  : list flowable :=
  if include t_methods then
    [Paragraph (lit "2.3. Methods") H2_11]
    ++ (if include t_rm then
          [Paragraph (lit "2.3.1. Raw Materials") H3_10;
           bullets Body10_H3 (methods_raw_materials r)]
        else [])
    ++ (if include t_ins then
          [Paragraph (lit "2.3.2. Instrument") H3_10;
           bullets Body10_H3 (methods_instruments r)]
        else [])
    ++ (if include t_proc then
          [Paragraph (lit "2.3.3. Experimental Procedure") H3_10;
           bullets Body10_H3 (methods_procedure r)]
        else [])
    ++ (if include t_trial then
          [Paragraph (lit "2.3.4. Trial History") H3_10; Spacer 600]
          ++ (if nonempty (trial_history r) then
                [Table
                   ([lit "Trial#"; lit "Issue"; lit "Possible Reasons"]
                    :: map (fun t => [number t; issue t; reasons t])
                         (trial_history r))
                   [(100%N, 1); (200%N, 1); (400%N, 1)] GridHeaderTop]
              else [])
        else [])
  else [].

Definition pdf_results_part (r : ReportModel) (include : include_set)
  : result (list flowable) :=
  if include t_results then
    blocks <- pdf_results (results r) ;;
    Ok (Paragraph (lit "2.4. Results") H2_11 :: blocks)
  else Ok [].

Definition pdf_conclusion (r : ReportModel) (include : include_set)
  : list flowable :=
  if include t_conc then
    [Paragraph (lit "2.5. Conclusion") H2_11;
     bullets Body10_H2 (conclusion r)]
  else [].

Definition pdf_misc (r : ReportModel) (include : include_set)
  : list flowable :=
  if include t_misc then h2_para "2.6. Miscellaneous" (miscellaneous r)
  else [].

Definition pdf_references (r : ReportModel) (include : include_set)
  : list flowable :=
  if include t_refs then
    [Paragraph (lit "2.7. References") H2_11;
     bullets Body10_H2 (references r)]
  else [].

Definition pdf_regulatory (r : ReportModel) (include : include_set)
  : list flowable :=
  if include sec_reg then
    [Paragraph (lit "3. Regulatory") H1_12]
    ++ h2_para "3.1. Application regulations" (regulations r)
    ++ h2_para "3.2. Label Requirements" (label_req r)
    ++ h2_para "3.3. Certification Requirements" (certification_req r)
  else [].

Definition pdf_scale_up (r : ReportModel) (include : include_set)
  : list flowable :=
  if include sec_scale then
    [Paragraph (lit "4. Scale Up") H1_12;
     Paragraph (lit "4.1. Manufacturing Order") H2_11]
    ++ (if nonempty (manuf_order_steps r) then
          [bullets Body10_H2 (manuf_order_steps r)]
        else [])
    ++ h2_para "4.2. Formulation Risk" (formulation_risk_text r)
    ++ h2_para "4.3. Hazards" (hazards_text r)
    ++ h2_para "4.4. Equipment" (equipment_text r)
    ++ h2_para "4.5. CAPEX Requirements" (capex_text r)
    ++ h2_para "4.6. Safety Assessment" (safety_assess_text r)
  else [].

Definition pdf_quality (r : ReportModel) (include : include_set)
  : list flowable :=
  if include sec_quality then
    [Paragraph (lit "5. Quality") H1_12]
    ++ h2_para "5.1. Raw Material Sourcing" (raw_material_sourcing r)
    ++ h2_para "5.2. LIMS Setup" (lims_setup r)
    ++ h2_para "5.3. Stability Testing" (stability_testing r)
    ++ h2_para "5.4. Packaging Compatibility" (packaging_compatibility r)
  else [].

(** The lines of 6.2: the value is tested and written stripped. *)
Definition pdf_smart (r : ReportModel) : list flowable :=
  flat_map
    (fun kl =>
       let val := strip (dict_get (smart_goals r) (fst kl) []) in
       if truthy val
       then [Paragraph (snd kl ++ lit ": " ++ val) Body10_H3]
       else [])
    labels_SMART.

Definition pdf_commercial (r : ReportModel) (include : include_set)
  : list flowable :=
  if include sec_commercial then
    [Paragraph (lit "6. Commercial") H1_12]
    ++ h2_para "6.1. Customer Objectives / Problem Statement"
         (c_obj_problem r)
    ++ [Paragraph (lit "6.2. SMART Success Criteria") H2_11]
    ++ pdf_smart r
    ++ h2_para "6.3. Customer Specifications" (c_specs r)
    ++ h2_para "6.4. Expected Business Volume" (c_expected_volume r)
    ++ h2_para "6.5. Packaging Requirement" (c_packaging_req r)
    ++ h2_para "6.6. Raw Material Restrictions / Preferences"
         (c_raw_material_prefs r)
    ++ h2_para "6.7. Sample Needed" (c_sample_needed r)
    ++ h2_para "6.8. Opportunity Timeline" (c_opportunity_timeline r)
    ++ h2_para "6.9. Target Application" (target_application r)
    ++ h2_para "6.10. Customer Feedback" (customer_feedback r)
    ++ h2_para "6.11. TDS Development" (tds_development r)
    ++ [Paragraph (lit "6.12. Email Correspondence") H2_11]
    ++ (if nonempty (email_correspondence r) then
          [Table
             ([lit "Date"; lit "Customer Name"; lit "Correspondence"]
              :: map (fun e => [date e; customer e; correspondence e])
                   (email_correspondence r))
             [(130%N, 1); (200%N, 1); (370%N, 1)] GridHeaderTop]
        else [])
  else [].

(** The [story] that [_export_pdf_basic] hands to [doc.build]. *)
Definition story_of (r : ReportModel) (include : include_set)
  : result (list flowable) :=
  results_part <- pdf_results_part r include ;;
  Ok (pdf_title r
      ++ pdf_general r include
      ++ pdf_technical
      ++ pdf_plain r include
      ++ pdf_objectives r include
      ++ pdf_methods r include
      ++ results_part
      ++ pdf_conclusion r include
      ++ pdf_misc r include
      ++ pdf_references r include
      ++ pdf_regulatory r include
      ++ pdf_scale_up r include
      ++ pdf_quality r include
      ++ pdf_commercial r include).

(* ------------------------------------------------------------------ *)
(** * Export and generation: the trace of a run *)

Inductive event : Type :=
| ShowWarning (title_ message : str)
| ShowError (title_ message : str)
| ShowInfo (title_ message : str)
| MakeDirs (path : str)
| SaveDocx (path : str) (doc : docx_document)
| ConvertDocx (docx_path pdf_path : str)
| BuildPdf (path : str) (doc : pdf_document).

(** [_export_docx]: [Document()] comes first, and [Document] is [None]
    without python-docx; then the document is built and saved. *)
Definition _export_docx (r : ReportModel) (include : include_set)
    (out_path : str) (header_img footer_img : option str)
  : result (list event) :=
  if negb (Document_available w) then
    Raise (TypeError "'NoneType' object is not callable")
  else
    doc <- docx_document_of r include header_img footer_img ;;
    if write_ok w out_path then Ok [SaveDocx out_path doc]
    else Raise (OSError "the document cannot be saved").

(** [_export_pdf_basic]: without reportlab an error dialog and nothing
    else; with it the story is built, laid out and announced. *)
Definition _export_pdf_basic (r : ReportModel) (include : include_set)
    (out_path : str) (header_img footer_img : option str)
  : result (list event) :=
  if negb (SimpleDocTemplate_available w) then
    Ok [ShowError (lit "reportlab not found")
          (lit "Install reportlab or enable docx2pdf for PDF export.")]
  else
    story_ <- story_of r include ;;
    if write_ok w out_path then
      Ok [BuildPdf out_path
            {| page_header := band_picture w header_img;
               page_footer := band_picture w footer_img;
               story := story_ |};
          ShowInfo (lit "PDF saved") (lit "Saved: " ++ out_path)]
    else Raise (OSError "the document cannot be built").

End Renderers.

(** The world once a file has been written at [p]. *)
Definition with_file (p : str) (w : World) : World :=
  {| Document_available := Document_available w;
     SimpleDocTemplate_available := SimpleDocTemplate_available w;
     docx2pdf_available := docx2pdf_available w;
     today := today w; sep := sep w; path_join := path_join w;
     dirname := dirname w;
     isfile := fun q => str_eqb q p || isfile w q;
     makedirs_ok := makedirs_ok w; write_ok := write_ok w;
     convert_ok := convert_ok w; picture_ok := picture_ok w;
     style_ok := style_ok w |}.

(** How a stage of [_generate] ends. *)
Inductive flow : Type :=
| Next                   (* the function goes on *)
| Returned               (* a [return] statement *)
| Raised (e : exn).      (* an exception leaves the function *)

(** [x in (a, b)] for strings. *)
Definition among (x : str) (l : list string) : bool :=
  existsb (fun s => str_eqb x (lit s)) l.

Section Generate.

Variable regex_guess : str -> str -> Csv.quote_guess.

(** [header_img] and [footer_img] of [_generate]. *)
Definition existing_file (w : World) (path_var : str) : option str :=
  if isfile w (strip path_var) then Some (strip path_var) else None.

(** The block [if want in ("docx", "both")]. *)
Definition docx_stage (w : World) (app : App) (r : ReportModel)
    (docx_path : str) (header_img footer_img : option str)
  : list event * flow :=
  if among (export_fmt app) ["docx"; "both"]%string then
    if negb (Document_available w) then
      ([ShowError (lit "python-docx not found")
          (lit "Install python-docx to export .docx")], Returned)
    else
      match _export_docx regex_guess w r (include app) docx_path
              header_img footer_img with
      | Ok evs =>
          (evs ++ [ShowInfo (lit "DOCX saved") (lit "Saved: " ++ docx_path)],
           Next)
      | Raise e => ([], Raised e)
      end
  else ([], Next).

Definition pdf_basic (w : World) (app : App) (r : ReportModel)
    (pdf_path : str) (header_img footer_img : option str)
  : list event * flow :=
  match _export_pdf_basic regex_guess w r (include app) pdf_path
          header_img footer_img with
  | Ok evs => (evs, Next)
  | Raise e => ([], Raised e)
  end.

(** The block [if want in ("pdf", "both")]: the conversion of the saved
    flow document first, the direct renderer when it is not possible or
    fails. *)
Definition pdf_stage (w : World) (app : App) (r : ReportModel)
    (docx_path pdf_path : str) (header_img footer_img : option str)
  : list event * flow :=
  if among (export_fmt app) ["pdf"; "both"]%string then
    if docx2pdf_available w && isfile w docx_path then
      if convert_ok w docx_path pdf_path then
        ([ConvertDocx docx_path pdf_path;
          ShowInfo (lit "PDF saved") (lit "Saved: " ++ pdf_path)], Next)
      else pdf_basic w app r pdf_path header_img footer_img
    else pdf_basic w app r pdf_path header_img footer_img
  else ([], Next).

(** [_generate], on the model [r] that [_collect] returns: the events of
    the run, and whether it ended by an exception. *)
Definition _generate (w : World) (app : App) (r : ReportModel)
  : list event * result unit :=
  if negb (truthy (project_title r)) then
    ([ShowWarning (lit "Missing title")
        (lit "Please enter a Project Title in General Information.")],
     Ok tt)
  else
    let out_dir := strip (out_dir_var app) in
    let dir := dirname w (path_join w out_dir (lit "_")) in
    if negb (makedirs_ok w dir) then ([], Raise (OSError "makedirs"))
    else
      let base := replace (sep w) (lit "_") (strip (project_title r))
                  ++ lit "_" ++ today w in
      let docx_path := path_join w out_dir (base ++ lit ".docx") in
      let pdf_path := path_join w out_dir (base ++ lit ".pdf") in
      let header_img := existing_file w (header_path_var app) in
      let footer_img := existing_file w (footer_path_var app) in
      match docx_stage w app r docx_path header_img footer_img with
      | (ev1, Returned) => (MakeDirs dir :: ev1, Ok tt)
      | (ev1, Raised e) => (MakeDirs dir :: ev1, Raise e)
      | (ev1, Next) =>
          let w' := if existsb (fun e => match e with
                                         | SaveDocx _ _ => true
                                         | _ => false
                                         end) ev1
                    then with_file docx_path w else w in
          match pdf_stage w' app r docx_path pdf_path header_img footer_img with
          | (ev2, Raised e) => (MakeDirs dir :: ev1 ++ ev2, Raise e)
          | (ev2, _) => (MakeDirs dir :: ev1 ++ ev2, Ok tt)
          end
      end.

End Generate.

(** The events that create something on disk: a directory or a file. *)
Definition writes_output (e : event) : bool :=
  match e with
  | MakeDirs _ | SaveDocx _ _ | ConvertDocx _ _ | BuildPdf _ _ => true
  | ShowWarning _ _ | ShowError _ _ | ShowInfo _ _ => false
  end.

(* ------------------------------------------------------------------ *)
(** * Reading the texts back from the two outputs *)

(** A heading with its level (0 for the title line), a list item with its
    numbering, or the cells of a table, row by row. *)
Inductive text_item : Type :=
| THeading (level : nat) (text : str)
| TListItem (ordered : bool) (text : str)
| TTable (cells : list (list str)).

(** In the flow document a heading is a bold paragraph of size 14, 12, 11
    or 10; a list item is a paragraph of a list style. *)
Definition docx_text (b : docx_block) : list text_item :=
  match b with
  | DocxParagraph p =>
      match p_style p with
      | ListNumber => [TListItem true (p_text p)]
      | ListBullet => [TListItem false (p_text p)]
      | Normal =>
          if p_bold p then
            match p_size p with
            | Some 14%N => [THeading 0 (p_text p)]
            | Some 12%N => [THeading 1 (p_text p)]
            | Some 11%N => [THeading 2 (p_text p)]
            | Some 10%N => [THeading 3 (p_text p)]
            | _ => []
            end
          else []
      end
  | DocxTable _ cells => [TTable cells]
  | DocxPicture _ _ => []
  end.

Definition docx_texts (blocks : list docx_block) : list text_item :=
  flat_map docx_text blocks.

(** In the fixed-layout document a heading is a paragraph of one of the
    four heading styles.  The text of an item is the string that the
    program hands to [Paragraph] or to [Table]; what reportlab shows for
    it is the matter of [shown] below. *)
Definition pdf_text (f : flowable) : list text_item :=
  match f with
  | Paragraph t Title14 => [THeading 0 t]
  | Paragraph t H1_12 => [THeading 1 t]
  | Paragraph t H2_11 => [THeading 2 t]
  | Paragraph t H3_10 => [THeading 3 t]
  | Paragraph _ _ => []
  | Table data _ _ => [TTable data]
  | ListFlowable items bt =>
      map (fun e => TListItem match bt with
                              | bullet_1 => true
                              | bullet_bullet => false
                              end (le_text e)) items
  | Spacer _ | RLImage _ => []
  end.

Definition pdf_texts (st : list flowable) : list text_item :=
  flat_map pdf_text st.

Definition is_heading (t : text_item) : bool :=
  match t with THeading _ _ => true | _ => false end.

Definition is_list_item (t : text_item) : bool :=
  match t with TListItem _ _ => true | _ => false end.

(** How the flow document shows an item of the fixed-layout one: a heading
    of the first level after a line break, a table with every row filled
    up to the widest one, everything else as it is. *)
Definition flow_form (t : text_item) : text_item :=
  match t with
  | THeading 1 text => THeading 1 (LF :: text)
  | TTable data => TTable (map (grid_row (max_len data)) data)
  | _ => t
  end.

(** The heading of a result item as both renderers write it: the number
    2.4.N for a text item only; the bare title for a table item, and for an
    image item that has an image and a title. *)
Definition spec_result_heading (idx : nat) (it : ResultItem) : list text_item :=
  if str_eqb (kind it) (lit "text") then
    [THeading 3 (lit "2.4." ++ of_nat idx ++ lit ". " ++ title it)]
  else if str_eqb (kind it) (lit "table") then [THeading 3 (title it)]
  else if str_eqb (kind it) (lit "image") then
    if nonempty (item_images it) && truthy (title it)
    then [THeading 3 (title it)] else []
  else [].

(** The heading that a numbering of every item would give. *)
Definition spec_numbered_heading (idx : nat) (it : ResultItem) : text_item :=
  THeading 3 (lit "2.4." ++ of_nat idx ++ lit ". " ++ title it).

(** The list items of a report as both renderers write them: the
    objectives numbered, every other list with bullets. *)
Definition spec_list_items (r : ReportModel) (include : include_set)
  : list text_item :=
  (if include t_objectives then map (TListItem true) (objectives r) else [])
  ++ (if include t_methods then
        (if include t_rm
         then map (TListItem false) (methods_raw_materials r) else [])
        ++ (if include t_ins
            then map (TListItem false) (methods_instruments r) else [])
        ++ (if include t_proc
            then map (TListItem false) (methods_procedure r) else [])
      else [])
  ++ (if include t_conc then map (TListItem false) (conclusion r) else [])
  ++ (if include t_refs then map (TListItem false) (references r) else [])
  ++ (if include sec_scale
      then map (TListItem false) (manuf_order_steps r) else []).

(** The list items with the manufacturing-order steps numbered as well. *)
Definition spec_list_items_steps_numbered (r : ReportModel)
    (include : include_set) : list text_item :=
  (if include t_objectives then map (TListItem true) (objectives r) else [])
  ++ (if include t_methods then
        (if include t_rm
         then map (TListItem false) (methods_raw_materials r) else [])
        ++ (if include t_ins
            then map (TListItem false) (methods_instruments r) else [])
        ++ (if include t_proc
            then map (TListItem false) (methods_procedure r) else [])
      else [])
  ++ (if include t_conc then map (TListItem false) (conclusion r) else [])
  ++ (if include t_refs then map (TListItem false) (references r) else [])
  ++ (if include sec_scale
      then map (TListItem true) (manuf_order_steps r) else []).

(* ------------------------------------------------------------------ *)
(** * The shapes of a result item *)






(* ------------------------------------------------------------------ *)
(** * Sample values *)

(** A regular-expression phase that finds no quoted field. *)
Definition no_quoted_field : str -> str -> Csv.quote_guess :=
  fun _ _ => Csv.no_match.

(** A world with both libraries, no converter, no files yet, and every
    write succeeding. *)
Definition sample_world : World :=
  {| Document_available := true; SimpleDocTemplate_available := true;
     docx2pdf_available := false; today := lit "2024-01-31";
     sep := 47%N;
     path_join := fun a b => a ++ [47%N] ++ b;
     dirname := fun p => rev (tl (dropwhile (fun c => negb (c =? 47)%N) (rev p)));
     isfile := fun _ => false; makedirs_ok := fun _ => true;
     write_ok := fun _ => true; convert_ok := fun _ _ => true;
     picture_ok := fun _ => true; style_ok := fun _ => true |}.

Definition all_included : include_set := fun _ => true.
Definition none_included : include_set := fun _ => false.

Definition sample_app : App :=
  {| include := all_included; header_path_var := []; footer_path_var := [];
     logo_path_var := []; out_dir_var := lit "reports";
     export_fmt := lit "both" |}.

(** A table item with a ragged grid. *)
Definition sample_table_item : ResultItem :=
  set_table [[lit "a"; lit "b"]; [lit "c"]] (lit "Table Grid")
    (new_ResultItem (lit "T") (lit "table")).

Definition sample_text_item : ResultItem :=
  set_content (lit "found") (new_ResultItem (lit "Yield") (lit "text")).

Definition sample_report : ReportModel :=
  {| project_title := lit "Resin";
     start_date := []; report_date := []; assigned_by := []; bin_no := [];
     researcher_name := []; total_hours := []; plain_summary := [];
     objectives := [lit "lower cost"; lit "keep gloss"];
     methods_raw_materials := [lit "epoxy"]; methods_instruments := [];
     methods_procedure := [];
     trial_history := [{| number := lit "1"; issue := lit "haze";
                          reasons := lit "moisture" |}];
     trial_layout := hd [] TRIAL_LAYOUTS;
     trial_docx_style := hd [] DOCX_TABLE_STYLES;
     results := [sample_text_item; sample_table_item];
     conclusion := []; miscellaneous := []; references := [];
     regulations := []; label_req := []; certification_req := [];
     manuf_order_steps := [lit "mix"; lit "filter"];
     formulation_risk_text := []; hazards_text := []; equipment_text := [];
     capex_text := []; safety_assess_text := [];
     raw_material_sourcing := []; lims_setup := []; stability_testing := [];
     packaging_compatibility := [];
     c_obj_problem := []; smart_goals := empty_smart_goals; c_specs := [];
     c_expected_volume := []; c_packaging_req := [];
     c_raw_material_prefs := []; c_sample_needed := [];
     c_opportunity_timeline := []; target_application := [];
     customer_feedback := []; tds_development := [];
     email_correspondence := [{| date := lit "2024-01-02";
                                 customer := lit "Acme";
                                 correspondence := lit "sample sent" |}] |}.

(** A persisted result item of an older file: an image path, no list. *)
Definition legacy_image_dict : ResultItemDict :=
  {| ri_title := Some (lit "Fig"); ri_kind := Some (lit "image");
     ri_content := None; ri_image_path := Some (Some (lit "a.png"));
     ri_images := None; ri_caption := None; ri_table_data := None;
     ri_table_style := None |}.

(** A persisted text item that also carries a grid and an image. *)
Definition mixed_shape_dict : ResultItemDict :=
  {| ri_title := Some (lit "Mix"); ri_kind := Some (lit "text");
     ri_content := Some (lit "c"); ri_image_path := None;
     ri_images := Some [lit "x.png"]; ri_caption := None;
     ri_table_data := Some [[lit "a"]]; ri_table_style := None |}.

Definition with_results (l : list ResultItemDict) (rm : ReportModelDict)
  : ReportModelDict :=
  {| k_project_title := k_project_title rm; k_start_date := k_start_date rm;
     k_report_date := k_report_date rm; k_assigned_by := k_assigned_by rm;
     k_bin_no := k_bin_no rm; k_researcher_name := k_researcher_name rm;
     k_total_hours := k_total_hours rm; k_plain_summary := k_plain_summary rm;
     k_objectives := k_objectives rm;
     k_methods_raw_materials := k_methods_raw_materials rm;
     k_methods_instruments := k_methods_instruments rm;
     k_methods_procedure := k_methods_procedure rm;
     k_trial_history := k_trial_history rm;
     k_trial_layout := k_trial_layout rm;
     k_trial_docx_style := k_trial_docx_style rm;
     k_results := Some l;
     k_conclusion := k_conclusion rm; k_miscellaneous := k_miscellaneous rm;
     k_references := k_references rm; k_regulations := k_regulations rm;
     k_label_req := k_label_req rm;
     k_certification_req := k_certification_req rm;
     k_manuf_order_steps := k_manuf_order_steps rm;
     k_manuf_order_text := k_manuf_order_text rm;
     k_formulation_risk_text := k_formulation_risk_text rm;
     k_hazards_text := k_hazards_text rm;
     k_equipment_text := k_equipment_text rm;
     k_capex_text := k_capex_text rm;
     k_safety_assess_text := k_safety_assess_text rm;
     k_raw_material_sourcing := k_raw_material_sourcing rm;
     k_lims_setup := k_lims_setup rm;
     k_stability_testing := k_stability_testing rm;
     k_packaging_compatibility := k_packaging_compatibility rm;
     k_c_obj_problem := k_c_obj_problem rm; k_smart_goals := k_smart_goals rm;
     k_c_specs := k_c_specs rm; k_c_expected_volume := k_c_expected_volume rm;
     k_c_packaging_req := k_c_packaging_req rm;
     k_c_raw_material_prefs := k_c_raw_material_prefs rm;
     k_c_sample_needed := k_c_sample_needed rm;
     k_c_opportunity_timeline := k_c_opportunity_timeline rm;
     k_target_application := k_target_application rm;
     k_customer_feedback := k_customer_feedback rm;
     k_tds_development := k_tds_development rm;
     k_email_correspondence := k_email_correspondence rm |}.

Definition with_manuf_order (steps : option (list str)) (text : option str)
    (rm : ReportModelDict) : ReportModelDict :=
  {| k_project_title := k_project_title rm; k_start_date := k_start_date rm;
     k_report_date := k_report_date rm; k_assigned_by := k_assigned_by rm;
     k_bin_no := k_bin_no rm; k_researcher_name := k_researcher_name rm;
     k_total_hours := k_total_hours rm; k_plain_summary := k_plain_summary rm;
     k_objectives := k_objectives rm;
     k_methods_raw_materials := k_methods_raw_materials rm;
     k_methods_instruments := k_methods_instruments rm;
     k_methods_procedure := k_methods_procedure rm;
     k_trial_history := k_trial_history rm;
     k_trial_layout := k_trial_layout rm;
     k_trial_docx_style := k_trial_docx_style rm;
     k_results := k_results rm;
     k_conclusion := k_conclusion rm; k_miscellaneous := k_miscellaneous rm;
     k_references := k_references rm; k_regulations := k_regulations rm;
     k_label_req := k_label_req rm;
     k_certification_req := k_certification_req rm;
     k_manuf_order_steps := steps;
     k_manuf_order_text := text;
     k_formulation_risk_text := k_formulation_risk_text rm;
     k_hazards_text := k_hazards_text rm;
     k_equipment_text := k_equipment_text rm;
     k_capex_text := k_capex_text rm;
     k_safety_assess_text := k_safety_assess_text rm;
     k_raw_material_sourcing := k_raw_material_sourcing rm;
     k_lims_setup := k_lims_setup rm;
     k_stability_testing := k_stability_testing rm;
     k_packaging_compatibility := k_packaging_compatibility rm;
     k_c_obj_problem := k_c_obj_problem rm; k_smart_goals := k_smart_goals rm;
     k_c_specs := k_c_specs rm; k_c_expected_volume := k_c_expected_volume rm;
     k_c_packaging_req := k_c_packaging_req rm;
     k_c_raw_material_prefs := k_c_raw_material_prefs rm;
     k_c_sample_needed := k_c_sample_needed rm;
     k_c_opportunity_timeline := k_c_opportunity_timeline rm;
     k_target_application := k_target_application rm;
     k_customer_feedback := k_customer_feedback rm;
     k_tds_development := k_tds_development rm;
     k_email_correspondence := k_email_correspondence rm |}.

(** [sep.join(parts)] *)
Fixpoint join (sep : str) (parts : list str) : str :=
  match parts with
  | [] => []
  | [p] => p
  | p :: ps => p ++ sep ++ join sep ps
  end.

(** No white space at the start of [s]. *)
Definition starts_clean (s : str) : bool :=
  match s with [] => true | c :: _ => negb (isspace c) end.

(** No white space at either end of [s]: [s.strip() == s]. *)
Definition stripped (s : str) : bool := starts_clean s && starts_clean (rev s).

Definition no_linebreak (s : str) : bool :=
  forallb (fun c => negb (is_linebreak c)) s.

(** A line as [safe_split_lines] returns it: not empty, stripped, and
    without a line boundary inside. *)
Definition clean_line (s : str) : bool :=
  truthy s && stripped s && no_linebreak s.

(* ------------------------------------------------------------------ *)
(** * What the fixed-layout document shows

    reportlab reads the string of a [Paragraph] as markup, and the program
    relies on it: it writes the line breaks of a text as [<br/>].  The
    flow document takes the string of a paragraph as it is.  A string in a
    cell of a [Table] is drawn as it is.

    Of the markup this much is modelled: plain segments joined by
    [<br/>], which are shown with a line break between two of them.  For
    any other string (another tag, an entity, white space that reportlab
    would collapse) [shown] gives no answer. *)

















(** A character of [delimiters] has been seen zero times on every line. *)
Definition unseen (delimiters : str) (t : Csv.frequencies) : Prop :=
  forall i c m,
    nth_error Csv.ascii i = Some c -> mem c delimiters = true ->
    nth_error t i = Some m -> m = [] \/ exists n, m = [(0, n)].

Definition unset (delimiters : str) (ms : Csv.modes) : Prop :=
  forall i c v,
    nth_error Csv.ascii i = Some c -> mem c delimiters = true ->
    nth_error ms i = Some v -> v = None.

Definition absent (delimiters : str) (line : str) : Prop :=
  forall c, mem c delimiters = true -> count c line = 0.

Definition present {A : Type} (entry : option A) : bool :=
  match entry with Some _ => true | None => false end.

(** The dictionaries that carry every key without a default. *)
Definition trial_complete (th : TrialRowDict) : bool :=
  present (th_number th) && present (th_issue th) && present (th_reasons th).

Definition result_complete (ri : ResultItemDict) : bool :=
  present (ri_title ri) && present (ri_kind ri).

Definition email_complete (e : EmailEntryDict) : bool :=
  present (em_date e) && present (em_customer e)
  && present (em_correspondence e).

Definition records_complete (rm : ReportModelDict) : bool :=
  forallb trial_complete (get (k_trial_history rm) [])
  && forallb result_complete (get (k_results rm) [])
  && forallb email_complete (get (k_email_correspondence rm) []).

(** A persisted result item with its two required keys only. *)
Definition bare_result_dict (t k : str) : ResultItemDict :=
  {| ri_title := Some t; ri_kind := Some k; ri_content := None;
     ri_image_path := None; ri_images := None; ri_caption := None;
     ri_table_data := None; ri_table_style := None |}.

(* ------------------------------------------------------------------ *)
(** * What a run leaves on disk *)

Definition writes_docx (e : event) : bool :=
  match e with SaveDocx _ _ => true | _ => false end.

Definition writes_pdf (e : event) : bool :=
  match e with ConvertDocx _ _ | BuildPdf _ _ => true | _ => false end.

(** [base] of [_generate]: the name of the output files without extension. *)
Definition output_base (w : World) (r : ReportModel) : str :=
  replace (sep w) (lit "_") (strip (project_title r)) ++ lit "_" ++ today w.

(** [docx_path], [pdf_path] and the folder of [_generate]. *)
Definition output_docx (w : World) (app : App) (r : ReportModel) : str :=
  path_join w (strip (out_dir_var app)) (output_base w r ++ lit ".docx").

Definition output_pdf (w : World) (app : App) (r : ReportModel) : str :=
  path_join w (strip (out_dir_var app)) (output_base w r ++ lit ".pdf").

Definition output_dir (w : World) (app : App) : str :=
  dirname w (path_join w (strip (out_dir_var app)) (lit "_")).

(** Where an event of a run may write, and under which export format. *)
Definition in_place (w : World) (app : App) (r : ReportModel) (e : event)
  : Prop :=
  match e with
  | MakeDirs d => d = output_dir w app
  | SaveDocx p _ =>
      p = output_docx w app r
      /\ among (export_fmt app) ["docx"; "both"]%string = true
  | ConvertDocx p q =>
      p = output_docx w app r /\ q = output_pdf w app r
      /\ among (export_fmt app) ["pdf"; "both"]%string = true
  | BuildPdf q _ =>
      q = output_pdf w app r
      /\ among (export_fmt app) ["pdf"; "both"]%string = true
  | ShowWarning _ _ | ShowError _ _ | ShowInfo _ _ => True
  end.

(** The sample world with other libraries at hand, a converter that
    succeeds or not, and the files that exist. *)
Definition sample_world_with (docx reportlab converter converts : bool)
    (existing : list str) : World :=
  {| Document_available := docx; SimpleDocTemplate_available := reportlab;
     docx2pdf_available := converter; today := today sample_world;
     sep := sep sample_world; path_join := path_join sample_world;
     dirname := dirname sample_world;
     isfile := fun p => existsb (str_eqb p) existing;
     makedirs_ok := fun _ => true; write_ok := fun _ => true;
     convert_ok := fun _ _ => converts; picture_ok := fun _ => true;
     style_ok := fun _ => true |}.

Definition pdf_only_app : App :=
  {| include := all_included; header_path_var := []; footer_path_var := [];
     logo_path_var := []; out_dir_var := lit "reports";
     export_fmt := lit "pdf" |}.

(** The report with another title. *)
Definition with_project_title (t : str) (r : ReportModel) : ReportModel :=
  {| project_title := t; start_date := start_date r;
     report_date := report_date r; assigned_by := assigned_by r;
     bin_no := bin_no r; researcher_name := researcher_name r;
     total_hours := total_hours r; plain_summary := plain_summary r;
     objectives := objectives r;
     methods_raw_materials := methods_raw_materials r;
     methods_instruments := methods_instruments r;
     methods_procedure := methods_procedure r;
     trial_history := trial_history r; trial_layout := trial_layout r;
     trial_docx_style := trial_docx_style r; results := results r;
     conclusion := conclusion r; miscellaneous := miscellaneous r;
     references := references r; regulations := regulations r;
     label_req := label_req r; certification_req := certification_req r;
     manuf_order_steps := manuf_order_steps r;
     formulation_risk_text := formulation_risk_text r;
     hazards_text := hazards_text r; equipment_text := equipment_text r;
     capex_text := capex_text r; safety_assess_text := safety_assess_text r;
     raw_material_sourcing := raw_material_sourcing r;
     lims_setup := lims_setup r; stability_testing := stability_testing r;
     packaging_compatibility := packaging_compatibility r;
     c_obj_problem := c_obj_problem r; smart_goals := smart_goals r;
     c_specs := c_specs r; c_expected_volume := c_expected_volume r;
     c_packaging_req := c_packaging_req r;
     c_raw_material_prefs := c_raw_material_prefs r;
     c_sample_needed := c_sample_needed r;
     c_opportunity_timeline := c_opportunity_timeline r;
     target_application := target_application r;
     customer_feedback := customer_feedback r;
     tds_development := tds_development r;
     email_correspondence := email_correspondence r |}.

(* ------------------------------------------------------------------ *)
(** * What the two outputs are compared on *)

(** [a] is [b] with some of its elements left out. *)
Inductive subseq {A : Type} : list A -> list A -> Prop :=
| subseq_nil : subseq [] []
| subseq_skip (x : A) (a b : list A) : subseq a b -> subseq a (x :: b)
| subseq_keep (x : A) (a b : list A) : subseq a b -> subseq (x :: a) (x :: b).

(** Every key that is on in [i1] is on in [i2]. *)
Definition include_le (i1 i2 : include_set) : Prop :=
  forall k, i1 k = true -> i2 k = true.

(** The pictures of a flow body and of a story, in their order. *)
Definition docx_pictures (blocks : list docx_block) : list str :=
  flat_map (fun b => match b with DocxPicture p _ => [p] | _ => [] end)
    blocks.

Definition pdf_pictures (story_ : list flowable) : list str :=
  flat_map (fun f => match f with RLImage p => [p] | _ => [] end) story_.

(** The image paths that the renderers go through for an item. *)
Definition image_files (it : ResultItem) : list str :=
  if str_eqb (kind it) (lit "image") then item_images it else [].

(** A row of a grid filled up to [cols] cells with empty cells. *)
Definition padded (cols : nat) (row : list str) : list str :=
  row ++ repeat [] (cols - List.length row).

(* ------------------------------------------------------------------ *)
(** * The list of results in the form *)

(** [del l[i]] for an index in range. *)
Fixpoint delete_nth {A : Type} (n : nat) (l : list A) : list A :=
  match l, n with
  | [], _ => []
  | _ :: l', O => l'
  | y :: l', S n' => y :: delete_nth n' l'
  end.

(** [_remove_result]: an index out of range is ignored. *)
Definition _remove_result (idx : Z) (_results : list ResultItem)
  : list ResultItem :=
  if ((0 <=? idx) && (idx <? Z.of_nat (List.length _results)))%Z
  then delete_nth (Z.to_nat idx) _results
  else _results.

(** [count] of [_rebuild_results_list]: the number of images announced
    beside an image item. *)
Definition image_count (it : ResultItem) : nat :=
  if nonempty (images it) then List.length (images it)
  else match image_path it with
       | Some p => if truthy p then 1 else 0
       | None => 0
       end.

(** What the dialog holds for a text item about to be saved. *)
Definition sample_dialog : DialogInput :=
  {| v_title := lit "  Gloss  "; v_kind := lit "text";
     txt_text := lit "unchanged" ++ [LF]; txt_table := [LF];
     v_tbl_style := lit "Table Grid"; mgr_files := []; mgr_saved := [];
     v_caption := [] |}.

(* ------------------------------------------------------------------ *)
(** * The image manager of the result dialog

    The list [files] of the manager and the items of its list box, which
    the buttons Add, Remove, Up and Down keep side by side.  The
    caches of the previews are left out. *)

From Stdlib Require Import Sorted.

Module ImageManager.

Record t : Type := {
  files : list str;           (* self.files *)
  lst : list str;             (* the items of self.lst *)
  curselection : list nat     (* self.lst.curselection(), ascending *)
}.

(** [p in l] *)
Definition contains (l : list str) (p : str) : bool :=
  existsb (str_eqb p) l.

(** The paths of [l], each at the place of its first occurrence. *)
Fixpoint first_occurrences (l : list str) : list str :=
  match l with
  | [] => []
  | p :: l' =>
      p :: filter (fun q => negb (str_eqb p q)) (first_occurrences l')
  end.

(** [l.remove(p)]: the first occurrence goes. *)
Fixpoint remove (p : str) (l : list str) : list str :=
  match l with
  | [] => []
  | x :: l' => if str_eqb x p then l' else x :: remove p l'
  end.

(** [self.lst.insert(i, a)]: past the end the item is appended. *)
Fixpoint insert_at (n : nat) (a : str) (l : list str) : list str :=
  match n, l with
  | O, _ => a :: l
  | S n', x :: l' => x :: insert_at n' a l'
  | S _, [] => [a]
  end.

Definition get_files (m : t) : list str := files m.

(** One turn of the loop of [_add_files]. *)
Definition add_one (st : list str * list str) (p : str)
  : list str * list str :=
  if contains (fst st) p then st else (fst st ++ [p], snd st ++ [p]).

(** [_add_files], for the [paths] that the file dialog returns. *)
Definition _add_files (paths : list str) (m : t) : t :=
  if negb (nonempty paths) then m
  else
    let st := fold_left add_one paths (files m, lst m) in
    {| files := fst st; lst := snd st;
       curselection :=
         if nonempty (fst st) then
           match snd st with
           | [] => []
           | _ :: _ => [List.length (snd st) - 1]
           end
         else curselection m |}.

(** One turn of the loop of [_remove_selected]: the item at [i] leaves
    the list box, and its text leaves [files] if it is there. *)
Definition remove_one (st : list str * list str) (i : nat)
  : list str * list str :=
  let path := nth i (snd st) [] in
  (if contains (fst st) path then remove path (fst st) else fst st,
   delete_nth i (snd st)).

Definition _remove_selected (m : t) : t :=
  if negb (nonempty (curselection m)) then m
  else
    let st := fold_left remove_one (rev (curselection m)) (files m, lst m) in
    {| files := fst st; lst := snd st; curselection := [] |}.

(** How [_move] ends: it returns, or the swap in [files] raises
    [IndexError] after the list box has been changed. *)
Inductive outcome : Type :=
| Done (m : t)
| IndexError (m : t).

Definition _move (delta : Z) (m : t) : outcome :=
  match curselection m with
  | [] => Done m
  | i :: _ =>
      let j := (Z.of_nat i + delta)%Z in
      if ((j <? 0) || (j >=? Z.of_nat (List.length (lst m))))%Z then Done m
      else
        let j := Z.to_nat j in
        let a := nth i (lst m) [] in
        let b := nth j (lst m) [] in
        let l1 := insert_at j a (delete_nth j (lst m)) in
        let l2 := insert_at i b (delete_nth i l1) in
        match nth_error (files m) j, nth_error (files m) i with
        | Some fj, Some fi =>
            Done {| files := replace_nth j fi (replace_nth i fj (files m));
                    lst := l2; curselection := [j] |}
        | _, _ =>
            IndexError {| files := files m; lst := l2; curselection := [j] |}
        end
  end.

(** The two lists are the same and hold no path twice. *)
Definition in_sync (m : t) : Prop :=
  files m = lst m /\ NoDup (files m).

(** What the list box guarantees of its selection. *)
Definition selection_ok (m : t) : Prop :=
  StronglySorted lt (curselection m)
  /\ Forall (fun i => i < List.length (lst m)) (curselection m).

(** The place that comes to [k] when the places [i] and [j] are
    exchanged. *)
Definition exchange (i j k : nat) : nat :=
  if Nat.eqb k i then j else if Nat.eqb k j then i else k.

(** Three images, the first and the last selected. *)
Definition sample_manager : t :=
  {| files := [lit "a.png"; lit "b.png"; lit "c.png"];
     lst := [lit "a.png"; lit "b.png"; lit "c.png"];
     curselection := [0; 2] |}.

End ImageManager.

(* ------------------------------------------------------------------ *)
(** * Settings that stay on the screen *)

(** [r.trial_layout = lay] *)
Definition with_trial_layout (lay : str) (r : ReportModel) : ReportModel :=
  {| project_title := project_title r; start_date := start_date r;
     report_date := report_date r; assigned_by := assigned_by r;
     bin_no := bin_no r; researcher_name := researcher_name r;
     total_hours := total_hours r; plain_summary := plain_summary r;
     objectives := objectives r;
     methods_raw_materials := methods_raw_materials r;
     methods_instruments := methods_instruments r;
     methods_procedure := methods_procedure r;
     trial_history := trial_history r; trial_layout := lay;
     trial_docx_style := trial_docx_style r; results := results r;
     conclusion := conclusion r; miscellaneous := miscellaneous r;
     references := references r; regulations := regulations r;
     label_req := label_req r; certification_req := certification_req r;
     manuf_order_steps := manuf_order_steps r;
     formulation_risk_text := formulation_risk_text r;
     hazards_text := hazards_text r; equipment_text := equipment_text r;
     capex_text := capex_text r; safety_assess_text := safety_assess_text r;
     raw_material_sourcing := raw_material_sourcing r;
     lims_setup := lims_setup r; stability_testing := stability_testing r;
     packaging_compatibility := packaging_compatibility r;
     c_obj_problem := c_obj_problem r; smart_goals := smart_goals r;
     c_specs := c_specs r; c_expected_volume := c_expected_volume r;
     c_packaging_req := c_packaging_req r;
     c_raw_material_prefs := c_raw_material_prefs r;
     c_sample_needed := c_sample_needed r;
     c_opportunity_timeline := c_opportunity_timeline r;
     target_application := target_application r;
     customer_feedback := customer_feedback r;
     tds_development := tds_development r;
     email_correspondence := email_correspondence r |}.

(** [self.logo_path_var.set(logo)] *)
Definition with_logo (logo : str) (app : App) : App :=
  {| include := include app; header_path_var := header_path_var app;
     footer_path_var := footer_path_var app; logo_path_var := logo;
     out_dir_var := out_dir_var app; export_fmt := export_fmt app |}.

(* ------------------------------------------------------------------ *)
(** * Table-text inference *)

(** The consistency loop of the sniffer makes ten passes and no more: the
    value left after the tenth subtraction is below the threshold. *)
Lemma consistency_passes :
  PrimFloat.leb Csv.threshold
    (Nat.iter 9 (fun c => PrimFloat.sub c Csv.step) 1%float) = true
  /\ PrimFloat.leb Csv.threshold
       (Nat.iter 10 (fun c => PrimFloat.sub c Csv.step) 1%float) = false.
Proof. split; vm_compute; reflexivity. Qed.

Lemma whitespace_row_nonempty (ln : str) : whitespace_row ln <> [].
Proof.
  unfold whitespace_row.
  destruct (filter truthy (re_split_ws2 (strip ln))); simpl; discriminate.
Qed.

Lemma whitespace_rows_shape (txt : str) :
  List.length (whitespace_rows txt) = List.length (splitlines txt)
  /\ Forall (fun row => row <> []) (whitespace_rows txt).
Proof.
  unfold whitespace_rows. split.
  - apply length_map.
  - apply Forall_forall. intros row Hin.
    apply in_map_iff in Hin. destruct Hin as [ln [<- _]].
    apply whitespace_row_nonempty.
Qed.

(** Without a match of [\s{2,}] the split returns the string itself. *)
Lemma re_split_ws2_from_single (s : str) (b : bool) :
  has_ws_run s = false ->
  (b = true -> match s with c :: _ => isspace c = false | [] => True end) ->
  re_split_ws2_from b s = [s].
Proof.
  revert b. induction s as [|c rest IH]; intros b Hruns Hb.
  - reflexivity.
  - assert (Hrest : re_split_ws2_from false rest = [rest]).
    { apply IH; [|discriminate].
      destruct rest as [|c2 rest']; [reflexivity|].
      simpl in Hruns. apply orb_false_iff in Hruns. apply Hruns. }
    simpl. destruct (isspace c) eqn:Hc.
    + destruct b.
      * specialize (Hb eq_refl). simpl in Hb. congruence.
      * destruct rest as [|c2 rest'].
        -- reflexivity.
        -- simpl in Hruns. rewrite Hc in Hruns.
           apply orb_false_iff in Hruns. destruct Hruns as [H2 _].
           simpl in H2. rewrite H2. rewrite Hrest. reflexivity.
    + rewrite Hrest. reflexivity.
Qed.

(** The worst case of the third strategy: a line without a run of white
    space is one cell, the stripped line. *)
Lemma whitespace_row_single (ln : str) :
  has_ws_run (strip ln) = false -> whitespace_row ln = [strip ln].
Proof.
  intros H. unfold whitespace_row, re_split_ws2.
  rewrite re_split_ws2_from_single by (auto; discriminate).
  simpl. destruct (strip ln); reflexivity.
Qed.

Lemma parse_table_text_returns (regex_guess : str -> str -> Csv.quote_guess)
    (text : str) :
  exists rows, parse_table_text regex_guess text = Ok rows.
Proof.
  unfold parse_table_text.
  destruct (negb (truthy (strip_chars [LF] text))); [eexists; reflexivity|].
  destruct (sniffed_rows regex_guess (strip_chars [LF] text)) as [[rows|]|e];
    try (eexists; reflexivity);
    destruct (mem TAB (strip_chars [LF] text)); eexists; reflexivity.
Qed.

(** C4: the three examples of the delimiter priority.  The comma text and
    the tab text are settled by the sniffed delimiter; on the text with
    aligned columns the sniffer finds no delimiter, no line has a tab, and
    the split on runs of white space gives the grid. *)
Theorem parse_table_text_delimiter_priority :
  forall regex_guess : str -> str -> Csv.quote_guess,
    let csv_text := lit "a,b,c" ++ [LF] ++ lit "1,2,3" in
    let tsv_text := lit "a" ++ [TAB] ++ lit "b" ++ [LF]
                    ++ lit "1" ++ [TAB] ++ lit "2" in
    let aligned := lit "Name      Score" ++ [LF] ++ lit "Ada       10" in
    parse_table_text regex_guess csv_text
      = Ok [[lit "a"; lit "b"; lit "c"]; [lit "1"; lit "2"; lit "3"]]
    /\ parse_table_text regex_guess tsv_text
       = Ok [[lit "a"; lit "b"]; [lit "1"; lit "2"]]
    /\ parse_table_text regex_guess aligned
       = Ok [[lit "Name"; lit "Score"]; [lit "Ada"; lit "10"]]
    /\ sniffed_rows regex_guess csv_text
       = Ok (Some [[lit "a"; lit "b"; lit "c"]; [lit "1"; lit "2"; lit "3"]])
    /\ sniffed_rows regex_guess tsv_text
       = Ok (Some [[lit "a"; lit "b"]; [lit "1"; lit "2"]])
    /\ sniffed_rows regex_guess aligned
       = Raise (CsvError "Could not determine delimiter")
    /\ mem TAB aligned = false
    /\ whitespace_rows aligned
       = [[lit "Name"; lit "Score"]; [lit "Ada"; lit "10"]].
Proof.
  intros regex_guess csv_text tsv_text aligned.
  repeat split; vm_compute; reflexivity.
Qed.

(** C5: the inference returns a grid for every text and never raises.
    The grid is empty for a text of line feeds only; it is the sniffed grid
    when the sniffing block returns one; after an exception in that block,
    or when the block ends without returning, it is the split on tabs if the
    text has a tab and the split on runs of white space otherwise.  That
    last grid has one row per line, no row without a cell, and one cell for
    a line without a run of white space. *)
Theorem parse_table_text_total :
  forall (regex_guess : str -> str -> Csv.quote_guess) (text : str),
    let txt := strip_chars [LF] text in
    exists rows,
      parse_table_text regex_guess text = Ok rows
      /\ rows = (if negb (truthy txt) then []
                 else match sniffed_rows regex_guess txt with
                      | Ok (Some sniffed) => sniffed
                      | Ok None | Raise _ =>
                          if mem TAB txt then tab_rows txt
                          else whitespace_rows txt
                      end)
      /\ List.length (whitespace_rows txt) = List.length (splitlines txt)
      /\ Forall (fun row => row <> []) (whitespace_rows txt)
      /\ Forall (fun ln => has_ws_run (strip ln) = false ->
                           whitespace_row ln = [strip ln]) (splitlines txt).
Proof.
  intros regex_guess text txt.
  unfold parse_table_text. fold txt.
  destruct (whitespace_rows_shape txt) as [Hlen Hrows].
  assert (Hone : Forall (fun ln => has_ws_run (strip ln) = false ->
                                   whitespace_row ln = [strip ln])
                   (splitlines txt)).
  { apply Forall_forall. intros ln _. apply whitespace_row_single. }
  destruct (negb (truthy txt)).
  - exists []. auto.
  - destruct (sniffed_rows regex_guess txt) as [[sniffed|]|e].
    + exists sniffed. auto.
    + destruct (mem TAB txt); eexists; auto.
    + destruct (mem TAB txt); eexists; auto.
Qed.

(* ------------------------------------------------------------------ *)
(** * Persistence *)

Lemma bind_Ok {A B : Type} (m : result A) (k : A -> result B) (b : B) :
  bind m k = Ok b -> exists a, m = Ok a /\ k a = Ok b.
Proof. destruct m as [a|e]; simpl; [eauto | discriminate]. Qed.

Lemma mapM_Forall2 {A B : Type} (f : A -> result B) (l : list A) (l' : list B) :
  mapM f l = Ok l' -> Forall2 (fun a b => f a = Ok b) l l'.
Proof.
  revert l'. induction l as [|a l IH]; intros l' H; simpl in H.
  - injection H as <-. constructor.
  - apply bind_Ok in H. destruct H as [b [Hb H]].
    apply bind_Ok in H. destruct H as [bs [Hbs H]].
    injection H as <-. constructor; auto.
Qed.

Lemma mapM_map_Ok {A B : Type} (f : A -> result B) (g : B -> A) (l : list B) :
  (forall b, f (g b) = Ok b) -> mapM f (map g l) = Ok l.
Proof.
  intros H. induction l as [|b l IH]; simpl.
  - reflexivity.
  - rewrite H. simpl. rewrite IH. reflexivity.
Qed.

Lemma TrialRow_round_trip (tr : TrialRow) :
  TrialRow_of_dict (asdict_TrialRow tr) = Ok tr.
Proof. destruct tr; reflexivity. Qed.

Lemma ResultItem_round_trip (res : ResultItem) :
  ResultItem_of_dict (with_images (asdict_ResultItem res)) = Ok res.
Proof. destruct res; reflexivity. Qed.

Lemma EmailEntry_round_trip (e : EmailEntry) :
  EmailEntry_of_dict (asdict_EmailEntry e) = Ok e.
Proof. destruct e; reflexivity. Qed.

(** The written dictionary has the list of steps and not the older text,
    so the load takes the list. *)
Lemma load_mo_steps_written (r : ReportModel) :
  load_mo_steps (report_model_dict r) = manuf_order_steps r.
Proof.
  unfold load_mo_steps. simpl.
  destruct (manuf_order_steps r); reflexivity.
Qed.

Lemma load_report_model_written (r : ReportModel) :
  load_report_model (report_model_dict r) = Ok r.
Proof.
  unfold load_report_model.
  rewrite load_mo_steps_written.
  cbn [report_model_dict get k_trial_history k_results k_email_correspondence].
  rewrite (mapM_map_Ok TrialRow_of_dict asdict_TrialRow _ TrialRow_round_trip).
  rewrite map_map.
  rewrite (mapM_map_Ok ResultItem_of_dict
             (fun x => with_images (asdict_ResultItem x)) _
             ResultItem_round_trip).
  rewrite (mapM_map_Ok EmailEntry_of_dict asdict_EmailEntry _
             EmailEntry_round_trip).
  destruct r; reflexivity.
Qed.

Lemma load_written (r : ReportModel) (app app0 : App) :
  _load_from_dict (_to_dict r app) app0 = Loaded r app.
Proof.
  unfold _load_from_dict.
  cbn [_to_dict get d_report_model d_branding d_export d_include].
  rewrite load_report_model_written.
  destruct app; reflexivity.
Qed.

(** C6: writing a model with [_to_dict] and loading the structure with
    [_load_from_dict] succeeds and gives back every ordered list
    (objectives, trial history, result items, email correspondence, and
    the other lists of lines) with the same entries in the same order. *)
Theorem ordering_preserved_round_trip :
  forall (r : ReportModel) (app app0 : App),
    exists (r' : ReportModel) (app' : App),
      _load_from_dict (_to_dict r app) app0 = Loaded r' app'
      /\ objectives r' = objectives r
      /\ trial_history r' = trial_history r
      /\ results r' = results r
      /\ email_correspondence r' = email_correspondence r
      /\ methods_raw_materials r' = methods_raw_materials r
      /\ methods_instruments r' = methods_instruments r
      /\ methods_procedure r' = methods_procedure r
      /\ conclusion r' = conclusion r
      /\ references r' = references r
      /\ manuf_order_steps r' = manuf_order_steps r.
Proof.
  intros r app app0. exists r, app.
  rewrite load_written. repeat split; reflexivity.
Qed.

(** What a successful [load_report_model] has read. *)
Lemma load_report_model_Ok (rm : ReportModelDict) (r : ReportModel) :
  load_report_model rm = Ok r ->
  manuf_order_steps r = load_mo_steps rm
  /\ mapM ResultItem_of_dict (map with_images (get (k_results rm) []))
     = Ok (results r).
Proof.
  unfold load_report_model. intros H.
  apply bind_Ok in H. destruct H as [ths [_ H]].
  apply bind_Ok in H. destruct H as [rs [Hrs H]].
  apply bind_Ok in H. destruct H as [es [_ H]].
  injection H as <-. simpl. auto.
Qed.

(** The load succeeds when the three lists of records are empty or absent. *)
Lemma load_report_model_no_records (rm : ReportModelDict) :
  get (k_trial_history rm) [] = [] ->
  get (k_results rm) [] = [] ->
  get (k_email_correspondence rm) [] = [] ->
  exists r, load_report_model rm = Ok r.
Proof.
  intros H1 H2 H3. unfold load_report_model.
  rewrite H1, H2, H3. simpl. eexists. reflexivity.
Qed.

(** C7, as stated, fails: with the list of steps present but empty and the
    older text present, the steps come from the text and the stored list
    is not used as it is. *)
Lemma migration_with_empty_list :
  let rm := with_manuf_order (Some []) (Some (lit "mix"))
              empty_ReportModelDict in
  exists r,
    load_report_model rm = Ok r
    /\ k_manuf_order_steps rm = Some []
    /\ manuf_order_steps r = [lit "mix"]
    /\ manuf_order_steps r <> [].
Proof.
  eexists. split; [vm_compute; reflexivity|].
  split; [reflexivity|]. split; [reflexivity|]. discriminate.
Qed.

(** C7, amended: the loaded steps are the older text split into its
    non-blank lines, stripped, when the list of steps is absent or empty
    and the older text is present and not empty; in every other case they
    are the stored list (no step when the key is absent). *)
Theorem manuf_order_migration :
  forall (rm : ReportModelDict) (r : ReportModel),
    load_report_model rm = Ok r ->
    manuf_order_steps r =
      match k_manuf_order_steps rm, k_manuf_order_text rm with
      | None, Some (c :: text) => safe_split_lines (c :: text)
      | Some [], Some (c :: text) => safe_split_lines (c :: text)
      | Some steps, _ => steps
      | None, _ => []
      end.
Proof.
  intros rm r H. apply load_report_model_Ok in H. destruct H as [-> _].
  unfold load_mo_steps.
  destruct (k_manuf_order_steps rm) as [[|s steps]|];
    destruct (k_manuf_order_text rm) as [[|c text]|]; reflexivity.
Qed.

Lemma manuf_order_migration_witness :
  let rm := with_manuf_order None
              (Some (lit "mix " ++ [LF; LF] ++ lit " filter"))
              empty_ReportModelDict in
  exists r,
    load_report_model rm = Ok r
    /\ manuf_order_steps r = [lit "mix"; lit "filter"].
Proof.
  intros rm.
  destruct (load_report_model rm) as [r|e] eqn:H.
  - exists r. split; [reflexivity|].
    rewrite (@manuf_order_migration rm r H).
    vm_compute. reflexivity.
  - vm_compute in H. discriminate.
Defined.

(** C10: in a loaded model, a result item whose dictionary has no key
    "images" has the one-element list of its image path when that path is
    present and not empty, and the empty list otherwise; an item whose
    dictionary has the key keeps the stored list. *)
Theorem images_back_compat :
  forall (rm : ReportModelDict) (r : ReportModel),
    load_report_model rm = Ok r ->
    Forall2
      (fun (ri : ResultItemDict) (it : ResultItem) =>
         images it =
           match ri_images ri with
           | Some stored => stored
           | None =>
               match ri_image_path ri with
               | Some (Some (c :: p)) => [c :: p]
               | _ => []
               end
           end)
      (get (k_results rm) []) (results r).
Proof.
  intros rm r H. apply load_report_model_Ok in H. destruct H as [_ H].
  apply mapM_Forall2 in H.
  remember (get (k_results rm) []) as dicts eqn:E. clear E.
  remember (results r) as items eqn:E. clear E.
  revert items H. induction dicts as [|ri dicts IH]; intros items H.
  - inversion H. constructor.
  - simpl in H. inversion H as [|? it ? items' Hit Hrest]; subst.
    constructor; [|apply IH; assumption].
    unfold ResultItem_of_dict, with_images in Hit.
    destruct (ri_images ri) as [stored|] eqn:Hi.
    + rewrite Hi in Hit.
      destruct (ri_title ri), (ri_kind ri); try discriminate.
      injection Hit as <-. reflexivity.
    + simpl in Hit.
      destruct (ri_title ri), (ri_kind ri); try discriminate.
      injection Hit as <-. simpl.
      destruct (ri_image_path ri) as [[[|c p]|]|]; reflexivity.
Qed.

Lemma images_back_compat_witness :
  let rm := with_results [legacy_image_dict; mixed_shape_dict]
              empty_ReportModelDict in
  exists r,
    load_report_model rm = Ok r
    /\ map images (results r) = [[lit "a.png"]; [lit "x.png"]].
Proof.
  intros rm.
  destruct (load_report_model rm) as [r|e] eqn:H.
  - exists r. split; [reflexivity|].
    pose proof (@images_back_compat rm r H) as F.
    simpl in F.
    inversion F as [|? it1 ? items1 H1 F1 E1 E2]; subst.
    inversion F1 as [|? it2 ? items2 H2 F2 E3 E4]; subst.
    inversion F2; subst.
    simpl. rewrite H1, H2. reflexivity.
  - vm_compute in H. discriminate.
Defined.

(* ------------------------------------------------------------------ *)
(** * Generation *)

(** With a title and a writable output folder the run starts by creating
    the folder. *)
Lemma generate_begins (regex_guess : str -> str -> Csv.quote_guess)
    (w : World) (app : App) (r : ReportModel) :
  truthy (project_title r) = true ->
  makedirs_ok w (dirname w (path_join w (strip (out_dir_var app)) (lit "_")))
    = true ->
  exists evs,
    fst (_generate regex_guess w app r)
    = MakeDirs (dirname w (path_join w (strip (out_dir_var app)) (lit "_")))
      :: evs.
Proof.
  intros Ht Hd. unfold _generate. rewrite Ht, Hd. simpl.
  destruct (docx_stage regex_guess w app r _ _ _) as [ev1 [| |e]];
    try (eexists; reflexivity).
  destruct (pdf_stage regex_guess _ app r _ _ _ _) as [ev2 [| |e]];
    eexists; reflexivity.
Qed.

(** C8: with an empty project title [_generate] shows the warning
    "Missing title" and returns: that dialog is the only event of the run,
    so no folder is created, no exporter is called and no file is
    written. *)
Theorem generate_rejects_empty_title :
  forall (regex_guess : str -> str -> Csv.quote_guess)
         (w : World) (app : App) (r : ReportModel),
    project_title r = [] ->
    _generate regex_guess w app r
    = ([ShowWarning (lit "Missing title")
          (lit "Please enter a Project Title in General Information.")],
       Ok tt)
    /\ existsb writes_output (fst (_generate regex_guess w app r)) = false.
Proof.
  intros regex_guess w app r Ht.
  unfold _generate. rewrite Ht. simpl. split; reflexivity.
Qed.

Lemma generate_rejects_empty_title_witness :
  project_title empty_ReportModel = []
  /\ _generate no_quoted_field sample_world sample_app empty_ReportModel
     = ([ShowWarning (lit "Missing title")
           (lit "Please enter a Project Title in General Information.")],
        Ok tt)
  /\ existsb writes_output
       (fst (_generate no_quoted_field sample_world sample_app
               empty_ReportModel)) = false.
Proof.
  split; [reflexivity|].
  apply (@generate_rejects_empty_title no_quoted_field sample_world
           sample_app empty_ReportModel).
  reflexivity.
Defined.

(* ------------------------------------------------------------------ *)
(** * Result items *)



(* ------------------------------------------------------------------ *)
(** * The two renderers *)

Arguments lit : simpl never.

Lemma docx_texts_app (a b : list docx_block) :
  docx_texts (a ++ b) = docx_texts a ++ docx_texts b.
Proof. apply flat_map_app. Qed.

Lemma pdf_texts_app (a b : list flowable) :
  pdf_texts (a ++ b) = pdf_texts a ++ pdf_texts b.
Proof. apply flat_map_app. Qed.

Lemma list_paras_texts (numbered : bool) (level : nat) (l : list str) :
  docx_texts (map (fun x => _list_para x numbered level) l)
  = map (TListItem numbered) l.
Proof.
  induction l as [|x l IH]; simpl; [reflexivity|].
  fold (docx_texts (map (fun x => _list_para x numbered level) l)).
  rewrite IH. destruct numbered; reflexivity.
Qed.

Lemma body_paras_texts (level : nat) (l : list str) :
  docx_texts (map (fun x => _body_para x level) l) = [].
Proof. induction l as [|x l IH]; simpl; auto. Qed.

Lemma bullets_texts (style : pdf_style) (l : list str) :
  pdf_text (bullets style l) = map (TListItem false) l.
Proof. unfold bullets. simpl. rewrite map_map. reflexivity. Qed.

Lemma flow_form_list_items (b : bool) (l : list str) :
  map flow_form (map (TListItem b) l) = map (TListItem b) l.
Proof. rewrite map_map. reflexivity. Qed.

Lemma grid_row_full (row : list str) : grid_row (List.length row) row = row.
Proof.
  unfold grid_row. induction row as [|c row IH]; simpl; [reflexivity|].
  f_equal. rewrite <- seq_shift, map_map. exact IH.
Qed.

Lemma max_len_uniform (n : nat) (data : list (list str)) :
  Forall (fun row => List.length row = n) data -> data <> [] ->
  max_len data = n.
Proof.
  induction 1 as [|row data Hrow Hdata IH]; intros Hne; [congruence|].
  simpl. destruct data as [|row' data'].
  - simpl. lia.
  - rewrite IH by discriminate. lia.
Qed.

Lemma grid_uniform (n : nat) (data : list (list str)) :
  Forall (fun row => List.length row = n) data ->
  map (grid_row (max_len data)) data = data.
Proof.
  intros H. destruct data as [|row0 data0]; [reflexivity|].
  rewrite (max_len_uniform H) by discriminate.
  induction H as [|row data Hrow Hdata IH]; [reflexivity|].
  simpl. rewrite IH. rewrite <- Hrow at 1. rewrite grid_row_full. reflexivity.
Qed.

(** A table of three columns reads the same in both documents. *)
Lemma table3_flow_form {A : Type} (h : list str) (f : A -> list str)
    (l : list A) :
  List.length h = 3 -> (forall x, List.length (f x) = 3) ->
  flow_form (TTable (h :: map f l)) = TTable (h :: map f l).
Proof.
  intros Hh Hf. unfold flow_form. f_equal.
  apply grid_uniform with (n := 3).
  constructor; [exact Hh|].
  apply Forall_forall. intros row Hin. apply in_map_iff in Hin.
  destruct Hin as [x [<- _]]. apply Hf.
Qed.

Section RendererFacts.

Variable regex_guess : str -> str -> Csv.quote_guess.
Variable w : World.

Lemma item_table_returns (it : ResultItem) :
  exists data, item_table regex_guess it = Ok data.
Proof.
  unfold item_table. destruct (nonempty (table_data it)).
  - eexists. reflexivity.
  - apply parse_table_text_returns.
Qed.

(** Pictures and their captions are neither headings, list items nor
    tables. *)
Lemma docx_pictures_no_text (cap : str) (imgs : list str) :
  docx_texts
    (flat_map
       (fun pth =>
          if truthy pth && isfile w pth then
            if picture_ok w pth then
              DocxPicture pth 580
              :: (if truthy cap then [caption_paragraph cap] else [])
            else []
          else [])
       imgs) = [].
Proof.
  induction imgs as [|pth imgs IH]; simpl; [reflexivity|].
  rewrite docx_texts_app, IH.
  destruct (truthy pth && isfile w pth); [|reflexivity].
  destruct (picture_ok w pth); [|reflexivity].
  destruct (truthy cap); reflexivity.
Qed.

Lemma pdf_pictures_no_text (cap : str) (imgs : list str) :
  pdf_texts
    (flat_map
       (fun pth =>
          if truthy pth && isfile w pth then
            RLImage pth
            :: (if truthy cap then [Paragraph cap Body10_H3] else [])
          else [])
       imgs) = [].
Proof.
  induction imgs as [|pth imgs IH]; simpl; [reflexivity|].
  rewrite pdf_texts_app, IH.
  destruct (truthy pth && isfile w pth); [|reflexivity].
  destruct (truthy cap); reflexivity.
Qed.

(** One result item: both renderers return, their texts correspond, and
    the headings are those of [spec_result_heading]. *)
Lemma result_texts (idx : nat) (it : ResultItem) :
  exists bd bp,
    docx_result regex_guess w idx it = Ok bd
    /\ pdf_result regex_guess w idx it = Ok bp
    /\ docx_texts bd = map flow_form (pdf_texts bp)
    /\ filter is_heading (docx_texts bd) = spec_result_heading idx it
    /\ filter is_heading (pdf_texts bp) = spec_result_heading idx it
    /\ filter is_list_item (pdf_texts bp) = [].
Proof.
  unfold docx_result, pdf_result, spec_result_heading.
  destruct (str_eqb (kind it) (lit "text")).
  { do 2 eexists. split; [reflexivity|]. split; [reflexivity|].
    cbn [docx_texts flat_map]. fold (docx_texts
      (map (fun line => _body_para line 3) (safe_split_lines (content it)))).
    rewrite body_paras_texts. repeat split; reflexivity. }
  destruct (str_eqb (kind it) (lit "table")).
  { destruct (item_table_returns it) as [data ->]. simpl bind.
    do 2 eexists. split; [reflexivity|]. split; [reflexivity|].
    destruct (nonempty data); repeat split; reflexivity. }
  destruct (str_eqb (kind it) (lit "image")); [|do 2 eexists; repeat split; reflexivity].
  destruct (nonempty (item_images it)); [|do 2 eexists; repeat split; reflexivity].
  do 2 eexists. split; [reflexivity|]. split; [reflexivity|].
  rewrite docx_texts_app, pdf_texts_app.
  rewrite docx_pictures_no_text, pdf_pictures_no_text.
  destruct (truthy (title it)); repeat split; reflexivity.
Qed.

(** The loop over the results, for any first number. *)
Lemma results_texts_from (n : nat) (rs : list ResultItem) :
  exists bds bps,
    mapM (fun p => docx_result regex_guess w (fst p) (snd p)) (enumerate n rs)
      = Ok bds
    /\ mapM (fun p => pdf_result regex_guess w (fst p) (snd p)) (enumerate n rs)
       = Ok bps
    /\ docx_texts (List.concat bds) = map flow_form (pdf_texts (List.concat bps))
    /\ filter is_heading (docx_texts (List.concat bds))
       = flat_map (fun p => spec_result_heading (fst p) (snd p))
           (enumerate n rs)
    /\ filter is_heading (pdf_texts (List.concat bps))
       = flat_map (fun p => spec_result_heading (fst p) (snd p))
           (enumerate n rs)
    /\ filter is_list_item (pdf_texts (List.concat bps)) = [].
Proof.
  revert n. induction rs as [|it rs IH]; intros n.
  - exists [], []. repeat split; reflexivity.
  - destruct (result_texts n it) as [bd [bp [Hd [Hp [Ht [Hhd [Hhp Hl]]]]]]].
    destruct (IH (S n)) as [bds [bps [Hds [Hps [Hts [Hhds [Hhps Hls]]]]]]].
    exists (bd :: bds), (bp :: bps).
    cbn [enumerate mapM fst snd]. rewrite Hd, Hp, Hds, Hps.
    cbn [bind List.concat flat_map].
    rewrite docx_texts_app, pdf_texts_app, map_app, !filter_app.
    rewrite Hhd, Hhp, Hhds, Hhps, Hl, Hls, Ht, Hts.
    repeat split; reflexivity.
Qed.

End RendererFacts.

Lemma docx_texts_cons (b : docx_block) (l : list docx_block) :
  docx_texts (b :: l) = docx_text b ++ docx_texts l.
Proof. reflexivity. Qed.

Lemma pdf_texts_cons (f : flowable) (l : list flowable) :
  pdf_texts (f :: l) = pdf_text f ++ pdf_texts l.
Proof. reflexivity. Qed.

Lemma docx_texts_nil : docx_texts [] = [].
Proof. reflexivity. Qed.

Lemma pdf_texts_nil : pdf_texts [] = [].
Proof. reflexivity. Qed.

Lemma numbered_texts (style : pdf_style) (wrapped : bool) (l : list str) :
  pdf_text
    (ListFlowable
       (map (fun o => {| le_text := o; le_style := style;
                         le_ListItem := wrapped |}) l) bullet_1)
  = map (TListItem true) l.
Proof. simpl. rewrite map_map. reflexivity. Qed.

Lemma filter_list_items (b : bool) (l : list str) :
  filter is_list_item (map (TListItem b) l) = map (TListItem b) l.
Proof. induction l as [|x l IH]; simpl; [|rewrite IH]; reflexivity. Qed.

Lemma h2_para_texts (head : string) (text : str) :
  pdf_texts (h2_para head text) = [THeading 2 (lit head)].
Proof. reflexivity. Qed.

Lemma docx_smart_no_text (r : ReportModel) : docx_texts (docx_smart r) = [].
Proof.
  unfold docx_smart. generalize labels_SMART as l.
  induction l as [|kl l IH]; [reflexivity|].
  cbn [flat_map]. rewrite docx_texts_app, IH.
  destruct (truthy _); reflexivity.
Qed.

Lemma pdf_smart_no_text (r : ReportModel) : pdf_texts (pdf_smart r) = [].
Proof.
  unfold pdf_smart. generalize labels_SMART as l.
  induction l as [|kl l IH]; [reflexivity|].
  cbn [flat_map]. rewrite pdf_texts_app, IH.
  cbv zeta. destruct (truthy _); reflexivity.
Qed.

Lemma docx_table3_text (style : option str) (h0 h1 h2 : string)
    (rows : list (list str)) :
  docx_text (docx_table3 style h0 h1 h2 rows)
  = [TTable ([lit h0; lit h1; lit h2] :: rows)].
Proof. reflexivity. Qed.

Lemma pdf_table3_text {A : Type} (h0 h1 h2 : str) (f1 f2 f3 : A -> str)
    (l : list A) (widths : list (N * nat)) (look : table_look) :
  map flow_form
    (pdf_text (Table ([h0; h1; h2] :: map (fun x => [f1 x; f2 x; f3 x]) l)
                 widths look))
  = [TTable ([h0; h1; h2] :: map (fun x => [f1 x; f2 x; f3 x]) l)].
Proof.
  cbn [pdf_text map]. rewrite table3_flow_form; reflexivity.
Qed.

Create Rewrite HintDb texts.
#[local] Hint Rewrite docx_texts_app pdf_texts_app map_app filter_app
  docx_texts_cons pdf_texts_cons docx_texts_nil pdf_texts_nil
  list_paras_texts bullets_texts numbered_texts h2_para_texts
  docx_smart_no_text pdf_smart_no_text docx_table3_text
  flow_form_list_items filter_list_items app_nil_r : texts.

(** Unfolds a pair of parts, decides the flags of the include-set and the
    emptiness of the lists, and compares what is left. *)
Ltac part_cases :=
  repeat match goal with
         | |- context [if ?include ?k then _ else _] =>
             lazymatch type of k with
             | include_key => destruct (include k)
             end
         | |- context [nonempty ?l] =>
             lazymatch l with
             | [] => fail
             | _ :: _ => fail
             | _ => destruct l
             end
         end.

Ltac part_texts :=
  part_cases; autorewrite with texts; cbn [nonempty];
  autorewrite with texts; rewrite ?pdf_table3_text; try reflexivity.

Section Parts.

Variable w : World.
Variable r : ReportModel.
Variable include : include_set.

Lemma title_part :
  docx_texts (docx_title r) = map flow_form (pdf_texts (pdf_title r)).
Proof. reflexivity. Qed.

Lemma general_part :
  docx_texts (docx_general r include)
  = map flow_form (pdf_texts (pdf_general r include)).
Proof. unfold docx_general, pdf_general. part_texts. Qed.

Lemma technical_part :
  docx_texts docx_technical = map flow_form (pdf_texts pdf_technical).
Proof. reflexivity. Qed.

Lemma plain_part :
  docx_texts (docx_plain r include)
  = map flow_form (pdf_texts (pdf_plain r include)).
Proof. unfold docx_plain, pdf_plain. part_texts. Qed.

Lemma objectives_part :
  docx_texts (docx_objectives r include)
  = map flow_form (pdf_texts (pdf_objectives r include)).
Proof. unfold docx_objectives, pdf_objectives. part_texts. Qed.

Lemma methods_part :
  docx_texts (docx_methods w r include)
  = map flow_form (pdf_texts (pdf_methods r include)).
Proof. unfold docx_methods, pdf_methods. part_texts. Qed.
End Parts.

Section PartsAfterResults.
Variable w : World.
Variable r : ReportModel.
Variable include : include_set.

Lemma conclusion_part :
  docx_texts (docx_conclusion r include)
  = map flow_form (pdf_texts (pdf_conclusion r include)).
Proof. unfold docx_conclusion, pdf_conclusion. part_texts. Qed.

Lemma misc_part :
  docx_texts (docx_misc r include)
  = map flow_form (pdf_texts (pdf_misc r include)).
Proof. unfold docx_misc, pdf_misc. part_texts. Qed.

Lemma references_part :
  docx_texts (docx_references r include)
  = map flow_form (pdf_texts (pdf_references r include)).
Proof. unfold docx_references, pdf_references. part_texts. Qed.

Lemma regulatory_part :
  docx_texts (docx_regulatory r include)
  = map flow_form (pdf_texts (pdf_regulatory r include)).
Proof. unfold docx_regulatory, pdf_regulatory. part_texts. Qed.

Lemma scale_up_part :
  docx_texts (docx_scale_up r include)
  = map flow_form (pdf_texts (pdf_scale_up r include)).
Proof. unfold docx_scale_up, pdf_scale_up. part_texts. Qed.

Lemma quality_part :
  docx_texts (docx_quality r include)
  = map flow_form (pdf_texts (pdf_quality r include)).
Proof. unfold docx_quality, pdf_quality. part_texts. Qed.

Lemma commercial_part :
  docx_texts (docx_commercial w r include)
  = map flow_form (pdf_texts (pdf_commercial r include)).
Proof. unfold docx_commercial, pdf_commercial. part_texts. Qed.
End PartsAfterResults.

Ltac part_items :=
  part_cases; autorewrite with texts; cbn [nonempty];
  autorewrite with texts; simpl; autorewrite with texts; try reflexivity.

Section PartItems.
Variable r : ReportModel.
Variable include : include_set.

Lemma title_items : filter is_list_item (pdf_texts (pdf_title r)) = [].
Proof. reflexivity. Qed.

Lemma general_items :
  filter is_list_item (pdf_texts (pdf_general r include)) = [].
Proof. unfold pdf_general. part_items. Qed.

Lemma plain_items :
  filter is_list_item (pdf_texts (pdf_plain r include)) = [].
Proof. unfold pdf_plain. part_items. Qed.

Lemma objectives_items :
  filter is_list_item (pdf_texts (pdf_objectives r include))
  = if include t_objectives then map (TListItem true) (objectives r) else [].
Proof. unfold pdf_objectives. part_items. Qed.

Lemma methods_items :
  filter is_list_item (pdf_texts (pdf_methods r include))
  = if include t_methods then
      (if include t_rm
       then map (TListItem false) (methods_raw_materials r) else [])
      ++ (if include t_ins
          then map (TListItem false) (methods_instruments r) else [])
      ++ (if include t_proc
          then map (TListItem false) (methods_procedure r) else [])
    else [].
Proof. unfold pdf_methods. part_items. Qed.

Lemma conclusion_items :
  filter is_list_item (pdf_texts (pdf_conclusion r include))
  = if include t_conc then map (TListItem false) (conclusion r) else [].
Proof. unfold pdf_conclusion. part_items. Qed.

Lemma misc_items :
  filter is_list_item (pdf_texts (pdf_misc r include)) = [].
Proof. unfold pdf_misc. part_items. Qed.

Lemma references_items :
  filter is_list_item (pdf_texts (pdf_references r include))
  = if include t_refs then map (TListItem false) (references r) else [].
Proof. unfold pdf_references. part_items. Qed.

Lemma regulatory_items :
  filter is_list_item (pdf_texts (pdf_regulatory r include)) = [].
Proof. unfold pdf_regulatory. part_items. Qed.

Lemma scale_up_items :
  filter is_list_item (pdf_texts (pdf_scale_up r include))
  = if include sec_scale
    then map (TListItem false) (manuf_order_steps r) else [].
Proof. unfold pdf_scale_up. part_items. Qed.

Lemma quality_items :
  filter is_list_item (pdf_texts (pdf_quality r include)) = [].
Proof. unfold pdf_quality. part_items. Qed.

Lemma commercial_items :
  filter is_list_item (pdf_texts (pdf_commercial r include)) = [].
Proof. unfold pdf_commercial. part_items. Qed.

End PartItems.

Lemma filter_flow_form (l : list text_item) :
  filter is_list_item (map flow_form l) = filter is_list_item l.
Proof.
  induction l as [|t l IH]; [reflexivity|].
  simpl. rewrite IH.
  destruct t as [[|[|n]] text|b text|cells]; reflexivity.
Qed.

Lemma enumerate_nth {A : Type} (l : list A) (start n : nat) (a : A) :
  nth_error l n = Some a ->
  nth_error (enumerate start l) n = Some (start + n, a).
Proof.
  revert start n. induction l as [|x l IH]; intros start n H.
  - destruct n; discriminate.
  - destruct n as [|n]; simpl in *.
    + injection H as ->. now rewrite Nat.add_0_r.
    + rewrite (IH (S start) n H). f_equal. f_equal. lia.
Qed.

Section Documents.

Variable regex_guess : str -> str -> Csv.quote_guess.
Variable w : World.

Lemma results_part_texts (r : ReportModel) (include : include_set) :
  exists bd bp,
    docx_results_part regex_guess w r include = Ok bd
    /\ pdf_results_part regex_guess w r include = Ok bp
    /\ docx_texts bd = map flow_form (pdf_texts bp)
    /\ filter is_list_item (pdf_texts bp) = [].
Proof.
  unfold docx_results_part, pdf_results_part, docx_results, pdf_results.
  destruct (include t_results).
  - destruct (results_texts_from regex_guess w 1 (results r))
      as [bds [bps [Hd [Hp [Ht [_ [_ Hl]]]]]]].
    rewrite Hd, Hp. cbn [bind].
    do 2 eexists. split; [reflexivity|]. split; [reflexivity|].
    rewrite docx_texts_cons, pdf_texts_cons, map_app, filter_app, Ht, Hl.
    split; reflexivity.
  - exists [], []. repeat split; reflexivity.
Qed.

(** The whole documents: both are built, their texts correspond, and the
    list items are those of [spec_list_items]. *)
Lemma document_texts (r : ReportModel) (include : include_set)
    (header_img footer_img : option str) :
  exists doc st,
    docx_document_of regex_guess w r include header_img footer_img = Ok doc
    /\ story_of regex_guess w r include = Ok st
    /\ docx_texts (body doc) = map flow_form (pdf_texts st)
    /\ filter is_list_item (pdf_texts st) = spec_list_items r include.
Proof.
  unfold docx_document_of, story_of.
  destruct (results_part_texts r include) as [bd [bp [Hd [Hp [Ht Hl]]]]].
  rewrite Hd, Hp. cbn [bind].
  do 2 eexists. split; [reflexivity|]. split; [reflexivity|].
  cbn [body]. split.
  - rewrite !docx_texts_app, !pdf_texts_app, !map_app.
    rewrite title_part, general_part, technical_part, plain_part,
      objectives_part, methods_part, Ht, conclusion_part, misc_part,
      references_part, regulatory_part, scale_up_part, quality_part,
      commercial_part.
    reflexivity.
  - rewrite !pdf_texts_app, !filter_app.
    rewrite title_items, general_items, plain_items, objectives_items,
      methods_items, Hl, conclusion_items, misc_items, references_items,
      regulatory_items, scale_up_items, quality_items, commercial_items.
    unfold spec_list_items. cbn [pdf_technical pdf_texts flat_map pdf_text
      filter is_list_item app].
    rewrite !app_nil_r. reflexivity.
Qed.

End Documents.

(** C2, as stated, fails: a table item in the first place has the heading
    "T" in both documents, not "2.4.1. T". *)
Lemma table_item_heading_unnumbered :
  exists bd bp,
    docx_results no_quoted_field sample_world [sample_table_item] = Ok bd
    /\ pdf_results no_quoted_field sample_world [sample_table_item] = Ok bp
    /\ filter is_heading (docx_texts bd) = [THeading 3 (lit "T")]
    /\ filter is_heading (pdf_texts bp) = [THeading 3 (lit "T")]
    /\ spec_numbered_heading 1 sample_table_item
       = THeading 3 (lit "2.4.1. T")
    /\ [THeading 3 (lit "T")] <> [spec_numbered_heading 1 sample_table_item].
Proof.
  do 2 eexists. split; [vm_compute; reflexivity|].
  split; [vm_compute; reflexivity|].
  split; [vm_compute; reflexivity|].
  split; [vm_compute; reflexivity|].
  split; [vm_compute; reflexivity|].
  vm_compute. discriminate.
Qed.

(** C2, amended: in both renderers the loop over the results writes, in
    the stored order, for the N-th item (N from 1, every kind counted): a
    heading of the third level "2.4.N. title" when it is a text item; a
    heading of the third level with the bare title when it is a table item;
    a heading of the third level with the bare title when it is an image
    item with an image and a title; no heading otherwise. *)
Theorem result_headings :
  forall (regex_guess : str -> str -> Csv.quote_guess) (w : World)
         (rs : list ResultItem),
    exists bd bp,
      docx_results regex_guess w rs = Ok bd
      /\ pdf_results regex_guess w rs = Ok bp
      /\ filter is_heading (docx_texts bd)
         = flat_map (fun p => spec_result_heading (fst p) (snd p))
             (enumerate 1 rs)
      /\ filter is_heading (pdf_texts bp)
         = flat_map (fun p => spec_result_heading (fst p) (snd p))
             (enumerate 1 rs)
      /\ (forall n it, nth_error rs n = Some it ->
            nth_error (enumerate 1 rs) n = Some (S n, it)).
Proof.
  intros regex_guess w rs.
  destruct (results_texts_from regex_guess w 1 rs)
    as [bds [bps [Hd [Hp [_ [Hhd [Hhp _]]]]]]].
  unfold docx_results, pdf_results. rewrite Hd, Hp. cbn [bind].
  do 2 eexists. split; [reflexivity|]. split; [reflexivity|].
  split; [exact Hhd|]. split; [exact Hhp|].
  intros n it H. apply (enumerate_nth rs 1 n H).
Qed.

(** C3, as stated, fails: the steps of the manufacturing order of the
    sample report are bullet items in both documents. *)
Lemma manufacturing_steps_bulleted :
  exists doc st,
    docx_document_of no_quoted_field sample_world sample_report
      all_included None None = Ok doc
    /\ story_of no_quoted_field sample_world sample_report all_included
       = Ok st
    /\ In (TListItem false (lit "mix"))
         (filter is_list_item (docx_texts (body doc)))
    /\ In (TListItem false (lit "mix"))
         (filter is_list_item (pdf_texts st))
    /\ filter is_list_item (docx_texts (body doc))
       <> spec_list_items_steps_numbered sample_report all_included
    /\ filter is_list_item (pdf_texts st)
       <> spec_list_items_steps_numbered sample_report all_included.
Proof.
  do 2 eexists. split; [vm_compute; reflexivity|].
  split; [vm_compute; reflexivity|].
  split; [vm_compute; tauto|].
  split; [vm_compute; tauto|].
  split; vm_compute; discriminate.
Qed.

(** C3, amended: in both documents the objectives are the items of a
    numbered list and the raw materials, instruments, procedure steps,
    conclusion lines, references and manufacturing-order steps are bullet
    items, each list in the stored order and in the place of its
    section. *)
Theorem list_items_rendered :
  forall (regex_guess : str -> str -> Csv.quote_guess) (w : World)
         (r : ReportModel) (include : include_set)
         (header_img footer_img : option str),
    exists doc st,
      docx_document_of regex_guess w r include header_img footer_img = Ok doc
      /\ story_of regex_guess w r include = Ok st
      /\ filter is_list_item (docx_texts (body doc)) = spec_list_items r include
      /\ filter is_list_item (pdf_texts st) = spec_list_items r include.
Proof.
  intros regex_guess w r include header_img footer_img.
  destruct (document_texts regex_guess w r include header_img footer_img)
    as [doc [st [Hd [Hs [Ht Hl]]]]].
  exists doc, st. split; [exact Hd|]. split; [exact Hs|].
  split; [|exact Hl].
  rewrite Ht, filter_flow_form. exact Hl.
Qed.

Lemma dropwhile_starts_clean (s : str) :
  starts_clean (dropwhile isspace s) = true.
Proof.
  induction s as [|c s IH]; simpl; [reflexivity|].
  destruct (isspace c) eqn:Hc; [exact IH|]. simpl. now rewrite Hc.
Qed.

Lemma dropwhile_clean_id (s : str) :
  starts_clean s = true -> dropwhile isspace s = s.
Proof.
  destruct s as [|c s]; simpl; [reflexivity|].
  intros H. apply negb_true_iff in H. now rewrite H.
Qed.

Lemma dropwhile_suffix (p : char -> bool) (s : str) :
  exists pre, s = pre ++ dropwhile p s.
Proof.
  induction s as [|c s [pre IH]]; simpl.
  - exists []. reflexivity.
  - destruct (p c).
    + exists (c :: pre). simpl. now rewrite <- IH.
    + exists []. reflexivity.
Qed.

Lemma starts_clean_app_l (a b : str) :
  starts_clean (a ++ b) = true -> a <> [] -> starts_clean a = true.
Proof. destruct a; [congruence | auto]. Qed.

Lemma strip_stripped (s : str) : stripped (strip s) = true.
Proof.
  unfold stripped, strip, strip_by, rstrip_by, lstrip_by.
  rewrite rev_involutive, dropwhile_starts_clean, andb_true_r.
  set (t := dropwhile isspace s).
  destruct (dropwhile_suffix isspace (rev t)) as [pre Hpre].
  destruct (dropwhile isspace (rev t)) as [|c u] eqn:Hu; [reflexivity|].
  apply (@starts_clean_app_l (rev (c :: u)) (rev pre)).
  - rewrite <- rev_app_distr, <- Hpre, rev_involutive.
    apply dropwhile_starts_clean.
  - simpl. destruct (rev u); discriminate.
Qed.

Lemma strip_fixed (s : str) : stripped s = true -> strip s = s.
Proof.
  unfold stripped. intros H. apply andb_true_iff in H. destruct H as [H1 H2].
  unfold strip, strip_by, rstrip_by, lstrip_by.
  rewrite (dropwhile_clean_id s H1), (dropwhile_clean_id (rev s) H2).
  apply rev_involutive.
Qed.

Lemma strip_idempotent (s : str) : strip (strip s) = strip s.
Proof. apply strip_fixed, strip_stripped. Qed.

Lemma dropwhile_no_linebreak (p : char -> bool) (s : str) :
  no_linebreak s = true -> no_linebreak (dropwhile p s) = true.
Proof.
  unfold no_linebreak. induction s as [|c s IH]; simpl; [auto|].
  intros H. apply andb_true_iff in H. destruct H as [Hc Hs].
  destruct (p c); [auto|]. simpl. now rewrite Hc, Hs.
Qed.

Lemma rev_no_linebreak (s : str) : no_linebreak (rev s) = no_linebreak s.
Proof.
  unfold no_linebreak. induction s as [|c s IH]; simpl; [reflexivity|].
  rewrite forallb_app, IH. simpl. rewrite andb_true_r. apply andb_comm.
Qed.

Lemma strip_no_linebreak (s : str) :
  no_linebreak s = true -> no_linebreak (strip s) = true.
Proof.
  intros H. unfold strip, strip_by, rstrip_by, lstrip_by.
  rewrite rev_no_linebreak. apply dropwhile_no_linebreak.
  rewrite rev_no_linebreak. now apply dropwhile_no_linebreak.
Qed.

(** The lines of [splitlines] hold no line boundary. *)
Lemma splitlines_from_no_linebreak_upto (n : nat) (s cur : str) :
  List.length s <= n ->
  no_linebreak cur = true ->
  Forall (fun ln => no_linebreak ln = true) (splitlines_from cur s).
Proof.
  revert s cur. induction n as [|n IH]; intros s cur Hn Hcur.
  - destruct s; [|simpl in Hn; lia]. simpl.
    destruct cur; constructor; [|constructor].
    now rewrite rev_no_linebreak.
  - destruct s as [|c rest]; simpl.
    + destruct cur; constructor; [|constructor].
      now rewrite rev_no_linebreak.
    + simpl in Hn. destruct (is_linebreak c) eqn:Hc.
      * constructor; [now rewrite rev_no_linebreak|].
        destruct rest as [|c2 rest']; [constructor|].
        simpl in Hn.
        destruct ((c =? CR)%N && (c2 =? LF)%N).
        -- apply IH; [lia | reflexivity].
        -- apply IH; [simpl; lia | reflexivity].
      * apply IH; [lia|].
        unfold no_linebreak in *. simpl. now rewrite Hc, Hcur.
Qed.

Lemma splitlines_no_linebreak (s : str) :
  Forall (fun ln => no_linebreak ln = true) (splitlines s).
Proof.
  now apply (@splitlines_from_no_linebreak_upto (List.length s)).
Qed.

Lemma splitlines_from_line (ln cur rest : str) :
  no_linebreak ln = true ->
  splitlines_from cur (ln ++ rest) = splitlines_from (rev ln ++ cur) rest.
Proof.
  revert cur. induction ln as [|c ln IH]; intros cur H; [reflexivity|].
  unfold no_linebreak in H. simpl in H. apply andb_true_iff in H.
  destruct H as [Hc Hln]. apply negb_true_iff in Hc.
  simpl. rewrite Hc. rewrite IH by exact Hln.
  now rewrite <- app_assoc.
Qed.

Lemma splitlines_line_LF (ln rest : str) :
  no_linebreak ln = true ->
  splitlines (ln ++ LF :: rest) = ln :: splitlines rest.
Proof.
  intros H. unfold splitlines. rewrite splitlines_from_line by exact H.
  rewrite app_nil_r. cbn [splitlines_from].
  change (is_linebreak LF) with true. cbv iota. rewrite rev_involutive.
  destruct rest; reflexivity.
Qed.

Lemma splitlines_single (ln : str) :
  no_linebreak ln = true -> truthy ln = true -> splitlines ln = [ln].
Proof.
  intros H Hne. unfold splitlines.
  rewrite <- (app_nil_r ln) at 1. rewrite splitlines_from_line by exact H.
  rewrite app_nil_r. simpl.
  destruct (rev ln) eqn:E.
  - apply (f_equal (@rev char)) in E. rewrite rev_involutive in E.
    subst ln. discriminate.
  - rewrite <- E, rev_involutive. reflexivity.
Qed.

Lemma clean_line_parts (s : str) :
  clean_line s = true ->
  truthy s = true /\ stripped s = true /\ no_linebreak s = true.
Proof.
  unfold clean_line. intros H.
  apply andb_true_iff in H. destruct H as [H H3].
  apply andb_true_iff in H. tauto.
Qed.

Lemma splitlines_join (l : list str) :
  Forall (fun ln => clean_line ln = true) l ->
  splitlines (join [LF] l) = l.
Proof.
  induction 1 as [|p l Hp Hl IH]; [reflexivity|].
  apply clean_line_parts in Hp. destruct Hp as [Hne [_ Hnl]].
  destruct l as [|q l'].
  - simpl. now apply splitlines_single.
  - change (join [LF] (p :: q :: l')) with (p ++ LF :: join [LF] (q :: l')).
    rewrite splitlines_line_LF by exact Hnl. now rewrite IH.
Qed.

Lemma splitlines_join_LF (l : list str) :
  Forall (fun ln => clean_line ln = true) l -> l <> [] ->
  splitlines (join [LF] l ++ [LF]) = l.
Proof.
  induction 1 as [|p l Hp Hl IH]; intros Hne; [congruence|].
  apply clean_line_parts in Hp. destruct Hp as [_ [_ Hnl]].
  destruct l as [|q l'].
  - simpl. now rewrite splitlines_line_LF.
  - change (join [LF] (p :: q :: l') ++ [LF])
      with ((p ++ LF :: join [LF] (q :: l')) ++ [LF]).
    rewrite <- app_assoc.
    change ((LF :: join [LF] (q :: l')) ++ [LF])
      with (LF :: (join [LF] (q :: l') ++ [LF])).
    rewrite splitlines_line_LF by exact Hnl.
    rewrite IH by discriminate. reflexivity.
Qed.

Lemma safe_split_lines_of_clean (l : list str) :
  Forall (fun ln => clean_line ln = true) l ->
  map strip (filter (fun ln => truthy (strip ln)) l) = l.
Proof.
  induction 1 as [|p l Hp Hl IH]; [reflexivity|].
  apply clean_line_parts in Hp. destruct Hp as [Hne [Hs _]].
  simpl. rewrite (strip_fixed p Hs), Hne. simpl.
  now rewrite (strip_fixed p Hs), IH.
Qed.

(** Lines that are already clean come back unchanged from a text box:
    joined by line feeds, with or without the final line feed of the box,
    they are split into themselves. *)
Lemma safe_split_lines_join (l : list str) :
  Forall (fun ln => clean_line ln = true) l ->
  safe_split_lines (join [LF] l) = l
  /\ safe_split_lines (join [LF] l ++ [LF]) = l.
Proof.
  intros H. unfold safe_split_lines. split.
  - rewrite splitlines_join by exact H. now apply safe_split_lines_of_clean.
  - destruct l as [|p l'].
    + reflexivity.
    + rewrite splitlines_join_LF by (auto; discriminate).
      now apply safe_split_lines_of_clean.
Qed.

Lemma safe_split_lines_all_clean (text : str) :
  Forall (fun ln => clean_line ln = true) (safe_split_lines text).
Proof.
  unfold safe_split_lines.
  apply Forall_forall. intros x Hin.
  apply in_map_iff in Hin. destruct Hin as [ln [<- Hin]].
  apply filter_In in Hin. destruct Hin as [Hin Hne].
  pose proof (splitlines_no_linebreak text) as Hall.
  rewrite Forall_forall in Hall. specialize (Hall ln Hin).
  unfold clean_line. rewrite Hne, strip_stripped. simpl.
  now apply strip_no_linebreak.
Qed.

(** X1: splitting is stable: the lines of a text, put back into a text box
    and split again, are the same lines. *)
Theorem safe_split_lines_stable :
  forall text : str,
    safe_split_lines (join [LF] (safe_split_lines text) ++ [LF])
    = safe_split_lines text
    /\ safe_split_lines (join [LF] (safe_split_lines text))
       = safe_split_lines text.
Proof.
  intros text.
  destruct (safe_split_lines_join (safe_split_lines_all_clean text))
    as [H1 H2].
  auto.
Qed.

(** X2: every line that [safe_split_lines] returns is not empty, has no
    white space at either end and no line boundary inside. *)
Theorem safe_split_lines_clean :
  forall text : str,
    Forall (fun ln => truthy ln = true /\ strip ln = ln
                      /\ forallb (fun c => negb (is_linebreak c)) ln = true)
      (safe_split_lines text).
Proof.
  intros text.
  pose proof (safe_split_lines_all_clean text) as H.
  rewrite Forall_forall in *. intros ln Hin.
  destruct (clean_line_parts ln (H ln Hin)) as [H1 [H2 H3]].
  repeat split; auto. now apply strip_fixed.
Qed.

Lemma starts_clean_app (a b : str) :
  starts_clean (a ++ b) = true -> starts_clean a = true.
Proof. destruct a; auto. Qed.

Lemma starts_clean_rev_cons (c : char) (q : str) :
  q <> [] -> starts_clean (rev (c :: q)) = starts_clean (rev q).
Proof.
  intros H. simpl. destruct (rev q) eqn:E; [|reflexivity].
  apply (f_equal (@rev char)) in E. rewrite rev_involutive in E. simpl in E. congruence.
Qed.

(** The pieces of [re.split(r"\s{2,}", s)] for a string that does not end
    in white space: none ends in white space, and none but possibly the
    first starts with it. *)
Lemma re_split_pieces (s : str) (b : bool) :
  starts_clean (rev s) = true ->
  match re_split_ws2_from b s with
  | [] => False
  | p0 :: ps =>
      Forall (fun p => stripped p = true) ps
      /\ starts_clean (rev p0) = true
      /\ (b = true -> starts_clean p0 = true)
      /\ (b = false -> starts_clean s = true ->
          starts_clean p0 = true /\ (s <> [] -> p0 <> []))
  end.
Proof.
  revert b. induction s as [|c rest IH]; intros b Hend.
  - simpl. repeat split; auto.
  - assert (Hrest : starts_clean (rev rest) = true).
    { simpl in Hend. now apply starts_clean_app in Hend. }
    assert (Hlast : rest = [] -> isspace c = false).
    { intros ->. simpl in Hend. now apply negb_true_iff in Hend. }
    assert (Hcons : forall q0 qs,
               re_split_ws2_from false rest = q0 :: qs ->
               (isspace c = true -> q0 <> []) ->
               match cons_head c (q0 :: qs) with
               | [] => False
               | p0 :: ps =>
                   Forall (fun p => stripped p = true) ps
                   /\ starts_clean (rev p0) = true
                   /\ (b = true -> isspace c = false -> starts_clean p0 = true)
                   /\ (starts_clean (c :: rest) = true ->
                       starts_clean p0 = true /\ (c :: rest <> [] -> p0 <> []))
               end).
    { intros q0 qs E Hq0.
      pose proof (IH false Hrest) as H. rewrite E in H.
      destruct H as [Hps [Hq0end _]].
      cbn [cons_head]. split; [exact Hps|]. split.
      - destruct q0 as [|x q0'].
        + simpl. apply negb_true_iff.
          destruct (isspace c) eqn:Hc; [|reflexivity].
          now specialize (Hq0 eq_refl).
        + rewrite starts_clean_rev_cons by discriminate. exact Hq0end.
      - split.
        + intros _ Hc. simpl. now rewrite Hc.
        + intros Hs. simpl in Hs. split; [exact Hs | discriminate]. }
    simpl. destruct (isspace c) eqn:Hc.
    + destruct b.
      * pose proof (IH true Hrest) as H.
        destruct (re_split_ws2_from true rest) as [|p0 ps]; [destruct H|].
        destruct H as [H1 [H2 [H3 _]]].
        repeat split; auto; discriminate.
      * destruct rest as [|c2 rest'].
        { specialize (Hlast eq_refl). congruence. }
        destruct (isspace c2) eqn:Hc2.
        -- pose proof (IH true Hrest) as H.
           destruct (re_split_ws2_from true (c2 :: rest')) as [|q0 qs];
             [destruct H|].
           destruct H as [H1 [H2 [H3 _]]].
           split.
           ++ constructor; [|exact H1].
              unfold stripped. now rewrite (H3 eq_refl), H2.
           ++ split; [reflexivity|]. split; [reflexivity|].
              intros _ Hs. simpl in Hs. discriminate.
        -- pose proof (IH false Hrest) as H.
           destruct (re_split_ws2_from false (c2 :: rest')) as [|q0 qs] eqn:E;
             [destruct H|].
           destruct H as [_ [_ [_ H4]]].
           assert (Hs2 : starts_clean (c2 :: rest') = true)
             by (simpl; now rewrite Hc2).
           destruct (H4 eq_refl Hs2) as [_ Hne].
           specialize (Hcons q0 qs eq_refl
                         (fun _ => Hne ltac:(discriminate))).
           simpl in Hcons. destruct Hcons as [K1 [K2 [_ K4]]].
           repeat split; auto; try discriminate.
           all: intros; simpl in *; discriminate.
    + destruct (re_split_ws2_from false rest) as [|q0 qs] eqn:E.
      { pose proof (IH false Hrest) as H. now rewrite E in H. }
      specialize (Hcons q0 qs eq_refl ltac:(discriminate)).
      simpl in Hcons. destruct Hcons as [K1 [K2 [K3 K4]]].
      simpl. repeat split; auto; try discriminate.
      all: simpl; now rewrite Hc.
Qed.

Lemma whitespace_row_stripped (ln : str) :
  Forall (fun c => strip c = c) (whitespace_row ln).
Proof.
  unfold whitespace_row, re_split_ws2.
  pose proof (strip_stripped ln) as Hs.
  unfold stripped in Hs. apply andb_true_iff in Hs. destruct Hs as [Hs1 Hs2].
  pose proof (re_split_pieces (strip ln) false Hs2) as H.
  destruct (re_split_ws2_from false (strip ln)) as [|p0 ps]; [destruct H|].
  destruct H as [Hps [Hp0 [_ H4]]].
  destruct (H4 eq_refl Hs1) as [Hp0s _].
  assert (Hall : Forall (fun p => stripped p = true) (p0 :: ps)).
  { constructor; [|exact Hps]. unfold stripped. now rewrite Hp0s, Hp0. }
  destruct (filter truthy (p0 :: ps)) as [|x parts] eqn:E.
  - simpl. constructor; [apply strip_idempotent | constructor].
  - cbn [nonempty]. rewrite <- E.
    apply Forall_forall. intros c Hin. apply filter_In in Hin.
    rewrite Forall_forall in Hall. apply strip_fixed, Hall, Hin.
Qed.

Lemma map_strip_stripped (rows : list (list str)) :
  Forall (Forall (fun c => strip c = c)) (map (map strip) rows).
Proof.
  apply Forall_forall. intros row Hin. apply in_map_iff in Hin.
  destruct Hin as [row0 [<- _]].
  apply Forall_forall. intros c Hc. apply in_map_iff in Hc.
  destruct Hc as [c0 [<- _]]. apply strip_idempotent.
Qed.

(** What the sniffing block returns: stripped rows of which at least one
    has more than one cell. *)
Lemma sniffed_rows_Some (regex_guess : str -> str -> Csv.quote_guess)
    (txt : str) (rows : list (list str)) :
  sniffed_rows regex_guess txt = Ok (Some rows) ->
  exists raw,
    rows = map (map strip) raw
    /\ existsb (fun r => Nat.ltb 1 (List.length r)) raw = true.
Proof.
  unfold sniffed_rows. intros H.
  apply bind_Ok in H. destruct H as [d [_ H]].
  apply bind_Ok in H. destruct H as [raw [_ H]].
  destruct (nonempty raw && existsb (fun r => Nat.ltb 1 (List.length r)) raw)
    eqn:E; [|discriminate].
  injection H as <-. exists raw. split; [reflexivity|].
  apply andb_true_iff in E. apply E.
Qed.

(** X3: every cell of every grid that the inference returns is stripped:
    no cell starts or ends with white space, whichever strategy gave it. *)
Theorem parse_table_text_cells_stripped :
  forall (regex_guess : str -> str -> Csv.quote_guess) (text : str),
    exists rows,
      parse_table_text regex_guess text = Ok rows
      /\ Forall (Forall (fun c => strip c = c)) rows.
Proof.
  intros regex_guess text. unfold parse_table_text.
  set (txt := strip_chars [LF] text).
  destruct (negb (truthy txt)); [exists []; split; [reflexivity|constructor]|].
  assert (Hfall : exists rows,
             (if mem TAB txt then Ok (tab_rows txt)
              else Ok (whitespace_rows txt)) = Ok rows
             /\ Forall (Forall (fun c => strip c = c)) rows).
  { destruct (mem TAB txt); eexists; (split; [reflexivity|]).
    - unfold tab_rows. apply Forall_forall. intros row Hin.
      apply in_map_iff in Hin. destruct Hin as [ln [<- _]].
      apply Forall_forall. intros c Hc. apply in_map_iff in Hc.
      destruct Hc as [c0 [<- _]]. apply strip_idempotent.
    - unfold whitespace_rows. apply Forall_forall. intros row Hin.
      apply in_map_iff in Hin. destruct Hin as [ln [<- _]].
      apply whitespace_row_stripped. }
  destruct (sniffed_rows regex_guess txt) as [[rows|]|e] eqn:E; try exact Hfall.
  exists rows. split; [reflexivity|].
  apply sniffed_rows_Some in E. destruct E as [raw [-> _]].
  apply map_strip_stripped.
Qed.

Lemma dropwhile_all (p : char -> bool) (s : str) :
  forallb p s = true -> dropwhile p s = [].
Proof.
  induction s as [|c s IH]; simpl; [reflexivity|].
  intros H. apply andb_true_iff in H. destruct H as [Hc Hs].
  rewrite Hc. auto.
Qed.

Lemma dropwhile_nil (p : char -> bool) (s : str) :
  dropwhile p s = [] -> forallb p s = true.
Proof.
  induction s as [|c s IH]; simpl; [reflexivity|].
  destruct (p c); [auto | discriminate].
Qed.

Lemma dropwhile_idempotent (p : char -> bool) (s : str) :
  dropwhile p (dropwhile p s) = dropwhile p s.
Proof.
  induction s as [|c s IH]; simpl; [reflexivity|].
  destruct (p c) eqn:Hc; [exact IH|]. simpl. now rewrite Hc.
Qed.

Lemma forallb_rev_str (p : char -> bool) (s : str) :
  forallb p (rev s) = forallb p s.
Proof.
  induction s as [|c s IH]; simpl; [reflexivity|].
  rewrite forallb_app, IH. simpl. rewrite andb_true_r. apply andb_comm.
Qed.

Lemma strip_by_nil (p : char -> bool) (s : str) :
  strip_by p s = [] <-> forallb p s = true.
Proof.
  unfold strip_by, rstrip_by, lstrip_by. split.
  - intros H. apply (f_equal (@rev char)) in H.
    rewrite rev_involutive in H. simpl in H.
    apply dropwhile_nil in H. rewrite forallb_rev_str in H.
    apply dropwhile_all in H. rewrite dropwhile_idempotent in H.
    now apply dropwhile_nil.
  - intros H. rewrite (dropwhile_all p s H). reflexivity.
Qed.

Lemma splitlines_nonempty (s : str) : s <> [] -> splitlines s <> [].
Proof.
  destruct s as [|c rest]; [congruence|]. intros _.
  unfold splitlines. simpl. destruct (is_linebreak c); [discriminate|].
  revert c. generalize (@nil char) as cur.
  induction rest as [|c' rest IH]; intros cur c.
  - simpl. discriminate.
  - simpl. destruct (is_linebreak c'); [discriminate|]. apply IH.
Qed.

Lemma forallb_mem_LF (text : str) :
  forallb (fun c => mem c [LF]) text = forallb (N.eqb LF) text.
Proof.
  induction text as [|c text' IH]; [reflexivity|].
  cbn [forallb]. rewrite IH. f_equal.
  unfold mem. simpl. rewrite orb_false_r. apply N.eqb_sym.
Qed.

(** X4: the grid is empty exactly for the texts of line feeds only, the
    empty text among them. *)
Theorem parse_table_text_empty_grid :
  forall (regex_guess : str -> str -> Csv.quote_guess) (text : str),
    exists rows,
      parse_table_text regex_guess text = Ok rows
      /\ (rows = [] <-> forallb (N.eqb LF) text = true).
Proof.
  intros regex_guess text. unfold parse_table_text.
  set (txt := strip_chars [LF] text).
  assert (Hnil : txt = [] <-> forallb (N.eqb LF) text = true).
  { unfold txt, strip_chars. rewrite strip_by_nil.
    assert (E : forallb (fun c => mem c [LF]) text = forallb (N.eqb LF) text).
    { apply forallb_mem_LF. }
    rewrite E. reflexivity. }
  destruct txt as [|c t] eqn:Et.
  - exists []. split; [reflexivity|]. split; [intros _; now apply Hnil | auto].
  - cbn [truthy negb].
    assert (Hno : forallb (N.eqb LF) text = true -> False).
    { intros H. apply Hnil in H. discriminate. }
    assert (Hlines : splitlines (c :: t) <> [])
      by (apply splitlines_nonempty; discriminate).
    destruct (sniffed_rows regex_guess (c :: t)) as [[rows|]|e] eqn:E.
    + exists rows. split; [reflexivity|]. split; [|intros H; now destruct (Hno H)].
      intros ->. apply sniffed_rows_Some in E. destruct E as [raw [E1 E2]].
      destruct raw; [discriminate E2 | discriminate E1].
    + destruct (mem TAB (c :: t)); eexists; (split; [reflexivity|]);
        (split; [|intros H; now destruct (Hno H)]); intros H;
        unfold tab_rows, whitespace_rows in H;
        apply map_eq_nil in H; contradiction.
    + destruct (mem TAB (c :: t)); eexists; (split; [reflexivity|]);
        (split; [|intros H; now destruct (Hno H)]); intros H;
        unfold tab_rows, whitespace_rows in H;
        apply map_eq_nil in H; contradiction.
Qed.

Lemma nth_error_combine {A B : Type} (a : list A) (b : list B) (i : nat)
    (x : A) (y : B) :
  nth_error (combine a b) i = Some (x, y) ->
  nth_error a i = Some x /\ nth_error b i = Some y.
Proof.
  revert b i. induction a as [|a0 a IH]; intros b i H.
  - destruct i; discriminate.
  - destruct b as [|b0 b]; [destruct i; discriminate|].
    destruct i as [|i]; simpl in *.
    + injection H as -> ->. auto.
    + now apply IH.
Qed.

Lemma nth_error_map_combine {A B C : Type} (f : A * B -> C)
    (a : list A) (b : list B) (i : nat) (z : C) :
  nth_error (map f (combine a b)) i = Some z ->
  exists x y, nth_error a i = Some x /\ nth_error b i = Some y /\ z = f (x, y).
Proof.
  rewrite nth_error_map. intros H.
  destruct (nth_error (combine a b) i) as [[x y]|] eqn:E; [|discriminate].
  injection H as <-. apply nth_error_combine in E. destruct E. eauto.
Qed.

Section NoCandidate.

Variable delimiters : str.

Lemma unseen_start : unseen delimiters Csv.no_frequencies.
Proof.
  intros i c m _ _ H. left. apply nth_error_In in H.
  unfold Csv.no_frequencies in H. now apply repeat_spec in H.
Qed.

Lemma unset_start : unset delimiters Csv.no_modes.
Proof.
  intros i c v _ _ H. apply nth_error_In in H.
  unfold Csv.no_modes in H. now apply repeat_spec in H.
Qed.

Lemma unseen_count_line (line : str) (t : Csv.frequencies) :
  absent delimiters line -> unseen delimiters t -> unseen delimiters (Csv.count_line line t).
Proof.
  intros Hline Ht i c m Hc Hd Hm. unfold Csv.count_line in Hm.
  apply nth_error_map_combine in Hm.
  destruct Hm as [c' [m' [Hc' [Hm' ->]]]]. simpl.
  assert (c' = c) by congruence. subst c'.
  rewrite (Hline c Hd).
  destruct (Ht i c m' Hc Hd Hm') as [-> | [n ->]]; right; eexists;
    reflexivity.
Qed.

Lemma unseen_fold (chunk : list str) (t : Csv.frequencies) :
  Forall (absent delimiters) chunk -> unseen delimiters t ->
  unseen delimiters (fold_left (fun t line => Csv.count_line line t) chunk t).
Proof.
  intros H. revert t. induction H as [|line chunk Hl Hc IH]; intros t Ht.
  - exact Ht.
  - simpl. apply IH. now apply unseen_count_line.
Qed.

Lemma unset_update (ms : Csv.modes) (t : Csv.frequencies) :
  unset delimiters ms -> unseen delimiters t -> unset delimiters (Csv.update_modes ms t).
Proof.
  intros Hms Ht i c v Hc Hd Hv. unfold Csv.update_modes in Hv.
  apply nth_error_map_combine in Hv.
  destruct Hv as [old [m [Hold [Hm ->]]]]. simpl.
  destruct (Ht i c m Hc Hd Hm) as [-> | [n ->]]; simpl;
    apply (Hms i c old Hc Hd Hold).
Qed.

Lemma flat_map_all_nil {A B : Type} (f : A -> list B) (l : list A) :
  (forall x, In x l -> f x = []) -> flat_map f l = [].
Proof.
  induction l as [|a l IH]; intros H; [reflexivity|].
  simpl. rewrite (H a (or_introl eq_refl)). apply IH.
  intros x Hx. apply H. now right.
Qed.

Lemma select_unset (ms : Csv.modes) (total consistency : float) :
  unset delimiters ms -> Csv.select ms total consistency delimiters = [].
Proof.
  intros Hms. unfold Csv.select. apply flat_map_all_nil.
  intros [c v] Hin. apply In_nth_error in Hin. destruct Hin as [i Hi].
  apply nth_error_combine in Hi. destruct Hi as [Hc Hv]. simpl.
  destruct (mem c delimiters) eqn:Hd.
  - now rewrite (Hms i c v Hc Hd Hv).
  - destruct v as [[v0 v1]|]; [|reflexivity].
    now rewrite andb_false_r.
Qed.

Lemma consistency_loop_unset (fuel : nat) (consistency : float)
    (ms : Csv.modes) (total : float) :
  unset delimiters ms -> Csv.consistency_loop fuel consistency ms total delimiters = [].
Proof.
  intros Hms. revert consistency.
  induction fuel as [|fuel IH]; intros consistency; [reflexivity|].
  simpl. destruct (PrimFloat.leb Csv.threshold consistency); [|reflexivity].
  rewrite select_unset by exact Hms. apply IH.
Qed.

Lemma chunk_loop_unset (data : list str) (chunkLength : nat)
    (chunks : list (list str)) (iteration : nat)
    (t : Csv.frequencies) (ms : Csv.modes) :
  Forall (Forall (absent delimiters)) chunks -> unseen delimiters t -> unset delimiters ms ->
  Csv.chunk_loop data chunkLength delimiters chunks iteration t ms []
  = (None, false).
Proof.
  intros H. revert iteration t ms.
  induction H as [|chunk chunks Hc Hcs IH]; intros iteration t ms Ht Hms.
  - reflexivity.
  - cbn [Csv.chunk_loop].
    assert (Ht' : unseen delimiters (fold_left (fun t line => Csv.count_line line t)
                            chunk t)) by now apply unseen_fold.
    assert (Hms' : unset delimiters (Csv.update_modes ms
                            (fold_left (fun t line => Csv.count_line line t)
                               chunk t))) by now apply unset_update.
    cbv zeta. rewrite consistency_loop_unset by exact Hms'.
    now apply IH.
Qed.

Lemma skipn_In (n : nat) (l : list str) (y : str) :
  In y (skipn n l) -> In y l.
Proof.
  revert l. induction n as [|n IHn]; intros l Hy; [exact Hy|].
  destruct l; [destruct Hy|]. right. now apply IHn.
Qed.

Lemma firstn_In_str (n : nat) (l : list str) (y : str) :
  In y (firstn n l) -> In y l.
Proof.
  revert l. induction n as [|n IHn]; intros l Hy; [destruct Hy|].
  destruct l; [destruct Hy|]. destruct Hy as [<-|Hy]; [now left|].
  right. now apply IHn.
Qed.

Lemma chunks_of_Forall (P : str -> Prop) (fuel n : nat) (l : list str) :
  Forall P l -> Forall (Forall P) (Csv.chunks_of fuel n l).
Proof.
  revert l. induction fuel as [|fuel IH]; intros l H; [constructor|].
  destruct l as [|x l2]; [constructor|].
  cbn [Csv.chunks_of]. constructor.
  - apply Forall_forall. intros y Hy. apply firstn_In_str in Hy.
    rewrite Forall_forall in H. now apply H.
  - apply IH. apply Forall_forall. intros y Hy.
    apply skipn_In in Hy.
    rewrite Forall_forall in H. now apply H.
Qed.

Lemma guess_delimiter_unset (data : str) :
  Forall (absent delimiters) (filter truthy (split_on LF data)) ->
  Csv.guess_delimiter data delimiters = (None, false).
Proof.
  intros H. unfold Csv.guess_delimiter.
  apply chunk_loop_unset.
  - now apply chunks_of_Forall.
  - apply unseen_start.
  - apply unset_start.
Qed.

End NoCandidate.

Lemma count_zero (c : char) (s : str) : mem c s = false -> count c s = 0.
Proof.
  unfold mem, count. induction s as [|x s IH]; [reflexivity|].
  simpl. intros H. apply orb_false_iff in H. destruct H as [Hx Hs].
  rewrite Hx. auto.
Qed.

Lemma split_on_mem (sep c : char) (s line : str) :
  mem c s = false -> In line (split_on sep s) -> mem c line = false.
Proof.
  revert line. induction s as [|x s IH]; intros line Hs Hin.
  - simpl in Hin. destruct Hin as [<- | []]. reflexivity.
  - unfold mem in Hs. simpl in Hs. apply orb_false_iff in Hs.
    destruct Hs as [Hx Hs]. simpl in Hin.
    destruct (x =? sep)%N.
    + destruct Hin as [<- | Hin]; [reflexivity | now apply IH].
    + destruct (split_on sep s) as [|p ps] eqn:E.
      * simpl in Hin. destruct Hin as [<- | []].
        unfold mem. simpl. now rewrite Hx.
      * simpl in Hin. destruct Hin as [<- | Hin].
        -- unfold mem. simpl. rewrite Hx. simpl.
           apply (IH p Hs). now left.
        -- apply IH; [exact Hs | now right].
Qed.

Lemma strip_by_mem (p : char -> bool) (c : char) (s : str) :
  mem c s = false -> mem c (strip_by p s) = false.
Proof.
  assert (Hd : forall t, mem c t = false -> mem c (dropwhile p t) = false).
  { induction t as [|x t IH]; [auto|]. simpl. intros H.
    destruct (p x); [|exact H].
    apply IH. unfold mem in *. simpl in H.
    now apply orb_false_iff in H. }
  assert (Hr : forall t, mem c (rev t) = mem c t).
  { intros t. unfold mem. induction t as [|x t IH]; [reflexivity|].
    cbn [rev existsb]. rewrite existsb_app, orb_comm. cbn [existsb].
    rewrite orb_false_r. f_equal. exact IH. }
  intros H. unfold strip_by, rstrip_by, lstrip_by.
  rewrite Hr. apply Hd. rewrite Hr. now apply Hd.
Qed.

(** X5: a text without tab, comma, semicolon and quote character is never
    taken for delimited data: the sniffer finds no delimiter, and the grid
    is the split of the lines on runs of white space. *)
Theorem no_delimiter_character :
  forall (regex_guess : str -> str -> Csv.quote_guess) (text : str),
    mem TAB text = false -> mem COMMA text = false ->
    mem SEMICOLON text = false ->
    mem DQUOTE text = false -> mem SQUOTE text = false ->
    parse_table_text regex_guess text
    = Ok (whitespace_rows (strip_chars [LF] text))
    /\ (truthy (strip_chars [LF] text) = true ->
        sniffed_rows regex_guess (strip_chars [LF] text)
        = Raise (CsvError "Could not determine delimiter")).
Proof.
  intros regex_guess text Ht Hc Hs Hdq Hsq.
  set (txt := strip_chars [LF] text).
  assert (Hmem : forall c, mem c text = false -> mem c txt = false).
  { intros c H. now apply strip_by_mem. }
  assert (Hsniff : sniffed_rows regex_guess txt
                   = Raise (CsvError "Could not determine delimiter")).
  { unfold sniffed_rows, Csv.sniff, Csv.guess_quote_and_delimiter,
      Csv.has_quote.
    rewrite (Hmem _ Hdq), (Hmem _ Hsq). cbn [orb Csv.no_match
      Csv.qg_delimiter].
    rewrite guess_delimiter_unset; [reflexivity|].
    apply Forall_forall. intros line Hin. apply filter_In in Hin.
    destruct Hin as [Hin _]. intros c Hd. apply count_zero.
    apply (@split_on_mem LF c txt); [|exact Hin].
    unfold mem in Hd. simpl in Hd.
    repeat (apply orb_true_iff in Hd; destruct Hd as [Hd|Hd];
            [apply N.eqb_eq in Hd; subst c; auto |]).
    discriminate. }
  split; [|intros _; exact Hsniff].
  unfold parse_table_text. fold txt.
  destruct (truthy txt) eqn:Etxt; simpl.
  - rewrite Hsniff, (Hmem _ Ht). reflexivity.
  - destruct txt; [reflexivity | discriminate].
Qed.

Lemma no_delimiter_character_witness :
  parse_table_text no_quoted_field (lit "line1" ++ [LF] ++ lit "line2")
  = Ok [[lit "line1"]; [lit "line2"]].
Proof.
  destruct (@no_delimiter_character no_quoted_field
              (lit "line1" ++ [LF] ++ lit "line2")
              eq_refl eq_refl eq_refl eq_refl eq_refl) as [H _].
  rewrite H. vm_compute. reflexivity.
Defined.

Lemma mapM_decide {A B : Type} (f : A -> result B) (c : A -> bool)
    (cls : string) (l : list A) :
  (forall a, c a = true -> exists b, f a = Ok b) ->
  (forall a, c a = false -> f a = Raise (missing cls)) ->
  match mapM f l with
  | Ok _ => forallb c l = true
  | Raise e => forallb c l = false /\ e = missing cls
  end.
Proof.
  intros Hok Hbad. induction l as [|a l IH]; [reflexivity|].
  simpl. destruct (c a) eqn:Ha.
  - destruct (Hok a Ha) as [b ->]. simpl.
    destruct (mapM f l); simpl; exact IH.
  - rewrite (Hbad a Ha). simpl. auto.
Qed.

Lemma trial_decide (l : list TrialRowDict) :
  match mapM TrialRow_of_dict l with
  | Ok _ => forallb trial_complete l = true
  | Raise e => forallb trial_complete l = false /\ e = missing "TrialRow"
  end.
Proof.
  apply mapM_decide; intros [[n|] [i|] [r|]] H; try discriminate H;
    try reflexivity; eexists; reflexivity.
Qed.

Lemma email_decide (l : list EmailEntryDict) :
  match mapM EmailEntry_of_dict l with
  | Ok _ => forallb email_complete l = true
  | Raise e => forallb email_complete l = false /\ e = missing "EmailEntry"
  end.
Proof.
  apply mapM_decide; intros [[n|] [i|] [r|]] H; try discriminate H;
    try reflexivity; eexists; reflexivity.
Qed.

Lemma result_complete_with_images (l : list ResultItemDict) :
  forallb result_complete (map with_images l) = forallb result_complete l.
Proof.
  induction l as [|ri l IH]; [reflexivity|].
  simpl. rewrite IH. f_equal.
  unfold with_images. destruct (ri_images ri); reflexivity.
Qed.

Lemma result_decide (l : list ResultItemDict) :
  match mapM ResultItem_of_dict (map with_images l) with
  | Ok _ => forallb result_complete l = true
  | Raise e => forallb result_complete l = false /\ e = missing "ResultItem"
  end.
Proof.
  rewrite <- result_complete_with_images.
  apply mapM_decide; intros ri H; unfold result_complete in H;
    unfold ResultItem_of_dict;
    destruct (ri_title ri), (ri_kind ri); try discriminate H;
    try reflexivity; eexists; reflexivity.
Qed.

(** Whether a load of the report model succeeds is decided by its trial
    rows, result items and email entries. *)
Lemma load_report_model_decide (rm : ReportModelDict) :
  match load_report_model rm with
  | Ok _ => records_complete rm = true
  | Raise e =>
      records_complete rm = false
      /\ (e = missing "TrialRow" \/ e = missing "ResultItem"
          \/ e = missing "EmailEntry")
  end.
Proof.
  unfold load_report_model, records_complete.
  pose proof (trial_decide (get (k_trial_history rm) [])) as Ht.
  destruct (mapM TrialRow_of_dict (get (k_trial_history rm) [])) as [ths|e].
  2:{ destruct Ht as [-> ->]. simpl. auto. }
  rewrite Ht. cbn [bind andb].
  pose proof (result_decide (get (k_results rm) [])) as Hr.
  destruct (mapM ResultItem_of_dict (map with_images (get (k_results rm) [])))
    as [rs|e].
  2:{ destruct Hr as [-> ->]. simpl. auto. }
  rewrite Hr. cbn [bind andb].
  pose proof (email_decide (get (k_email_correspondence rm) [])) as He.
  destruct (mapM EmailEntry_of_dict (get (k_email_correspondence rm) []))
    as [es|e].
  2:{ destruct He as [-> ->]. simpl. auto. }
  rewrite He. reflexivity.
Qed.

(** X6: a project is loaded exactly when every trial row, result item and
    email entry of its report model carries the keys that its class
    requires (all three keys of a trial row or an email entry, title and
    kind of a result item); otherwise the load ends in the dialog "Load
    Failed" with the [TypeError] of the constructor, and the form is left
    as it was.  Every other missing key is filled with its default. *)
Theorem load_fails_on_incomplete_record :
  forall (data : ProjectDict) (app : App),
    let rm := get (d_report_model data) empty_ReportModelDict in
    match _load_from_dict data app with
    | Loaded _ _ => records_complete rm = true
    | LoadFailed e =>
        records_complete rm = false
        /\ (e = missing "TrialRow" \/ e = missing "ResultItem"
            \/ e = missing "EmailEntry")
    end.
Proof.
  intros data app. cbv zeta. unfold _load_from_dict.
  pose proof (load_report_model_decide
                (get (d_report_model data) empty_ReportModelDict)) as H.
  destruct (load_report_model _); exact H.
Qed.

(** X7: the defaults of the load are those of the classes: a project
    without any key of the report model loads as a new [ReportModel()],
    and a persisted result item with title and kind only loads as
    [ResultItem(title, kind)]. *)
Theorem load_defaults_are_class_defaults :
  load_report_model empty_ReportModelDict = Ok empty_ReportModel
  /\ (forall t k : str,
        ResultItem_of_dict (with_images (bare_result_dict t k))
        = Ok (new_ResultItem t k))
  /\ (forall app : App,
        _load_from_dict
          {| d_report_model := None; d_branding := None; d_export := None;
             d_include := None |} app
        = Loaded empty_ReportModel app).
Proof.
  split; [reflexivity|]. split; [reflexivity|].
  intros [inc h f l o e]. reflexivity.
Qed.

(* ------------------------------------------------------------------ *)
(** * Runs of the generation *)

Section Runs.

Variable regex_guess : str -> str -> Csv.quote_guess.

(** Both exporters build their document for every model; what can fail is
    the library that is missing and the writing of the file. *)
Lemma export_docx_shape (w : World) (r : ReportModel) (include : include_set)
    (out_path : str) (header_img footer_img : option str) :
  exists doc,
    docx_document_of regex_guess w r include header_img footer_img = Ok doc
    /\ _export_docx regex_guess w r include out_path header_img footer_img
       = if negb (Document_available w) then
           Raise (TypeError "'NoneType' object is not callable")
         else if write_ok w out_path then Ok [SaveDocx out_path doc]
         else Raise (OSError "the document cannot be saved").
Proof.
  destruct (document_texts regex_guess w r include header_img footer_img)
    as [doc [st [Hd _]]].
  exists doc. split; [exact Hd|].
  unfold _export_docx. rewrite Hd. reflexivity.
Qed.

Lemma export_pdf_shape (w : World) (r : ReportModel) (include : include_set)
    (out_path : str) (header_img footer_img : option str) :
  exists st,
    story_of regex_guess w r include = Ok st
    /\ _export_pdf_basic regex_guess w r include out_path header_img
         footer_img
       = if negb (SimpleDocTemplate_available w) then
           Ok [ShowError (lit "reportlab not found")
                 (lit "Install reportlab or enable docx2pdf for PDF export.")]
         else if write_ok w out_path then
           Ok [BuildPdf out_path
                 {| page_header := band_picture w header_img;
                    page_footer := band_picture w footer_img;
                    story := st |};
               ShowInfo (lit "PDF saved") (lit "Saved: " ++ out_path)]
         else Raise (OSError "the document cannot be built").
Proof.
  destruct (document_texts regex_guess w r include header_img footer_img)
    as [doc [st [_ [Hs _]]]].
  exists st. split; [exact Hs|].
  unfold _export_pdf_basic. rewrite Hs. reflexivity.
Qed.


Lemma str_eqb_refl (s : str) : str_eqb s s = true.
Proof.
  induction s as [|c s IH]; [reflexivity|].
  simpl. now rewrite N.eqb_refl.
Qed.

(** The case analysis of a run: the two exporters are put in their
    shapes, for the world before and after the flow document is saved;
    then every test of [_generate] is decided. *)
Ltac run_unfold w app r :=
  let doc := fresh "doc" in let Hdoc := fresh "Hdoc" in
  let Hd := fresh "Hd" in
  let st := fresh "st" in let Hst := fresh "Hst" in let Hp := fresh "Hp" in
  let st' := fresh "st'" in let Hst' := fresh "Hst'" in
  let Hp' := fresh "Hp'" in
  destruct (export_docx_shape w r (include app) (output_docx w app r)
              (existing_file w (header_path_var app))
              (existing_file w (footer_path_var app))) as [doc [Hdoc Hd]];
  destruct (export_pdf_shape w r (include app) (output_pdf w app r)
              (existing_file w (header_path_var app))
              (existing_file w (footer_path_var app))) as [st [Hst Hp]];
  destruct (export_pdf_shape (with_file (output_docx w app r) w) r
              (include app) (output_pdf w app r)
              (existing_file w (header_path_var app))
              (existing_file w (footer_path_var app))) as [st' [Hst' Hp']];
  unfold _generate, docx_stage, pdf_stage, pdf_basic;
  fold (output_base w r); fold (output_docx w app r);
  fold (output_pdf w app r); fold (output_dir w app);
  cbv zeta; rewrite Hd, ?Hp; clear Hd.

Ltac run_decide :=
  repeat match goal with
    | _ => progress cbn [existsb writes_docx fst snd app negb andb orb
                         isfile with_file write_ok
                         SimpleDocTemplate_available docx2pdf_available
                         convert_ok] in *
    | Hp : _export_pdf_basic _ _ _ _ _ _ _ = _ |- _ => rewrite Hp; clear Hp
    | |- context [if ?b then _ else _] =>
        lazymatch b with
        | true => fail | false => fail
        | context [if _ then _ else _] => fail
        | _ => destruct b eqn:?
        end
    end.

(** X8: whatever a run writes, it writes in its place: the folder is the
    output folder, a flow document goes to [docx_path] and only under the
    formats docx and both, a PDF goes to [pdf_path] and only under pdf and
    both; a run writes at most one flow document and at most one PDF, and
    nothing before the folder is made. *)
Theorem generate_writes_in_place :
  forall (w : World) (app : App) (r : ReportModel),
    let evs := fst (_generate regex_guess w app r) in
    Forall (in_place w app r) evs
    /\ List.length (filter writes_docx evs) <= 1
    /\ List.length (filter writes_pdf evs) <= 1
    /\ match evs with
       | [] | [ShowWarning _ _] | MakeDirs _ :: _ => True
       | _ => False
       end.
Proof.
  intros w app r. cbv zeta. run_unfold w app r. run_decide;
    (split; [repeat constructor; cbn [in_place]; auto|]);
    cbn [filter writes_docx writes_pdf List.length]; auto.
Qed.

(** X9: without python-docx a run with the format docx or both makes the
    folder, shows the error and returns: no file is written, and under
    both the PDF is not attempted either. *)
Theorem generate_without_docx_library :
  forall (w : World) (app : App) (r : ReportModel),
    truthy (project_title r) = true ->
    makedirs_ok w (output_dir w app) = true ->
    among (export_fmt app) ["docx"; "both"]%string = true ->
    Document_available w = false ->
    _generate regex_guess w app r
    = ([MakeDirs (output_dir w app);
        ShowError (lit "python-docx not found")
          (lit "Install python-docx to export .docx")],
       Ok tt).
Proof.
  intros w app r Ht Hm Hf Hd. run_unfold w app r.
  rewrite Ht, Hm, Hf, Hd. reflexivity.
Qed.

(** X10: under the format both, with the converter at hand, the PDF is the
    conversion of the flow document that the run has just saved; the
    direct renderer is not used, so reportlab is not needed. *)
Theorem generate_prefers_conversion :
  forall (w : World) (app : App) (r : ReportModel),
    truthy (project_title r) = true ->
    makedirs_ok w (output_dir w app) = true ->
    export_fmt app = lit "both" ->
    Document_available w = true ->
    write_ok w (output_docx w app r) = true ->
    docx2pdf_available w = true ->
    convert_ok w (output_docx w app r) (output_pdf w app r) = true ->
    exists doc,
      docx_document_of regex_guess w r (include app)
        (existing_file w (header_path_var app))
        (existing_file w (footer_path_var app)) = Ok doc
      /\ _generate regex_guess w app r
         = ([MakeDirs (output_dir w app);
             SaveDocx (output_docx w app r) doc;
             ShowInfo (lit "DOCX saved")
               (lit "Saved: " ++ output_docx w app r);
             ConvertDocx (output_docx w app r) (output_pdf w app r);
             ShowInfo (lit "PDF saved")
               (lit "Saved: " ++ output_pdf w app r)],
            Ok tt).
Proof.
  intros w app r Ht Hm Hf Hd Hw Hc Hv. run_unfold w app r.
  exists doc. split; [exact Hdoc|].
  rewrite Ht, Hm, Hf, Hd, Hw.
  change (among (lit "both") ["docx"; "both"]%string) with true.
  change (among (lit "both") ["pdf"; "both"]%string) with true.
  cbn [negb existsb List.app fst snd orb with_file docx2pdf_available isfile
       convert_ok].
  rewrite Hc, Hv, str_eqb_refl. reflexivity.
Qed.

(** X11: under the format pdf no flow document is written; with the
    converter at hand and a file already at [docx_path], the PDF is the
    conversion of that file, left by an earlier run: neither renderer is
    called and the content of the report now in the form is not used. *)
Theorem generate_pdf_from_existing_docx :
  forall (w : World) (app : App) (r : ReportModel),
    truthy (project_title r) = true ->
    makedirs_ok w (output_dir w app) = true ->
    export_fmt app = lit "pdf" ->
    docx2pdf_available w = true ->
    isfile w (output_docx w app r) = true ->
    convert_ok w (output_docx w app r) (output_pdf w app r) = true ->
    _generate regex_guess w app r
    = ([MakeDirs (output_dir w app);
        ConvertDocx (output_docx w app r) (output_pdf w app r);
        ShowInfo (lit "PDF saved") (lit "Saved: " ++ output_pdf w app r)],
       Ok tt).
Proof.
  intros w app r Ht Hm Hf Hc Hi Hv. run_unfold w app r.
  rewrite Ht, Hm, Hf.
  change (among (lit "pdf") ["docx"; "both"]%string) with false.
  change (among (lit "pdf") ["pdf"; "both"]%string) with true.
  cbn [negb existsb List.app fst snd].
  rewrite Hc, Hi, Hv. reflexivity.
Qed.

(** X12: a conversion that fails is not reported: after the flow document
    is saved the run goes on as [_export_pdf_basic] does, in the world
    where that document exists, and ends as it ends. *)
Theorem generate_conversion_failure_is_silent :
  forall (w : World) (app : App) (r : ReportModel),
    truthy (project_title r) = true ->
    makedirs_ok w (output_dir w app) = true ->
    export_fmt app = lit "both" ->
    Document_available w = true ->
    write_ok w (output_docx w app r) = true ->
    convert_ok w (output_docx w app r) (output_pdf w app r) = false ->
    let header_img := existing_file w (header_path_var app) in
    let footer_img := existing_file w (footer_path_var app) in
    exists doc,
      docx_document_of regex_guess w r (include app) header_img footer_img
      = Ok doc
      /\ _generate regex_guess w app r
         = let saved :=
             [MakeDirs (output_dir w app);
              SaveDocx (output_docx w app r) doc;
              ShowInfo (lit "DOCX saved")
                (lit "Saved: " ++ output_docx w app r)] in
           match _export_pdf_basic regex_guess
                   (with_file (output_docx w app r) w) r (include app)
                   (output_pdf w app r) header_img footer_img with
           | Ok evs => (saved ++ evs, Ok tt)
           | Raise e => (saved, Raise e)
           end.
Proof.
  intros w app r Ht Hm Hf Hd Hw Hv. cbv zeta.
  destruct (export_docx_shape w r (include app) (output_docx w app r)
              (existing_file w (header_path_var app))
              (existing_file w (footer_path_var app))) as [doc [Hdoc He]].
  exists doc. split; [exact Hdoc|].
  unfold _generate, docx_stage, pdf_stage, pdf_basic.
  fold (output_base w r). fold (output_docx w app r).
  fold (output_pdf w app r). fold (output_dir w app).
  cbv zeta. rewrite He, Ht, Hm, Hf, Hd, Hw.
  change (among (lit "both") ["docx"; "both"]%string) with true.
  change (among (lit "both") ["pdf"; "both"]%string) with true.
  cbn [negb existsb List.app fst snd orb with_file docx2pdf_available isfile
       convert_ok].
  rewrite Hv.
  destruct (docx2pdf_available w && _);
    destruct (_export_pdf_basic _ _ _ _ _ _ _); reflexivity.
Qed.

End Runs.

Lemma replace_removes (c : char) (by_ s : str) :
  mem c by_ = false -> mem c (replace c by_ s) = false.
Proof.
  intros Hb. unfold replace, mem in *.
  induction s as [|x s IH]; [reflexivity|].
  cbn [flat_map]. rewrite existsb_app. apply orb_false_iff.
  split; [|exact IH].
  destruct (x =? c)%N eqn:E; [exact Hb|].
  cbn [existsb]. rewrite N.eqb_sym, E. reflexivity.
Qed.

Lemma replace_one (c u : char) (s : str) :
  replace c [u] s = map (fun x => if (x =? c)%N then u else x) s.
Proof.
  unfold replace. induction s as [|x s IH]; [reflexivity|].
  cbn [flat_map map]. rewrite IH. destruct (x =? c)%N; reflexivity.
Qed.

(** X13: the name of the output files is the stripped title with every
    [os.sep] replaced by an underscore and every other character kept,
    then an underscore and the date.  So [os.sep] does not occur in the
    name when it is not the underscore and not in the date; any other
    separator of the platform (the slash and the colon where [os.sep] is
    the backslash) stays in the name as it is. *)
Theorem output_base_replaces_os_sep :
  forall (w : World) (r : ReportModel),
    sep w <> 95%N ->
    mem (sep w) (today w) = false ->
    output_base w r
    = map (fun c => if (c =? sep w)%N then 95%N else c)
        (strip (project_title r))
      ++ lit "_" ++ today w
    /\ mem (sep w) (output_base w r) = false.
Proof.
  intros w r Hs Ht.
  assert (Hu : mem (sep w) (lit "_") = false).
  { vm_compute lit. cbn [mem existsb]. apply N.eqb_neq in Hs.
    now rewrite Hs. }
  split.
  - unfold output_base. change (lit "_") with [95%N] at 1.
    now rewrite replace_one.
  - pose proof (replace_removes (sep w) (lit "_")
                  (strip (project_title r)) Hu) as Hr.
    unfold output_base, mem in *.
    rewrite !existsb_app. apply orb_false_iff. split; [exact Hr|].
    apply orb_false_iff. split; [exact Hu | exact Ht].
Qed.

(** Where [os.sep] is the backslash, the slash and the colon of a title
    reach the name of the files. *)
Example output_base_keeps_other_separators :
  output_base
    {| Document_available := true; SimpleDocTemplate_available := true;
       docx2pdf_available := false; today := lit "2024-01-31";
       sep := 92%N; path_join := fun a b => a ++ [92%N] ++ b;
       dirname := fun p => p; isfile := fun _ => false;
       makedirs_ok := fun _ => true; write_ok := fun _ => true;
       convert_ok := fun _ _ => true; picture_ok := fun _ => true;
       style_ok := fun _ => true |}
    (with_project_title (lit "C:a/b") sample_report)
  = lit "C:a/b_2024-01-31".
Proof. reflexivity. Qed.

Lemma generate_without_docx_library_witness :
  let w := sample_world_with false true true true [] in
  _generate no_quoted_field w sample_app sample_report
  = ([MakeDirs (output_dir w sample_app);
      ShowError (lit "python-docx not found")
        (lit "Install python-docx to export .docx")],
     Ok tt).
Proof.
  apply (@generate_without_docx_library no_quoted_field
           (sample_world_with false true true true []) sample_app
           sample_report); reflexivity.
Defined.

Lemma generate_prefers_conversion_witness :
  let w := sample_world_with true false true true [] in
  exists doc,
    docx_document_of no_quoted_field w sample_report (include sample_app)
      (existing_file w (header_path_var sample_app))
      (existing_file w (footer_path_var sample_app)) = Ok doc
    /\ _generate no_quoted_field w sample_app sample_report
       = ([MakeDirs (output_dir w sample_app);
           SaveDocx (output_docx w sample_app sample_report) doc;
           ShowInfo (lit "DOCX saved")
             (lit "Saved: " ++ output_docx w sample_app sample_report);
           ConvertDocx (output_docx w sample_app sample_report)
             (output_pdf w sample_app sample_report);
           ShowInfo (lit "PDF saved")
             (lit "Saved: " ++ output_pdf w sample_app sample_report)],
          Ok tt).
Proof.
  apply (@generate_prefers_conversion no_quoted_field
           (sample_world_with true false true true []) sample_app
           sample_report); reflexivity.
Defined.

Lemma generate_pdf_from_existing_docx_witness :
  let w := sample_world_with true true true true
             [lit "reports/Resin_2024-01-31.docx"] in
  _generate no_quoted_field w pdf_only_app sample_report
  = ([MakeDirs (output_dir w pdf_only_app);
      ConvertDocx (output_docx w pdf_only_app sample_report)
        (output_pdf w pdf_only_app sample_report);
      ShowInfo (lit "PDF saved")
        (lit "Saved: " ++ output_pdf w pdf_only_app sample_report)],
     Ok tt).
Proof.
  apply (@generate_pdf_from_existing_docx no_quoted_field
           (sample_world_with true true true true
              [lit "reports/Resin_2024-01-31.docx"]) pdf_only_app
           sample_report); reflexivity.
Defined.

Lemma generate_conversion_failure_is_silent_witness :
  let w := sample_world_with true true true false [] in
  let header_img := existing_file w (header_path_var sample_app) in
  let footer_img := existing_file w (footer_path_var sample_app) in
  exists doc,
    docx_document_of no_quoted_field w sample_report (include sample_app)
      header_img footer_img = Ok doc
    /\ _generate no_quoted_field w sample_app sample_report
       = let saved :=
           [MakeDirs (output_dir w sample_app);
            SaveDocx (output_docx w sample_app sample_report) doc;
            ShowInfo (lit "DOCX saved")
              (lit "Saved: " ++ output_docx w sample_app sample_report)] in
         match _export_pdf_basic no_quoted_field
                 (with_file (output_docx w sample_app sample_report) w)
                 sample_report (include sample_app)
                 (output_pdf w sample_app sample_report)
                 header_img footer_img with
         | Ok evs => (saved ++ evs, Ok tt)
         | Raise e => (saved, Raise e)
         end.
Proof.
  apply (@generate_conversion_failure_is_silent no_quoted_field
           (sample_world_with true true true false []) sample_app
           sample_report); reflexivity.
Defined.

Lemma output_base_replaces_os_sep_witness :
  output_base sample_world (with_project_title (lit "Resin/A") sample_report)
  = map (fun c => if (c =? sep sample_world)%N then 95%N else c)
      (strip (project_title
                (with_project_title (lit "Resin/A") sample_report)))
    ++ lit "_" ++ today sample_world
  /\ mem (sep sample_world)
       (output_base sample_world
          (with_project_title (lit "Resin/A") sample_report)) = false.
Proof.
  apply (@output_base_replaces_os_sep sample_world
           (with_project_title (lit "Resin/A") sample_report));
    [discriminate | reflexivity].
Defined.

(* ------------------------------------------------------------------ *)
(** * The include-set and the documents *)

Lemma subseq_refl {A : Type} (l : list A) : subseq l l.
Proof. induction l; constructor; assumption. Qed.

Lemma subseq_empty {A : Type} (l : list A) : subseq [] l.
Proof. induction l; constructor; assumption. Qed.

Lemma subseq_app {A : Type} (a b c d : list A) :
  subseq a b -> subseq c d -> subseq (a ++ c) (b ++ d).
Proof.
  intros Hab Hcd. induction Hab; simpl; try constructor; assumption.
Qed.

Section IncludeSets.

Variable regex_guess : str -> str -> Csv.quote_guess.
Variable w : World.

(** The loop over the results returns in both renderers. *)
Lemma results_return (rs : list ResultItem) :
  exists bd bp,
    docx_results regex_guess w rs = Ok bd
    /\ pdf_results regex_guess w rs = Ok bp.
Proof.
  destruct (results_texts_from regex_guess w 1 rs)
    as [bds [bps [Hd [Hp _]]]].
  unfold docx_results, pdf_results. rewrite Hd, Hp.
  do 2 eexists. split; reflexivity.
Qed.

Section Monotone.

Variables i1 i2 : include_set.
Hypothesis Hle : include_le i1 i2.

Ltac mono :=
  repeat first
    [ apply subseq_refl
    | apply subseq_empty
    | match goal with
      | |- subseq ?a _ =>
          lazymatch a with
          | if ?c then _ else _ =>
              lazymatch c with
              | i1 ?k =>
                  let E := fresh "E" in
                  destruct c eqn:E; [rewrite (@Hle _ E)|]
              end
          end
      end
    | apply subseq_app ].

Lemma docx_body_monotone (r : ReportModel) (bd : list docx_block) :
  docx_results regex_guess w (results r) = Ok bd ->
  exists b1 b2,
    docx_results_part regex_guess w r i1 = Ok b1
    /\ docx_results_part regex_guess w r i2 = Ok b2
    /\ subseq
         (docx_title r ++ docx_general r i1 ++ docx_technical
          ++ docx_plain r i1 ++ docx_objectives r i1 ++ docx_methods w r i1
          ++ b1 ++ docx_conclusion r i1 ++ docx_misc r i1
          ++ docx_references r i1 ++ docx_regulatory r i1
          ++ docx_scale_up r i1 ++ docx_quality r i1
          ++ docx_commercial w r i1)
         (docx_title r ++ docx_general r i2 ++ docx_technical
          ++ docx_plain r i2 ++ docx_objectives r i2 ++ docx_methods w r i2
          ++ b2 ++ docx_conclusion r i2 ++ docx_misc r i2
          ++ docx_references r i2 ++ docx_regulatory r i2
          ++ docx_scale_up r i2 ++ docx_quality r i2
          ++ docx_commercial w r i2).
Proof.
  intros Hd. unfold docx_results_part. rewrite Hd. cbn [bind].
  exists (if i1 t_results then _H2 (lit "2.4. Results") :: bd else []),
         (if i2 t_results then _H2 (lit "2.4. Results") :: bd else []).
  split; [destruct (i1 t_results); reflexivity|].
  split; [destruct (i2 t_results); reflexivity|].
  unfold docx_general, docx_plain, docx_objectives, docx_methods,
    docx_conclusion, docx_misc, docx_references, docx_regulatory,
    docx_scale_up, docx_quality, docx_commercial.
  mono.
Qed.

Lemma story_monotone (r : ReportModel) (bp : list flowable) :
  pdf_results regex_guess w (results r) = Ok bp ->
  exists s1 s2,
    story_of regex_guess w r i1 = Ok s1
    /\ story_of regex_guess w r i2 = Ok s2
    /\ subseq s1 s2.
Proof.
  intros Hp. unfold story_of, pdf_results_part. rewrite Hp. cbn [bind].
  exists
    (pdf_title r ++ pdf_general r i1 ++ pdf_technical ++ pdf_plain r i1
     ++ pdf_objectives r i1 ++ pdf_methods r i1
     ++ (if i1 t_results then Paragraph (lit "2.4. Results") H2_11 :: bp
         else [])
     ++ pdf_conclusion r i1 ++ pdf_misc r i1 ++ pdf_references r i1
     ++ pdf_regulatory r i1 ++ pdf_scale_up r i1 ++ pdf_quality r i1
     ++ pdf_commercial r i1),
    (pdf_title r ++ pdf_general r i2 ++ pdf_technical ++ pdf_plain r i2
     ++ pdf_objectives r i2 ++ pdf_methods r i2
     ++ (if i2 t_results then Paragraph (lit "2.4. Results") H2_11 :: bp
         else [])
     ++ pdf_conclusion r i2 ++ pdf_misc r i2 ++ pdf_references r i2
     ++ pdf_regulatory r i2 ++ pdf_scale_up r i2 ++ pdf_quality r i2
     ++ pdf_commercial r i2).
  split; [destruct (i1 t_results); reflexivity|].
  split; [destruct (i2 t_results); reflexivity|].
  unfold pdf_general, pdf_plain, pdf_objectives, pdf_methods,
    pdf_conclusion, pdf_misc, pdf_references, pdf_regulatory,
    pdf_scale_up, pdf_quality, pdf_commercial.
  mono.
Qed.

End Monotone.

(** X14: switching keys of the include-set off only removes blocks: the
    body of the flow document and the story of the fixed-layout document
    under a smaller include-set are those under the larger one with some
    blocks left out, in the same order; nothing is added or moved, and
    the bands of the page are the same. *)
Theorem include_only_removes :
  forall (r : ReportModel) (i1 i2 : include_set)
         (header_img footer_img : option str),
    include_le i1 i2 ->
    exists d1 d2 s1 s2,
      docx_document_of regex_guess w r i1 header_img footer_img = Ok d1
      /\ docx_document_of regex_guess w r i2 header_img footer_img = Ok d2
      /\ story_of regex_guess w r i1 = Ok s1
      /\ story_of regex_guess w r i2 = Ok s2
      /\ subseq (body d1) (body d2)
      /\ subseq s1 s2
      /\ header_picture d1 = header_picture d2
      /\ footer_picture d1 = footer_picture d2.
Proof.
  intros r i1 i2 header_img footer_img Hle.
  destruct (results_return (results r)) as [bd [bp [Hd Hp]]].
  destruct (docx_body_monotone Hle r Hd) as [b1 [b2 [H1 [H2 Hb]]]].
  destruct (story_monotone Hle r Hp) as [s1 [s2 [Hs1 [Hs2 Hs]]]].
  unfold docx_document_of. rewrite H1, H2. cbn [bind].
  do 2 eexists. exists s1, s2.
  split; [reflexivity|]. split; [reflexivity|].
  split; [exact Hs1|]. split; [exact Hs2|].
  cbn [body header_picture footer_picture].
  split; [exact Hb|]. split; [exact Hs|]. split; reflexivity.
Qed.

(** X15: with every key of the include-set off the documents are not
    empty: the flow document is the title and the heading of section 2,
    the fixed-layout document the title, its spacer and that heading.
    Section 2 has no key of its own. *)
Theorem nothing_included :
  forall (r : ReportModel) (include : include_set)
         (header_img footer_img : option str),
    (forall k, include k = false) ->
    docx_document_of regex_guess w r include header_img footer_img
    = Ok {| header_picture := band_picture w header_img;
            footer_picture := band_picture w footer_img;
            body := [title_paragraph (project_title r);
                     _H1 (LF :: lit "2. Technical Information")] |}
    /\ story_of regex_guess w r include
       = Ok [Paragraph (project_title r) Title14; Spacer 864;
             Paragraph (lit "2. Technical Information") H1_12].
Proof.
  intros r include header_img footer_img H.
  unfold docx_document_of, story_of, docx_results_part, pdf_results_part,
    docx_general, docx_plain, docx_objectives, docx_methods,
    docx_conclusion, docx_misc, docx_references, docx_regulatory,
    docx_scale_up, docx_quality, docx_commercial,
    pdf_general, pdf_plain, pdf_objectives, pdf_methods,
    pdf_conclusion, pdf_misc, pdf_references, pdf_regulatory,
    pdf_scale_up, pdf_quality, pdf_commercial.
  rewrite !H. split; reflexivity.
Qed.

End IncludeSets.

Lemma include_only_removes_witness :
  exists d1 d2 s1 s2,
    docx_document_of no_quoted_field sample_world sample_report
      none_included None None = Ok d1
    /\ docx_document_of no_quoted_field sample_world sample_report
         all_included None None = Ok d2
    /\ story_of no_quoted_field sample_world sample_report none_included
       = Ok s1
    /\ story_of no_quoted_field sample_world sample_report all_included
       = Ok s2
    /\ subseq (body d1) (body d2)
    /\ subseq s1 s2
    /\ header_picture d1 = header_picture d2
    /\ footer_picture d1 = footer_picture d2.
Proof.
  apply (@include_only_removes no_quoted_field sample_world sample_report
           none_included all_included None None).
  intros k H. discriminate H.
Defined.

Lemma nothing_included_witness :
  docx_document_of no_quoted_field sample_world sample_report none_included
    None None
  = Ok {| header_picture := None; footer_picture := None;
          body := [title_paragraph (lit "Resin");
                   _H1 (LF :: lit "2. Technical Information")] |}
  /\ story_of no_quoted_field sample_world sample_report none_included
     = Ok [Paragraph (lit "Resin") Title14; Spacer 864;
           Paragraph (lit "2. Technical Information") H1_12].
Proof.
  apply (@nothing_included no_quoted_field sample_world sample_report
           none_included None None).
  intros k. reflexivity.
Defined.

(* ------------------------------------------------------------------ *)
(** * Pictures *)

Lemma str_eqb_eq (a b : str) : str_eqb a b = true -> a = b.
Proof.
  revert b. induction a as [|x a IH]; intros [|y b] H; try discriminate H.
  - reflexivity.
  - simpl in H. apply andb_true_iff in H. destruct H as [Hx Hab].
    apply N.eqb_eq in Hx. subst y. f_equal. now apply IH.
Qed.

Lemma docx_pictures_app (a b : list docx_block) :
  docx_pictures (a ++ b) = docx_pictures a ++ docx_pictures b.
Proof. apply flat_map_app. Qed.

Lemma pdf_pictures_app (a b : list flowable) :
  pdf_pictures (a ++ b) = pdf_pictures a ++ pdf_pictures b.
Proof. apply flat_map_app. Qed.

Lemma docx_pictures_map {A : Type} (f : A -> docx_paragraph) (l : list A) :
  docx_pictures (map (fun a => DocxParagraph (f a)) l) = [].
Proof. induction l as [|a l IH]; [reflexivity | exact IH]. Qed.

Lemma pdf_pictures_map {A : Type} (f : A -> str) (style : pdf_style)
    (l : list A) :
  pdf_pictures (map (fun a => Paragraph (f a) style) l) = [].
Proof. induction l as [|a l IH]; [reflexivity | exact IH]. Qed.

Lemma docx_pictures_paragraph (p : docx_paragraph) (l : list docx_block) :
  docx_pictures (DocxParagraph p :: l) = docx_pictures l.
Proof. reflexivity. Qed.

Lemma docx_pictures_table (style : option str) (cells : list (list str))
    (l : list docx_block) :
  docx_pictures (DocxTable style cells :: l) = docx_pictures l.
Proof. reflexivity. Qed.

Lemma pdf_pictures_paragraph (text : str) (style : pdf_style)
    (l : list flowable) :
  pdf_pictures (Paragraph text style :: l) = pdf_pictures l.
Proof. reflexivity. Qed.

Lemma pdf_pictures_spacer (height : N) (l : list flowable) :
  pdf_pictures (Spacer height :: l) = pdf_pictures l.
Proof. reflexivity. Qed.

Lemma pdf_pictures_table (data : list (list str)) (widths : list (N * nat))
    (look : table_look) (l : list flowable) :
  pdf_pictures (Table data widths look :: l) = pdf_pictures l.
Proof. reflexivity. Qed.

Lemma pdf_pictures_list (items : list list_entry) (b : bullet_type)
    (l : list flowable) :
  pdf_pictures (ListFlowable items b :: l) = pdf_pictures l.
Proof. reflexivity. Qed.

Lemma docx_smart_no_picture (r : ReportModel) :
  docx_pictures (docx_smart r) = [].
Proof.
  unfold docx_smart. generalize labels_SMART as l.
  induction l as [|kl l IH]; [reflexivity|].
  cbn [flat_map]. rewrite docx_pictures_app, IH.
  destruct (truthy _); reflexivity.
Qed.

Lemma pdf_smart_no_picture (r : ReportModel) :
  pdf_pictures (pdf_smart r) = [].
Proof.
  unfold pdf_smart. generalize labels_SMART as l.
  induction l as [|kl l IH]; [reflexivity|].
  cbn [flat_map]. rewrite pdf_pictures_app, IH. cbv zeta.
  destruct (truthy _); reflexivity.
Qed.

(** A part of a document that is made of paragraphs, lists and tables. *)
Ltac no_picture :=
  unfold docx_title, docx_general, docx_technical, docx_plain,
    docx_objectives, docx_methods, docx_conclusion, docx_misc,
    docx_references, docx_regulatory, docx_scale_up, docx_quality,
    docx_commercial, pdf_title, pdf_general, pdf_technical, pdf_plain,
    pdf_objectives, pdf_methods, pdf_conclusion, pdf_misc, pdf_references,
    pdf_regulatory, pdf_scale_up, pdf_quality, pdf_commercial,
    _H1, _H2, _H3, heading, _body_para, _list_para, docx_table3,
    title_paragraph, h2_para, bullets;
  repeat match goal with
    | |- context [if ?c then _ else _] => destruct c
    end;
  repeat (rewrite ?docx_pictures_app, ?pdf_pictures_app,
            ?docx_pictures_paragraph, ?docx_pictures_table,
            ?pdf_pictures_paragraph, ?pdf_pictures_spacer,
            ?pdf_pictures_table, ?pdf_pictures_list,
            ?docx_pictures_map, ?docx_smart_no_picture,
            ?pdf_smart_no_picture);
  reflexivity.

Section Pictures.

Variable regex_guess : str -> str -> Csv.quote_guess.
Variable w : World.

Lemma docx_pictures_placed (cap : str) (imgs : list str) :
  docx_pictures
    (flat_map
       (fun pth =>
          if truthy pth && isfile w pth then
            if picture_ok w pth then
              DocxPicture pth 580
              :: (if truthy cap then [caption_paragraph cap] else [])
            else []
          else [])
       imgs)
  = filter (fun p => truthy p && isfile w p && picture_ok w p) imgs.
Proof.
  induction imgs as [|pth imgs IH]; [reflexivity|].
  cbn [flat_map filter]. rewrite docx_pictures_app, IH.
  destruct (truthy pth && isfile w pth); [|reflexivity].
  destruct (picture_ok w pth); [|reflexivity].
  destruct (truthy cap); reflexivity.
Qed.

Lemma pdf_pictures_placed (cap : str) (imgs : list str) :
  pdf_pictures
    (flat_map
       (fun pth =>
          if truthy pth && isfile w pth then
            RLImage pth
            :: (if truthy cap then [Paragraph cap Body10_H3] else [])
          else [])
       imgs)
  = filter (fun p => truthy p && isfile w p) imgs.
Proof.
  induction imgs as [|pth imgs IH]; [reflexivity|].
  cbn [flat_map filter]. rewrite pdf_pictures_app, IH.
  destruct (truthy pth && isfile w pth); [|reflexivity].
  destruct (truthy cap); reflexivity.
Qed.

(** One result item: its pictures are the files that exist, and in the
    flow document can be placed, among its image paths. *)
Lemma result_pictures (idx : nat) (it : ResultItem) :
  exists bd bp,
    docx_result regex_guess w idx it = Ok bd
    /\ pdf_result regex_guess w idx it = Ok bp
    /\ docx_pictures bd
       = filter (fun p => truthy p && isfile w p && picture_ok w p)
           (image_files it)
    /\ pdf_pictures bp
       = filter (fun p => truthy p && isfile w p) (image_files it).
Proof.
  unfold docx_result, pdf_result, image_files.
  destruct (str_eqb (kind it) (lit "text")) eqn:Et.
  { apply str_eqb_eq in Et. rewrite Et.
    do 2 eexists. split; [reflexivity|]. split; [reflexivity|].
    split; [|reflexivity].
    change (docx_pictures
              (map (fun line => _body_para line 3)
                 (safe_split_lines (content it))) = []).
    apply (docx_pictures_map
             (fun line =>
                {| p_text := line; p_bold := false; p_size := None;
                   p_style := Normal; p_left_indent := Some (level_indent 3);
                   p_alignment := None |})). }
  destruct (str_eqb (kind it) (lit "table")) eqn:Eb.
  { apply str_eqb_eq in Eb. rewrite Eb.
    destruct (item_table_returns regex_guess it) as [data ->]. cbn [bind].
    do 2 eexists. split; [reflexivity|]. split; [reflexivity|].
    destruct (nonempty data); split; reflexivity. }
  destruct (str_eqb (kind it) (lit "image"));
    [|do 2 eexists; repeat split; reflexivity].
  destruct (nonempty (item_images it)) eqn:En.
  - do 2 eexists. split; [reflexivity|]. split; [reflexivity|].
    rewrite docx_pictures_app, pdf_pictures_app.
    rewrite docx_pictures_placed, pdf_pictures_placed.
    destruct (truthy (title it)); split; reflexivity.
  - destruct (item_images it); [|discriminate En].
    do 2 eexists. repeat split; reflexivity.
Qed.

(** The loop over the results, for any first number. *)
Lemma results_pictures_from (n : nat) (rs : list ResultItem) :
  exists bds bps,
    mapM (fun p => docx_result regex_guess w (fst p) (snd p)) (enumerate n rs)
    = Ok bds
    /\ mapM (fun p => pdf_result regex_guess w (fst p) (snd p))
         (enumerate n rs) = Ok bps
    /\ docx_pictures (List.concat bds)
       = filter (fun p => truthy p && isfile w p && picture_ok w p)
           (flat_map image_files rs)
    /\ pdf_pictures (List.concat bps)
       = filter (fun p => truthy p && isfile w p) (flat_map image_files rs).
Proof.
  revert n. induction rs as [|it rs IH]; intros n.
  - exists [], []. repeat split; reflexivity.
  - destruct (result_pictures n it) as [bd [bp [Hd [Hp [Hpd Hpp]]]]].
    destruct (IH (S n)) as [bds [bps [Hds [Hps [Hpds Hpps]]]]].
    exists (bd :: bds), (bp :: bps).
    cbn [enumerate mapM fst snd]. rewrite Hd, Hp, Hds, Hps.
    cbn [bind List.concat flat_map].
    rewrite docx_pictures_app, pdf_pictures_app, !filter_app.
    rewrite Hpd, Hpp, Hpds, Hpps. repeat split; reflexivity.
Qed.

Section PartPictures.

Variable r : ReportModel.
Variable include : include_set.

Lemma docx_title_no_picture : docx_pictures (docx_title r) = [].
Proof. no_picture. Qed.
Lemma docx_general_no_picture : docx_pictures (docx_general r include) = [].
Proof. no_picture. Qed.
Lemma docx_technical_no_picture : docx_pictures docx_technical = [].
Proof. no_picture. Qed.
Lemma docx_plain_no_picture : docx_pictures (docx_plain r include) = [].
Proof. no_picture. Qed.
Lemma docx_objectives_no_picture :
  docx_pictures (docx_objectives r include) = [].
Proof. no_picture. Qed.
Lemma docx_methods_no_picture : docx_pictures (docx_methods w r include) = [].
Proof. no_picture. Qed.
Lemma docx_conclusion_no_picture :
  docx_pictures (docx_conclusion r include) = [].
Proof. no_picture. Qed.
Lemma docx_misc_no_picture : docx_pictures (docx_misc r include) = [].
Proof. no_picture. Qed.
Lemma docx_references_no_picture :
  docx_pictures (docx_references r include) = [].
Proof. no_picture. Qed.
Lemma docx_regulatory_no_picture :
  docx_pictures (docx_regulatory r include) = [].
Proof. no_picture. Qed.
Lemma docx_scale_up_no_picture :
  docx_pictures (docx_scale_up r include) = [].
Proof. no_picture. Qed.
Lemma docx_quality_no_picture : docx_pictures (docx_quality r include) = [].
Proof. no_picture. Qed.
Lemma docx_commercial_no_picture :
  docx_pictures (docx_commercial w r include) = [].
Proof. no_picture. Qed.

Lemma pdf_title_no_picture : pdf_pictures (pdf_title r) = [].
Proof. no_picture. Qed.
Lemma pdf_general_no_picture : pdf_pictures (pdf_general r include) = [].
Proof. no_picture. Qed.
Lemma pdf_technical_no_picture : pdf_pictures pdf_technical = [].
Proof. no_picture. Qed.
Lemma pdf_plain_no_picture : pdf_pictures (pdf_plain r include) = [].
Proof. no_picture. Qed.
Lemma pdf_objectives_no_picture :
  pdf_pictures (pdf_objectives r include) = [].
Proof. no_picture. Qed.
Lemma pdf_methods_no_picture : pdf_pictures (pdf_methods r include) = [].
Proof. no_picture. Qed.
Lemma pdf_conclusion_no_picture :
  pdf_pictures (pdf_conclusion r include) = [].
Proof. no_picture. Qed.
Lemma pdf_misc_no_picture : pdf_pictures (pdf_misc r include) = [].
Proof. no_picture. Qed.
Lemma pdf_references_no_picture :
  pdf_pictures (pdf_references r include) = [].
Proof. no_picture. Qed.
Lemma pdf_regulatory_no_picture :
  pdf_pictures (pdf_regulatory r include) = [].
Proof. no_picture. Qed.
Lemma pdf_scale_up_no_picture : pdf_pictures (pdf_scale_up r include) = [].
Proof. no_picture. Qed.
Lemma pdf_quality_no_picture : pdf_pictures (pdf_quality r include) = [].
Proof. no_picture. Qed.
Lemma pdf_commercial_no_picture :
  pdf_pictures (pdf_commercial r include) = [].
Proof. no_picture. Qed.

End PartPictures.

(** X16: the pictures of both documents are the image paths of the image
    items, in the order of the results, that name an existing file (and,
    in the flow document, a file that can be placed); a path that is
    empty, missing or unreadable is left out without an error, and no
    other part of a document holds a picture. *)
Theorem document_pictures :
  forall (r : ReportModel) (include : include_set)
         (header_img footer_img : option str),
    exists doc st,
      docx_document_of regex_guess w r include header_img footer_img = Ok doc
      /\ story_of regex_guess w r include = Ok st
      /\ docx_pictures (body doc)
         = (if include t_results
            then filter (fun p => truthy p && isfile w p && picture_ok w p)
                   (flat_map image_files (results r))
            else [])
      /\ pdf_pictures st
         = (if include t_results
            then filter (fun p => truthy p && isfile w p)
                   (flat_map image_files (results r))
            else []).
Proof.
  intros r include header_img footer_img.
  destruct (results_pictures_from 1 (results r))
    as [bds [bps [Hd [Hp [Hpd Hpp]]]]].
  unfold docx_document_of, story_of, docx_results_part, pdf_results_part,
    docx_results, pdf_results.
  rewrite Hd, Hp. cbn [bind].
  destruct (include t_results) eqn:Er; cbn [bind];
    do 2 eexists; (split; [reflexivity|]); (split; [reflexivity|]);
    cbn [body];
    rewrite !docx_pictures_app, !pdf_pictures_app;
    rewrite docx_title_no_picture, docx_general_no_picture,
      docx_technical_no_picture, docx_plain_no_picture,
      docx_objectives_no_picture, docx_methods_no_picture,
      docx_conclusion_no_picture, docx_misc_no_picture,
      docx_references_no_picture, docx_regulatory_no_picture,
      docx_scale_up_no_picture, docx_quality_no_picture,
      docx_commercial_no_picture, pdf_title_no_picture,
      pdf_general_no_picture, pdf_technical_no_picture,
      pdf_plain_no_picture, pdf_objectives_no_picture,
      pdf_methods_no_picture, pdf_conclusion_no_picture,
      pdf_misc_no_picture, pdf_references_no_picture,
      pdf_regulatory_no_picture, pdf_scale_up_no_picture,
      pdf_quality_no_picture, pdf_commercial_no_picture;
    cbn [app]; unfold _H2, heading;
    rewrite ?docx_pictures_paragraph, ?pdf_pictures_paragraph, ?Hpd, ?Hpp,
      ?app_nil_r;
    split; reflexivity.
Qed.

End Pictures.

(* ------------------------------------------------------------------ *)
(** * Tables of the result items *)

Lemma max_len_ge (data : list (list str)) (row : list str) :
  In row data -> List.length row <= max_len data.
Proof.
  induction data as [|rw data IH]; intros H; [destruct H|].
  cbn [max_len fold_right]. fold (max_len data).
  destruct H as [-> | H]; [lia|]. specialize (IH H). lia.
Qed.

Lemma nth_beyond (row : list str) (start n : nat) :
  List.length row <= start ->
  map (fun c_i => nth c_i row []) (seq start n) = repeat [] n.
Proof.
  revert start. induction n as [|n IH]; intros start H; [reflexivity|].
  cbn [seq map repeat]. rewrite nth_overflow by exact H.
  f_equal. apply IH. lia.
Qed.

Lemma grid_row_padded (cols : nat) (row : list str) :
  List.length row <= cols -> grid_row cols row = padded cols row.
Proof.
  intros H. unfold grid_row, padded.
  replace cols with (List.length row + (cols - List.length row)) at 1 by lia.
  rewrite seq_app, map_app. f_equal.
  - apply grid_row_full.
  - apply nth_beyond. simpl. lia.
Qed.

Lemma grid_padded (cols : nat) (data : list (list str)) :
  Forall (fun row => List.length row <= cols) data ->
  map (grid_row cols) data = map (padded cols) data.
Proof.
  induction 1 as [|row data H _ IH]; [reflexivity|].
  cbn [map]. rewrite IH, grid_row_padded by exact H. reflexivity.
Qed.

Lemma padded_length (cols : nat) (row : list str) :
  List.length row <= cols -> List.length (padded cols row) = cols.
Proof.
  intros H. unfold padded. rewrite length_app, repeat_length. lia.
Qed.

(** X17: in the flow document a table item is rendered from its grid, or
    from the inference on its text when it has none, and every row is
    filled up on the right with empty cells to the length of the longest
    row: no cell is lost or moved, and the table is rectangular.  An empty
    grid gives the heading alone. *)
Theorem table_item_padded :
  forall (regex_guess : str -> str -> Csv.quote_guess) (w : World)
         (idx : nat) (it : ResultItem),
    kind it = lit "table" ->
    exists data,
      item_table regex_guess it = Ok data
      /\ docx_result regex_guess w idx it
         = Ok (_H3 (title it)
               :: if nonempty data
                  then [DocxTable (styled w (table_style it))
                          (map (padded (max_len data)) data)]
                  else [])
      /\ Forall (fun row => List.length row = max_len data)
           (map (padded (max_len data)) data).
Proof.
  intros regex_guess w idx it Hk.
  destruct (item_table_returns regex_guess it) as [data Hd].
  exists data. split; [exact Hd|].
  assert (Hle : Forall (fun row => List.length row <= max_len data) data).
  { apply Forall_forall. intros row. apply max_len_ge. }
  unfold docx_result. rewrite Hk, Hd.
  change (str_eqb (lit "table") (lit "text")) with false.
  change (str_eqb (lit "table") (lit "table")) with true.
  cbn [bind]. rewrite grid_padded by exact Hle.
  split; [reflexivity|].
  apply Forall_map. revert Hle. apply Forall_impl.
  intros row. apply padded_length.
Qed.

Lemma table_item_padded_witness :
  exists data,
    item_table no_quoted_field sample_table_item = Ok data
    /\ docx_result no_quoted_field sample_world 1 sample_table_item
       = Ok (_H3 (title sample_table_item)
             :: if nonempty data
                then [DocxTable
                        (styled sample_world (table_style sample_table_item))
                        (map (padded (max_len data)) data)]
                else [])
    /\ Forall (fun row => List.length row = max_len data)
         (map (padded (max_len data)) data).
Proof.
  apply (@table_item_padded no_quoted_field sample_world 1 sample_table_item).
  reflexivity.
Defined.

(* ------------------------------------------------------------------ *)
(** * The texts of the two documents *)












(* ------------------------------------------------------------------ *)
(** * The result dialog and the list of results *)

Lemma delete_nth_last {A : Type} (l : list A) (x : A) :
  delete_nth (List.length l) (l ++ [x]) = l.
Proof. induction l as [|y l IH]; [reflexivity|]. simpl. now rewrite IH. Qed.

Lemma replace_nth_length {A : Type} (n : nat) (x : A) (l : list A) :
  List.length (replace_nth n x l) = List.length l.
Proof.
  revert n. induction l as [|y l IH]; intros [|n]; simpl; auto.
Qed.

Lemma replace_nth_same {A : Type} (n : nat) (x : A) (l : list A) :
  n < List.length l -> nth_error (replace_nth n x l) n = Some x.
Proof.
  revert n. induction l as [|y l IH]; intros [|n] H; simpl in *;
    try lia; [reflexivity|]. apply IH. lia.
Qed.

Lemma replace_nth_other {A : Type} (n m : nat) (x : A) (l : list A) :
  m <> n -> nth_error (replace_nth n x l) m = nth_error l m.
Proof.
  revert n m. induction l as [|y l IH]; intros [|n] [|m] H; simpl;
    try reflexivity; try congruence. apply IH. congruence.
Qed.

Lemma dialog_item_returns (regex_guess : str -> str -> Csv.quote_guess)
    (d : DialogInput) :
  exists it, dialog_item regex_guess d = Ok it.
Proof.
  unfold dialog_item. destruct (str_eqb (v_kind d) (lit "text")).
  - eexists. reflexivity.
  - destruct (str_eqb (v_kind d) (lit "table")).
    + destruct (parse_table_text_returns regex_guess (strip (txt_table d)))
        as [data ->]. eexists. reflexivity.
    + eexists. reflexivity.
Qed.

(** X18: the item that the result dialog saves has a title that is not
    empty and has no white space at either end: it is the stripped entry,
    or "Untitled" when that is empty.  Its text and its caption are
    stripped too. *)
Theorem dialog_item_title :
  forall (regex_guess : str -> str -> Csv.quote_guess) (d : DialogInput),
    exists it,
      dialog_item regex_guess d = Ok it
      /\ title it = (if truthy (strip (v_title d)) then strip (v_title d)
                     else lit "Untitled")
      /\ truthy (title it) = true
      /\ strip (title it) = title it
      /\ strip (content it) = content it
      /\ strip (caption it) = caption it.
Proof.
  intros regex_guess d.
  assert (Ht : forall t,
             t = (if truthy (strip (v_title d)) then strip (v_title d)
                  else lit "Untitled") ->
             truthy t = true /\ strip t = t).
  { intros t ->. destruct (truthy (strip (v_title d))) eqn:E.
    - split; [exact E | apply strip_idempotent].
    - split; reflexivity. }
  unfold dialog_item. cbv zeta.
  destruct (str_eqb (v_kind d) (lit "text")).
  { eexists. split; [reflexivity|]. cbn [title content caption set_content
      new_ResultItem]. destruct (Ht _ eq_refl) as [H1 H2].
    repeat split; try assumption; try apply strip_idempotent. }
  destruct (str_eqb (v_kind d) (lit "table")).
  { destruct (parse_table_text_returns regex_guess (strip (txt_table d)))
      as [data ->]. cbn [bind].
    eexists. split; [reflexivity|]. cbn [title content caption set_content
      set_table new_ResultItem]. destruct (Ht _ eq_refl) as [H1 H2].
    repeat split; try assumption; try apply strip_idempotent. }
  eexists. split; [reflexivity|]. cbn [title content caption set_images
    new_ResultItem]. destruct (Ht _ eq_refl) as [H1 H2].
  repeat split; try assumption; try apply strip_idempotent.
Qed.

(** X19: adding an item with the dialog and removing the last item of the
    list gives the list back; the new item is the last one and the items
    before it are untouched. *)
Theorem save_then_remove :
  forall (regex_guess : str -> str -> Csv.quote_guess) (d : DialogInput)
         (_results : list ResultItem),
    exists it,
      dialog_item regex_guess d = Ok it
      /\ save regex_guess d None _results = Ok (_results ++ [it])
      /\ _remove_result (Z.of_nat (List.length _results)) (_results ++ [it])
         = _results.
Proof.
  intros regex_guess d rs.
  destruct (dialog_item_returns regex_guess d) as [it Hit].
  exists it. split; [exact Hit|]. unfold save. rewrite Hit. cbn [bind].
  split; [reflexivity|]. unfold _remove_result.
  rewrite length_app. cbn [List.length].
  replace ((0 <=? Z.of_nat (List.length rs))
           && (Z.of_nat (List.length rs)
               <? Z.of_nat (List.length rs + 1)))%Z with true
    by (symmetry; apply andb_true_iff; split;
        [apply Z.leb_le | apply Z.ltb_lt]; lia).
  rewrite Nat2Z.id. apply delete_nth_last.
Qed.

(** X20: saving the dialog of an item under edit puts the new item in the
    place of the old one: the list keeps its length and every other item
    keeps its place. *)
Theorem save_edit_replaces_one :
  forall (regex_guess : str -> str -> Csv.quote_guess) (d : DialogInput)
         (edit_index : nat) (_results : list ResultItem),
    edit_index < List.length _results ->
    exists it saved,
      dialog_item regex_guess d = Ok it
      /\ save regex_guess d (Some edit_index) _results = Ok saved
      /\ List.length saved = List.length _results
      /\ nth_error saved edit_index = Some it
      /\ forall j, j <> edit_index ->
                   nth_error saved j = nth_error _results j.
Proof.
  intros regex_guess d i rs Hi.
  destruct (dialog_item_returns regex_guess d) as [it Hit].
  exists it, (replace_nth i it rs). split; [exact Hit|].
  unfold save. rewrite Hit. cbn [bind].
  replace (Nat.ltb i (List.length rs)) with true
    by (symmetry; apply Nat.ltb_lt; exact Hi).
  split; [reflexivity|]. split; [apply replace_nth_length|].
  split; [now apply replace_nth_same|].
  intros j Hj. now apply replace_nth_other.
Qed.

(** X21: the number of images that the list of results announces for an
    item is the number of image paths that the renderers go through for
    it; no document holds more pictures of an image item than that, and
    the flow document never more than the fixed-layout one. *)
Theorem announced_image_count :
  forall (regex_guess : str -> str -> Csv.quote_guess) (w : World)
         (idx : nat) (it : ResultItem),
    image_count it = List.length (item_images it)
    /\ exists bd bp,
         docx_result regex_guess w idx it = Ok bd
         /\ pdf_result regex_guess w idx it = Ok bp
         /\ List.length (docx_pictures bd) <= List.length (pdf_pictures bp)
         /\ List.length (pdf_pictures bp) <= image_count it.
Proof.
  intros regex_guess w idx it.
  assert (Hc : image_count it = List.length (item_images it)).
  { unfold image_count, item_images.
    destruct (nonempty (images it)); [reflexivity|].
    destruct (image_path it) as [p|]; [|reflexivity].
    destruct (truthy p); reflexivity. }
  split; [exact Hc|].
  destruct (result_pictures regex_guess w idx it)
    as [bd [bp [Hd [Hp [Hpd Hpp]]]]].
  exists bd, bp. split; [exact Hd|]. split; [exact Hp|].
  rewrite Hpd, Hpp, Hc. split.
  - generalize (image_files it) as l.
    induction l as [|p l IH]; [apply le_n|].
    cbn [filter]. destruct (truthy p && isfile w p); cbn [andb].
    + destruct (picture_ok w p); cbn [List.length]; lia.
    + exact IH.
  - unfold image_files. destruct (str_eqb (kind it) (lit "image")).
    + apply filter_length_le.
    + cbn. lia.
Qed.

Lemma save_edit_replaces_one_witness :
  exists it saved,
    dialog_item no_quoted_field sample_dialog = Ok it
    /\ save no_quoted_field sample_dialog (Some 1)
         [sample_text_item; sample_table_item] = Ok saved
    /\ List.length saved = 2
    /\ nth_error saved 1 = Some it
    /\ forall j, j <> 1 ->
                 nth_error saved j
                 = nth_error [sample_text_item; sample_table_item] j.
Proof.
  apply (@save_edit_replaces_one no_quoted_field sample_dialog 1
           [sample_text_item; sample_table_item]).
  simpl. lia.
Defined.

(* ------------------------------------------------------------------ *)
(** * The image manager *)

Import ImageManager.

Lemma contains_In (l : list str) (p : str) :
  contains l p = true <-> In p l.
Proof.
  unfold contains. rewrite existsb_exists. split.
  - intros [x [Hx He]]. apply str_eqb_eq in He. now subst.
  - intros H. exists p. split; [exact H | apply str_eqb_refl].
Qed.

Lemma contains_not_In (l : list str) (p : str) :
  contains l p = false <-> ~ In p l.
Proof.
  rewrite <- contains_In. destruct (contains l p); split; congruence.
Qed.

Lemma add_files_fold (paths fs ls : list str) :
  exists added,
    fold_left add_one paths (fs, ls) = (fs ++ added, ls ++ added)
    /\ NoDup added
    /\ forall p, In p added <-> In p paths /\ ~ In p fs.
Proof.
  revert fs ls. induction paths as [|p ps IH]; intros fs ls.
  - exists []. rewrite !app_nil_r. split; [reflexivity|].
    split; [constructor|]. intros p. simpl. tauto.
  - cbn [fold_left]. unfold add_one at 2. cbn [fst snd].
    destruct (contains fs p) eqn:E.
    + destruct (IH fs ls) as [added [Hf [Hn Hi]]].
      exists added. split; [exact Hf|]. split; [exact Hn|].
      intros q. rewrite Hi. apply contains_In in E. simpl.
      split; [tauto|]. intros [[<-|Hq] Hnq]; tauto.
    + apply contains_not_In in E.
      destruct (IH (fs ++ [p]) (ls ++ [p])) as [added [Hf [Hn Hi]]].
      exists (p :: added). rewrite Hf, <- !app_assoc. split; [reflexivity|].
      split.
      * constructor; [|exact Hn]. intros Hp. apply Hi in Hp.
        destruct Hp as [_ Hp]. apply Hp, in_or_app. right. now left.
      * intros q. simpl. rewrite Hi, in_app_iff. simpl.
        split.
        -- intros [<-|[Hq Hnq]]; [tauto|]. tauto.
        -- intros [[<-|Hq] Hnq]; [tauto|].
           destruct (str_eqb p q) eqn:Epq.
           ++ apply str_eqb_eq in Epq. tauto.
           ++ right. split; [exact Hq|]. intros [H|[H|[]]]; [tauto|].
              subst q. now rewrite str_eqb_refl in Epq.
Qed.

Lemma str_eqb_sym (a b : str) : str_eqb a b = str_eqb b a.
Proof.
  revert b. induction a as [|x a IH]; intros [|y b]; try reflexivity.
  simpl. now rewrite IH, N.eqb_sym.
Qed.

Lemma filter_swap {A : Type} (f g : A -> bool) (l : list A) :
  filter f (filter g l) = filter g (filter f l).
Proof.
  induction l as [|x l IH]; [reflexivity|].
  simpl. destruct (f x) eqn:Ef; destruct (g x) eqn:Eg; simpl;
    rewrite ?Ef, ?Eg, IH; reflexivity.
Qed.

Lemma filter_implied {A : Type} (f g : A -> bool) (l : list A) :
  (forall x, f x = true -> g x = true) ->
  filter f (filter g l) = filter f l.
Proof.
  intros H. induction l as [|x l IH]; [reflexivity|].
  simpl. destruct (g x) eqn:Eg; simpl.
  - now rewrite IH.
  - destruct (f x) eqn:Ef; [|exact IH].
    apply H in Ef. congruence.
Qed.

Lemma filter_and {A : Type} (f g : A -> bool) (l : list A) :
  filter (fun x => f x && g x) l = filter g (filter f l).
Proof.
  induction l as [|x l IH]; [reflexivity|].
  simpl. destruct (f x); simpl; [|exact IH].
  destruct (g x); now rewrite IH.
Qed.

(** Taking the first occurrences and leaving paths out can be done in
    either order. *)
Lemma first_occurrences_filter (f : str -> bool) (l : list str) :
  first_occurrences (filter f l) = filter f (first_occurrences l).
Proof.
  induction l as [|x l IH]; [reflexivity|].
  cbn [filter first_occurrences]. destruct (f x) eqn:Ef.
  - cbn [first_occurrences filter]. rewrite IH.
    f_equal. apply filter_swap.
  - rewrite IH. symmetry. apply filter_implied.
    intros y Hy. destruct (str_eqb x y) eqn:E; [|reflexivity].
    apply str_eqb_eq in E. congruence.
Qed.

Lemma contains_app (l : list str) (p q : str) :
  contains (l ++ [p]) q = contains l q || str_eqb q p.
Proof.
  unfold contains. rewrite existsb_app. cbn [existsb].
  now rewrite orb_false_r.
Qed.

(** The loop of [_add_files]: what it appends. *)
Lemma add_files_fold_exact (paths fs ls : list str) :
  fold_left add_one paths (fs, ls)
  = (fs ++ first_occurrences
             (filter (fun p => negb (contains fs p)) paths),
     ls ++ first_occurrences
             (filter (fun p => negb (contains fs p)) paths)).
Proof.
  revert fs ls. induction paths as [|p ps IH]; intros fs ls.
  - cbn. now rewrite !app_nil_r.
  - cbn [fold_left filter]. unfold add_one at 2. cbn [fst snd].
    destruct (contains fs p) eqn:E; cbn [negb].
    + apply IH.
    + rewrite IH. cbn [first_occurrences]. rewrite <- !app_assoc.
      cbn [app].
      assert (H : first_occurrences
                    (filter (fun q => negb (contains (fs ++ [p]) q)) ps)
                  = filter (fun q => negb (str_eqb p q))
                      (first_occurrences
                         (filter (fun q => negb (contains fs q)) ps))).
      { rewrite <- first_occurrences_filter, <- filter_and. f_equal.
        apply filter_ext. intros q.
        now rewrite contains_app, negb_orb, str_eqb_sym. }
      now rewrite H.
Qed.

(** X22: Add puts behind the paths that were there the chosen paths that are
    not yet in [files]: each once, at the place of its first occurrence
    in the choice, in [files] and in the list box alike; nothing that was
    there is touched. *)
Theorem add_files_appends_new :
  forall (paths : list str) (m : ImageManager.t),
    let added :=
      first_occurrences
        (filter (fun p => negb (contains (files m) p)) paths) in
    files (_add_files paths m) = files m ++ added
    /\ lst (_add_files paths m) = lst m ++ added
    /\ NoDup added
    /\ forall p, In p added <-> In p paths /\ ~ In p (files m).
Proof.
  intros paths m. cbv zeta.
  destruct (add_files_fold paths (files m) (lst m)) as [added [Hf [Hn Hi]]].
  rewrite add_files_fold_exact in Hf.
  injection Hf as Hf _. apply app_inv_head in Hf. subst added.
  unfold _add_files. destruct paths as [|p ps].
  - cbn [nonempty negb filter first_occurrences]. rewrite !app_nil_r.
    split; [reflexivity|]. split; [reflexivity|]. split; [constructor|].
    intros q. simpl. tauto.
  - cbn [nonempty negb]. cbv zeta. rewrite add_files_fold_exact.
    cbn [files lst fst snd]. auto.
Qed.

Lemma subseq_trans {A : Type} (a b c : list A) :
  subseq a b -> subseq b c -> subseq a c.
Proof.
  intros Hab Hbc. revert a Hab.
  induction Hbc as [|x b c Hbc IH|x b c Hbc IH]; intros a Hab.
  - exact Hab.
  - apply subseq_skip. now apply IH.
  - inversion Hab; subst.
    + apply subseq_skip. now apply IH.
    + apply subseq_keep. now apply IH.
Qed.

Lemma delete_nth_subseq {A : Type} (i : nat) (l : list A) :
  subseq (delete_nth i l) l.
Proof.
  revert i. induction l as [|x l IH]; intros [|i]; simpl.
  - constructor.
  - constructor.
  - apply subseq_skip, subseq_refl.
  - apply subseq_keep, IH.
Qed.

Lemma delete_nth_length {A : Type} (i : nat) (l : list A) :
  i < List.length l -> S (List.length (delete_nth i l)) = List.length l.
Proof.
  revert i. induction l as [|x l IH]; intros [|i] H; simpl in *; try lia.
  rewrite IH by lia. reflexivity.
Qed.

Lemma delete_nth_below {A : Type} (i k : nat) (l : list A) (d : A) :
  k < i -> nth k (delete_nth i l) d = nth k l d.
Proof.
  revert i k. induction l as [|x l IH]; intros [|i] [|k] H; simpl;
    try reflexivity; try lia. apply IH. lia.
Qed.

Lemma delete_nth_In (i : nat) (l : list str) (p : str) :
  NoDup l -> i < List.length l ->
  (In p (delete_nth i l) <-> In p l /\ p <> nth i l []).
Proof.
  revert i. induction l as [|x l IH]; intros [|i] Hn Hi; simpl in *;
    try lia; inversion Hn as [|? ? Hx Hl]; subst.
  - split.
    + intros H. split; [now right|]. intros ->. contradiction.
    + intros [[->|H] Hp]; [congruence | exact H].
  - rewrite (IH i Hl) by lia. split.
    + intros [<-|[H Hp]]; [|tauto]. split; [now left|].
      intros ->. apply Hx, nth_In. lia.
    + intros [[<-|H] Hp]; [now left | right; tauto].
Qed.

Lemma delete_nth_NoDup {A : Type} (i : nat) (l : list A) :
  NoDup l -> NoDup (delete_nth i l).
Proof.
  revert i. induction l as [|x l IH]; intros [|i] H; simpl;
    try constructor; inversion H as [|? ? Hx Hl]; subst; try assumption.
  - intros Hin. apply Hx.
    clear - Hin. revert i Hin. induction l as [|y l IHl]; intros [|i] Hin;
      simpl in *; try tauto. destruct Hin as [->|Hin]; [now left|].
    right. now apply (IHl i).
  - now apply IH.
Qed.

Lemma remove_at (i : nat) (l : list str) :
  NoDup l -> i < List.length l ->
  ImageManager.remove (nth i l []) l = delete_nth i l.
Proof.
  revert i. induction l as [|x l IH]; intros [|i] Hn Hi; simpl in *;
    try lia; inversion Hn as [|? ? Hx Hl]; subst.
  - now rewrite str_eqb_refl.
  - destruct (str_eqb x (nth i l [])) eqn:E.
    + apply str_eqb_eq in E. subst x. exfalso. apply Hx, nth_In. lia.
    + rewrite IH by (assumption || lia). reflexivity.
Qed.

Lemma remove_one_in_sync (i : nat) (l : list str) :
  NoDup l -> i < List.length l ->
  remove_one (l, l) i = (delete_nth i l, delete_nth i l).
Proof.
  intros Hn Hi. unfold remove_one. cbn [fst snd].
  replace (contains l (nth i l [])) with true
    by (symmetry; apply contains_In, nth_In; exact Hi).
  now rewrite remove_at.
Qed.

Lemma sorted_last (s : list nat) (i : nat) :
  StronglySorted lt (s ++ [i]) ->
  StronglySorted lt s /\ Forall (fun k => k < i) s.
Proof.
  induction s as [|k s IH]; intros H; [split; constructor|].
  simpl in H. apply StronglySorted_inv in H. destruct H as [Hs Hk].
  destruct (IH Hs) as [Hs' Hf]. split.
  - constructor; [exact Hs'|].
    rewrite Forall_app in Hk. tauto.
  - constructor; [|exact Hf].
    rewrite Forall_app in Hk. destruct Hk as [_ Hk].
    now inversion Hk.
Qed.

(** The loop of [_remove_selected] on two lists that agree. *)
Lemma remove_fold (sel : list nat) (l : list str) :
  StronglySorted lt sel -> Forall (fun i => i < List.length l) sel ->
  NoDup l ->
  exists l',
    fold_left remove_one (rev sel) (l, l) = (l', l')
    /\ NoDup l'
    /\ subseq l' l
    /\ List.length l' + List.length sel = List.length l
    /\ forall p,
         In p l' <-> In p l /\ ~ In p (map (fun i => nth i l []) sel).
Proof.
  revert l. induction sel as [|i s IH] using rev_ind; intros l Hs Hf Hn.
  - exists l. split; [reflexivity|]. split; [exact Hn|].
    split; [apply subseq_refl|]. split; [simpl; lia|].
    intros p. simpl. tauto.
  - rewrite rev_app_distr. cbn [rev app fold_left].
    apply sorted_last in Hs. destruct Hs as [Hs Hlt].
    rewrite Forall_app in Hf. destruct Hf as [Hf Hi].
    inversion Hi as [|? ? Hi' _]; subst.
    rewrite remove_one_in_sync by assumption.
    assert (Hf1 : Forall (fun k => k < List.length (delete_nth i l)) s).
    { rewrite Forall_forall in *. intros k Hk.
      specialize (Hlt k Hk). pose proof (delete_nth_length l Hi'). lia. }
    destruct (IH (delete_nth i l) Hs Hf1 (delete_nth_NoDup i Hn))
      as [l' [Hfold [Hn' [Hsub [Hlen Hin]]]]].
    exists l'. split; [exact Hfold|]. split; [exact Hn'|].
    split; [eapply subseq_trans; [exact Hsub | apply delete_nth_subseq]|].
    split.
    + rewrite length_app. cbn [List.length].
      pose proof (delete_nth_length l Hi'). lia.
    + intros p. rewrite Hin, delete_nth_In by assumption.
      rewrite map_app, in_app_iff. cbn [map In].
      assert (Hm : map (fun k => nth k (delete_nth i l) []) s
                   = map (fun k => nth k l []) s).
      { apply map_ext_in. intros k Hk. apply delete_nth_below.
        rewrite Forall_forall in Hlt. now apply Hlt. }
      rewrite Hm. split.
      * intros [[H1 H2] H3]. split; [exact H1|].
        intros [H|[H|[]]]; [tauto | congruence].
      * intros [H1 H2]. split; [split; [exact H1|] |]; [|tauto].
        intros ->. apply H2. right. now left.
Qed.

(** X23: Remove takes out of both lists the paths at the selected places
    and no other: when the two lists agree and hold no path twice, they
    still do afterwards, the paths left keep their order, and a path is
    left exactly when it was there and not selected. *)
Theorem remove_selected_removes_selection :
  forall m : ImageManager.t,
    in_sync m -> selection_ok m ->
    let m' := _remove_selected m in
    in_sync m'
    /\ curselection m' = []
    /\ subseq (files m') (files m)
    /\ List.length (files m') + List.length (curselection m)
       = List.length (files m)
    /\ forall p,
         In p (files m')
         <-> In p (files m)
             /\ ~ In p (map (fun i => nth i (files m) []) (curselection m)).
Proof.
  intros [fs ls sel] [Hsync Hn] [Hs Hf]. cbn [files lst curselection] in *.
  subst ls. cbv zeta. unfold _remove_selected. cbn [files lst curselection].
  destruct sel as [|i sel].
  - cbn [nonempty negb files lst curselection]. split; [split; auto|].
    split; [reflexivity|]. split; [apply subseq_refl|].
    split; [simpl; lia|]. intros p. simpl. tauto.
  - cbn [nonempty negb]. cbv zeta.
    destruct (remove_fold Hs Hf Hn) as [l' [Hfold [Hn' [Hsub [Hlen Hin]]]]].
    rewrite Hfold. cbn [files lst curselection fst snd].
    split; [split; [reflexivity | exact Hn']|].
    split; [reflexivity|]. split; [exact Hsub|]. split; [exact Hlen|].
    exact Hin.
Qed.

Lemma replace_nth_lookup {A : Type} (n k : nat) (x : A) (l : list A) :
  n < List.length l ->
  nth_error (replace_nth n x l) k
  = if Nat.eqb k n then Some x else nth_error l k.
Proof.
  intros H. destruct (Nat.eqb k n) eqn:E.
  - apply Nat.eqb_eq in E. subst k. now apply replace_nth_same.
  - apply Nat.eqb_neq in E. now apply replace_nth_other.
Qed.

Lemma insert_delete (j : nat) (a : str) (l : list str) :
  j < List.length l -> insert_at j a (delete_nth j l) = replace_nth j a l.
Proof.
  revert j. induction l as [|x l IH]; intros [|j] H; simpl in *; try lia.
  - destruct l; reflexivity.
  - rewrite <- IH by lia. destruct (delete_nth j l) eqn:E; [|reflexivity].
    destruct j; reflexivity.
Qed.

Lemma exchange_involutive (i j k : nat) :
  exchange i j (exchange j i k) = k.
Proof.
  unfold exchange.
  destruct (Nat.eqb k j) eqn:E1; destruct (Nat.eqb k i) eqn:E2;
    repeat match goal with
      | H : Nat.eqb _ _ = true |- _ => apply Nat.eqb_eq in H; subst
      | H : Nat.eqb _ _ = false |- _ => apply Nat.eqb_neq in H
      | |- context [Nat.eqb ?a ?b] => destruct (Nat.eqb a b) eqn:?
      end; congruence.
Qed.

Lemma exchange_bound (i j k n : nat) :
  i < n -> j < n -> k < n -> exchange i j k < n.
Proof.
  intros Hi Hj Hk. unfold exchange.
  destruct (Nat.eqb k i); [exact Hj|]. destruct (Nat.eqb k j); assumption.
Qed.

Lemma exchange_sym (i j k : nat) : exchange i j k = exchange j i k.
Proof.
  unfold exchange.
  destruct (Nat.eqb k i) eqn:E1; destruct (Nat.eqb k j) eqn:E2;
    try reflexivity.
  apply Nat.eqb_eq in E1, E2. congruence.
Qed.

Lemma exchange_NoDup (i j : nat) (l l' : list str) :
  NoDup l -> List.length l' = List.length l ->
  i < List.length l -> j < List.length l ->
  (forall k, nth_error l' k = nth_error l (exchange i j k)) ->
  NoDup l'.
Proof.
  intros Hn Hlen Hi Hj Hk. rewrite NoDup_nth_error in *.
  intros a b Ha Hab. rewrite !Hk in Hab.
  apply Hn in Hab; [|apply exchange_bound; lia].
  rewrite <- (exchange_involutive j i a), <- (exchange_involutive j i b).
  rewrite Hab. reflexivity.
Qed.

(** One press of Up or Down on two lists that agree. *)
Lemma move_step (delta : Z) (l : list str) (i : nat) (rest : list nat) :
  i < List.length l ->
  (0 <= Z.of_nat i + delta < Z.of_nat (List.length l))%Z ->
  let j := Z.to_nat (Z.of_nat i + delta) in
  exists l',
    _move delta {| files := l; lst := l; curselection := i :: rest |}
    = Done {| files := l'; lst := l'; curselection := [j] |}
    /\ List.length l' = List.length l
    /\ forall k, nth_error l' k = nth_error l (exchange i j k).
Proof.
  intros Hi Hj. cbv zeta.
  set (j := Z.to_nat (Z.of_nat i + delta)).
  assert (Hjl : j < List.length l) by (unfold j; lia).
  unfold _move. cbn [files lst curselection]. cbv zeta.
  replace ((Z.of_nat i + delta <? 0)
           || (Z.of_nat i + delta >=? Z.of_nat (List.length l)))%Z
    with false
    by (symmetry; apply orb_false_iff; split;
        [apply Z.ltb_ge | rewrite Z.geb_leb; apply Z.leb_gt]; lia).
  fold j.
  rewrite (nth_error_nth' l [] Hjl), (nth_error_nth' l [] Hi).
  rewrite (@insert_delete j (nth i l []) l Hjl).
  rewrite insert_delete by (rewrite replace_nth_length; exact Hi).
  assert (Hl : forall k,
             nth_error (replace_nth i (nth j l [])
                          (replace_nth j (nth i l []) l)) k
             = nth_error l (exchange i j k)).
  { intros k. unfold exchange.
    rewrite replace_nth_lookup by (rewrite replace_nth_length; exact Hi).
    destruct (Nat.eqb k i) eqn:E1.
    - symmetry. apply nth_error_nth'. exact Hjl.
    - rewrite replace_nth_lookup by exact Hjl.
      destruct (Nat.eqb k j); [|reflexivity].
      symmetry. apply nth_error_nth'. exact Hi. }
  assert (Hf : replace_nth j (nth i l []) (replace_nth i (nth j l []) l)
               = replace_nth i (nth j l []) (replace_nth j (nth i l []) l)).
  { apply nth_error_ext. intros k. rewrite Hl. unfold exchange.
    rewrite replace_nth_lookup by (rewrite replace_nth_length; exact Hjl).
    destruct (Nat.eqb k j) eqn:E2.
    - apply Nat.eqb_eq in E2. subst k.
      destruct (Nat.eqb j i) eqn:E1.
      + apply Nat.eqb_eq in E1. rewrite E1.
        symmetry. apply nth_error_nth'. exact Hi.
      + symmetry. apply nth_error_nth'. exact Hi.
    - rewrite replace_nth_lookup by exact Hi.
      destruct (Nat.eqb k i); [|reflexivity].
      symmetry. apply nth_error_nth'. exact Hjl. }
  eexists. split; [rewrite Hf; reflexivity|].
  split; [now rewrite !replace_nth_length | exact Hl].
Qed.

(** X24: Up and Down exchange the first selected path with its neighbour,
    in [files] and in the list box alike; every other path keeps its
    place, and the new place of the path is then the only one selected.
    The opposite button puts both lists back as they were and leaves the
    place [i] alone selected: that is the selection before the two moves
    when one path was selected, and the first place of it when several
    were. *)
Theorem move_exchanges_neighbours :
  forall (delta : Z) (m : ImageManager.t) (i : nat) (rest : list nat),
    files m = lst m ->
    curselection m = i :: rest ->
    i < List.length (lst m) ->
    (0 <= Z.of_nat i + delta < Z.of_nat (List.length (lst m)))%Z ->
    let j := Z.to_nat (Z.of_nat i + delta) in
    exists m' m'',
      _move delta m = Done m'
      /\ files m' = lst m'
      /\ curselection m' = [j]
      /\ List.length (files m') = List.length (files m)
      /\ (forall k, nth_error (files m') k
                    = nth_error (files m) (exchange i j k))
      /\ _move (- delta) m' = Done m''
      /\ files m'' = files m
      /\ lst m'' = lst m
      /\ curselection m'' = [i]
      /\ (rest = [] -> m'' = m).
Proof.
  intros delta [fs ls sel] i rest Hs Hsel Hi Hj.
  cbn [files lst curselection] in *. subst fs sel. cbv zeta.
  set (j := Z.to_nat (Z.of_nat i + delta)).
  destruct (move_step delta ls rest Hi Hj) as [l' [Hm [Hlen Hk]]].
  fold j in Hm, Hk.
  assert (Hjl : j < List.length l') by (unfold j; lia).
  assert (Hback : (0 <= Z.of_nat j + - delta < Z.of_nat (List.length l'))%Z)
    by (unfold j; lia).
  destruct (move_step (- delta) l' [] Hjl Hback) as [l'' [Hm' [Hlen' Hk']]].
  replace (Z.to_nat (Z.of_nat j + - delta)) with i in Hm', Hk'
    by (unfold j; lia).
  assert (Hl : l'' = ls).
  { apply nth_error_ext. intros k.
    rewrite Hk', Hk, (exchange_sym j i), exchange_sym.
    now rewrite exchange_involutive. }
  subst l''.
  do 2 eexists. split; [exact Hm|]. cbn [files lst curselection].
  split; [reflexivity|]. split; [reflexivity|]. split; [exact Hlen|].
  split; [exact Hk|]. split; [exact Hm'|].
  cbn [files lst curselection].
  split; [reflexivity|]. split; [reflexivity|]. split; [reflexivity|].
  intros ->. reflexivity.
Qed.

Lemma NoDup_append (l added : list str) :
  NoDup l -> NoDup added -> (forall p, In p added -> ~ In p l) ->
  NoDup (l ++ added).
Proof.
  intros Hl Ha Hd. induction Hl as [|x l Hx Hl IH]; [exact Ha|].
  simpl. constructor.
  - rewrite in_app_iff. intros [H|H]; [contradiction|].
    apply (Hd x H). now left.
  - apply IH. intros p Hp Hin. apply (Hd p Hp). now right.
Qed.

(** X25: the buttons keep the two lists together: when [files] and
    the list box hold the same paths, none twice, and the selection is one
    of the list box, the same is true after Add, after Remove and after Up
    or Down, and the swap of Up and Down never fails. *)
Theorem image_lists_stay_in_sync :
  forall (paths : list str) (delta : Z) (m : ImageManager.t),
    in_sync m -> selection_ok m ->
    (in_sync (_add_files paths m) /\ selection_ok (_add_files paths m))
    /\ (in_sync (_remove_selected m)
        /\ selection_ok (_remove_selected m))
    /\ exists m', _move delta m = Done m' /\ in_sync m' /\ selection_ok m'.
Proof.
  intros paths delta [fs ls sel] [Hsync Hn] [Hs Hf].
  cbn [files lst curselection] in *. subst ls.
  split; [|split].
  - unfold _add_files. cbn [files lst curselection].
    destruct paths as [|p ps]; cbn [nonempty negb];
      [split; split; first [reflexivity | assumption]|].
    destruct (add_files_fold (p :: ps) fs fs) as [added [Hfold [Hna Hi]]].
    cbv zeta. rewrite Hfold. cbn [fst snd]. split.
    + split; [reflexivity|]. cbn [files].
      apply NoDup_append; [exact Hn | exact Hna|].
      intros q Hq. now apply Hi in Hq.
    + unfold selection_ok. cbn [lst curselection].
      destruct (fs ++ added) as [|x l] eqn:E.
      * cbn [nonempty]. destruct fs; [|discriminate E].
        split; assumption.
      * cbn [nonempty].
        split; [repeat constructor | constructor; [simpl; lia | constructor]].
  - unfold _remove_selected. cbn [files lst curselection].
    destruct sel as [|i sel]; cbn [nonempty negb];
      [split; split; first [reflexivity | assumption]|].
    destruct (remove_fold Hs Hf Hn) as [l' [Hfold [Hn' _]]].
    cbv zeta. rewrite Hfold. cbn [fst snd].
    split; split; try reflexivity; try assumption; constructor.
  - destruct sel as [|i rest].
    { eexists. split; [reflexivity|]. split; split;
        try reflexivity; assumption. }
    inversion Hf as [|? ? Hi _]; subst.
    destruct ((Z.of_nat i + delta <? 0)
              || (Z.of_nat i + delta >=? Z.of_nat (List.length fs)))%Z
      eqn:E.
    { eexists. split; [unfold _move; cbn [files lst curselection]; cbv zeta;
                       rewrite E; reflexivity|].
      split; split; try reflexivity; assumption. }
    apply orb_false_iff in E. destruct E as [E1 E2].
    apply Z.ltb_ge in E1. rewrite Z.geb_leb in E2. apply Z.leb_gt in E2.
    destruct (move_step delta fs rest Hi (conj E1 E2)) as [l' [Hm [Hlen Hk]]].
    eexists. split; [exact Hm|]. split.
    + split; [reflexivity|]. cbn [files].
      apply (@exchange_NoDup i (Z.to_nat (Z.of_nat i + delta)) fs l'
               Hn Hlen Hi); [lia | exact Hk].
    + unfold selection_ok. cbn [lst curselection].
      split; [repeat constructor | constructor; [lia | constructor]].
Qed.

Ltac manager_facts :=
  repeat split;
  repeat match goal with
    | |- NoDup _ => constructor
    | |- StronglySorted _ _ => constructor
    | |- Forall _ _ => constructor
    | |- ~ In _ _ => let H := fresh in
                     intros H; vm_compute in H; intuition discriminate
    | |- _ < _ => vm_compute; lia
    end.

Lemma remove_selected_removes_selection_witness :
  let m' := _remove_selected sample_manager in
  in_sync m'
  /\ curselection m' = []
  /\ subseq (files m') (files sample_manager)
  /\ List.length (files m') + List.length (curselection sample_manager)
     = List.length (files sample_manager)
  /\ forall p,
       In p (files m')
       <-> In p (files sample_manager)
           /\ ~ In p (map (fun i => nth i (files sample_manager) [])
                        (curselection sample_manager)).
Proof.
  apply (@remove_selected_removes_selection sample_manager); manager_facts.
Defined.

Lemma move_exchanges_neighbours_witness :
  exists m' m'',
    _move 1 sample_manager = Done m'
    /\ files m' = lst m'
    /\ curselection m' = [1]
    /\ List.length (files m') = 3
    /\ (forall k, nth_error (files m') k
                  = nth_error (files sample_manager) (exchange 0 1 k))
    /\ _move (-1) m' = Done m''
    /\ files m'' = files sample_manager
    /\ lst m'' = lst sample_manager
    /\ curselection m'' = [0]
    /\ ([2] = [] -> m'' = sample_manager).
Proof.
  apply (@move_exchanges_neighbours 1 sample_manager 0 [2]);
    [reflexivity | reflexivity | simpl; lia | simpl; lia].
Defined.

Lemma image_lists_stay_in_sync_witness :
  (in_sync (_add_files [lit "d.png"; lit "a.png"] sample_manager)
   /\ selection_ok (_add_files [lit "d.png"; lit "a.png"] sample_manager))
  /\ (in_sync (_remove_selected sample_manager)
      /\ selection_ok (_remove_selected sample_manager))
  /\ exists m',
       _move (-1) sample_manager = Done m' /\ in_sync m' /\ selection_ok m'.
Proof.
  apply (@image_lists_stay_in_sync [lit "d.png"; lit "a.png"] (-1)
           sample_manager); manager_facts.
Defined.

(** X26: the layout chosen for the trial table and the logo of the form
    never reach an output: a run with another layout or another logo
    makes the same folder, writes the same documents at the same paths and
    shows the same dialogs.  The layout is saved with the project; the
    trial table of the PDF has its own fixed widths. *)
Theorem export_ignores_layout_and_logo :
  forall (regex_guess : str -> str -> Csv.quote_guess) (w : World)
         (app : App) (r : ReportModel) (lay logo : str),
    _generate regex_guess w (with_logo logo app) (with_trial_layout lay r)
    = _generate regex_guess w app r
    /\ (forall include header_img footer_img,
          docx_document_of regex_guess w (with_trial_layout lay r) include
            header_img footer_img
          = docx_document_of regex_guess w r include header_img footer_img)
    /\ (forall include,
          story_of regex_guess w (with_trial_layout lay r) include
          = story_of regex_guess w r include).
Proof.
  intros regex_guess w app r lay logo. split; [|split].
  - unfold _generate, docx_stage, pdf_stage, pdf_basic.
    change (project_title (with_trial_layout lay r)) with (project_title r).
    reflexivity.
  - intros include header_img footer_img. unfold docx_document_of.
    reflexivity.
  - intros include. unfold story_of. reflexivity.
Qed.
